(** * Frame redaction pipeline: a shallow embedding

    The development follows three source files:
    - [flask_api.py]: [UltraFastNSFWProcessor], the pipeline with the
      frame cache ([process_frame], [_extract_blur_regions],
      [_apply_ultra_fast_blur], [_clean_cache]);
    - [realtime_video_processor.py]: [VideoStreamProcessor]
      ([process_single_frame], [apply_fast_blur]);
    - [test_pytorch_model.py]: the label table, [create_smooth_mask] and
      [apply_optimized_blur].

    Python [int] is [Z]; Python [float] is IEEE binary64, taken from the
    standard library's executable specification [SpecFloat] at precision
    53; numpy [float32] is the same specification at precision 24; a
    [uint8] channel is a [byte]; a numpy array is a list of rows; the
    dictionary [frame_cache] is a [gmap]; frames live in a store indexed by
    references because the pipeline writes into the caller's buffer. *)

From Stdlib Require Import ZArith List String Bool Lia Strings.Byte.
From Stdlib Require Import SpecFloat QArith Qabs Qpower.
From stdpp Require Import base option list strings gmap pretty.

Local Open Scope Z_scope.

(** ** Exceptions and results *)

Inductive exn : Type :=
  | ZeroDivisionError
  | ValueError
  | OverflowError
  | IndexError
  | ImportError
  | AttributeError
  | cv2_error
  | RuntimeError.

Inductive result (A : Type) : Type :=
  | Ok (a : A)
  | Raise (e : exn).
Arguments Ok {A} a.
Arguments Raise {A} e.

#[global] Instance result_ret : MRet result := fun A a => Ok a.
#[global] Instance result_bind : MBind result := fun A B k m =>
  match m with
  | Ok a => k a
  | Raise e => Raise e
  end.

(** ** Python floats (binary64) *)

Module PyFloat.

Definition float : Type := spec_float.

Definition prec : Z := 53.
Definition emax : Z := 1024.

Definition mul : float -> float -> float := SFmul prec emax.
Definition sub : float -> float -> float := SFsub prec emax.
Definition add : float -> float -> float := SFadd prec emax.

(** [x < y], [x > y], [x == y], [x != y] on floats. *)
Definition lt (x y : float) : bool := SFltb x y.
Definition gt (x y : float) : bool := SFltb y x.
Definition eq (x y : float) : bool := SFeqb x y.
Definition ne (x y : float) : bool := negb (SFeqb x y).

(** [float(n)] for an [int]: correctly rounded, OverflowError when the
    magnitude exceeds the binary64 range. *)
Definition of_int (n : Z) : result float :=
  match binary_normalize prec emax n 0 false with
  | S754_infinity _ => Raise OverflowError
  | f => Ok f
  end.

(** [int(x)]: truncation toward zero; ValueError on NaN, OverflowError on
    an infinity. *)
Definition to_int (x : float) : result Z :=
  match x with
  | S754_zero _ => Ok 0
  | S754_finite s m e => Ok (cond_Zopp s (Z.shiftl (Zpos m) e))
  | S754_infinity _ => Raise OverflowError
  | S754_nan => Raise ValueError
  end.

(** [x / y] on floats: ZeroDivisionError on a zero divisor. *)
Definition div (x y : float) : result float :=
  match y with
  | S754_zero _ => Raise ZeroDivisionError
  | _ => Ok (SFdiv prec emax x y)
  end.

(** The float nearest to the fraction [n / d] of two small integers; a
    decimal literal such as [0.3] denotes [lit 3 10]. *)
Definition lit (n d : Z) : float :=
  SFdiv prec emax (binary_normalize prec emax n 0 false)
                  (binary_normalize prec emax d 0 false).

Definition one : float := Eval vm_compute in lit 1 1.

(** [n * x] for an [int] [n] and a float [x]. *)
Definition int_mul (n : Z) (x : float) : result float :=
  fn ← of_int n; Ok (mul fn x).

(** [int(n * x)]. *)
Definition int_of_scaled (n : Z) (x : float) : result Z :=
  p ← int_mul n x; to_int p.

End PyFloat.

Abbreviation float := PyFloat.float.

(** ** numpy [float32] and [uint8] *)

Module F32.

Definition prec : Z := 24.
Definition emax : Z := 128.

Definition mul : spec_float -> spec_float -> spec_float := SFmul prec emax.
Definition add : spec_float -> spec_float -> spec_float := SFadd prec emax.
Definition sub : spec_float -> spec_float -> spec_float := SFsub prec emax.
Definition div : spec_float -> spec_float -> spec_float := SFdiv prec emax.

(** [astype(np.float32)] of an integer. *)
Definition of_int (n : Z) : spec_float := binary_normalize prec emax n 0 false.

End F32.

(** The value of a [uint8] channel, and the wrap-around of an integer
    stored into a [uint8] array. *)
Definition byte_val (b : byte) : Z := Z.of_N (Byte.to_N b).

Definition uint8 (n : Z) : Z := n mod 256.

Definition byte_of_Z (n : Z) : byte :=
  default x00 (Byte.of_N (Z.to_N (uint8 n))).

(** [astype(np.uint8)] of a [float32]: the fractional part is dropped. *)
Definition uint8_of_f32 (x : spec_float) : byte :=
  match PyFloat.to_int x with
  | Ok n => byte_of_Z n
  | Raise _ => x00
  end.

(** ** The label table of [test_pytorch_model.py] *)

Definition __labels : list string :=
  [ "FEMALE_GENITALIA_COVERED"; "FACE_FEMALE"; "BUTTOCKS_EXPOSED";
    "FEMALE_BREAST_EXPOSED"; "FEMALE_GENITALIA_EXPOSED";
    "MALE_BREAST_EXPOSED"; "ANUS_EXPOSED"; "FEET_EXPOSED"; "BELLY_COVERED";
    "FEET_COVERED"; "ARMPITS_COVERED"; "ARMPITS_EXPOSED"; "FACE_MALE";
    "BELLY_EXPOSED"; "MALE_GENITALIA_EXPOSED"; "ANUS_COVERED";
    "FEMALE_BREAST_COVERED"; "BUTTOCKS_COVERED" ]%string.

Definition get_labels : list string := __labels.

(** [l[i]] for a Python list: a negative index counts from the end, an
    index out of range raises IndexError. *)
Definition py_index {A} (l : list A) (i : Z) : result A :=
  let n := Z.of_nat (length l) in
  let j := if i <? 0 then i + n else i in
  if (0 <=? j) && (j <? n)
  then match l !! Z.to_nat j with
       | Some a => Ok a
       | None => Raise IndexError
       end
  else Raise IndexError.

(** ** Detector output *)

(** One element of [r.boxes]: [box.xyxy[0]], [box.conf[0]], [box.cls[0]]. *)
Record box : Type := Box {
  xyxy : float * float * float * float;
  conf : float;
  cls : float
}.

(** The detector returns a sequence of results [r]; [r.boxes] is [None] or
    a sequence of boxes. *)
Definition results : Type := list (option (list box)).

(** A blur region: the tuple [(x1, y1, x2, y2, class_name, conf)]. *)
Record region : Type := Region {
  rx1 : Z; ry1 : Z; rx2 : Z; ry2 : Z;
  rclass : string;
  rconf : float
}.

(** ** numpy arrays *)

(** A two-dimensional array is the list of its rows.  A frame has [uint8]
    BGR pixels. *)
Definition array2 (A : Type) : Type := list (list A).

Definition pixel : Type := byte * byte * byte.
Definition image : Type := array2 pixel.

Definition len {A} (l : list A) : Z := Z.of_nat (length l).

Definition height {A} (arr : array2 A) : Z := len arr.
Definition width {A} (arr : array2 A) : Z :=
  match arr with
  | [] => 0
  | row :: _ => len row
  end.

(** [arr.shape[:2]] as [(height, width)] and [arr.size] for three channels. *)
Definition shape {A} (arr : array2 A) : Z * Z := (height arr, width arr).
Definition size3 {A} (arr : array2 A) : Z := height arr * width arr * 3.

(** Every row has the same length [w]. *)
Definition rectangular {A} (arr : array2 A) (w : Z) : Prop :=
  Forall (fun row => len row = w) arr.

(** The pixel at row [r], column [c]. *)
Definition at2 {A} (arr : array2 A) (r c : nat) : option A :=
  row ← arr !! r; row !! c.

(** Python slice bounds: [l[a:b]] on a sequence of length [n] starts at
    [slice_bound a n]; a negative bound counts from the end and every bound
    is clipped to [0, n]. *)
Definition slice_bound (i n : Z) : Z :=
  if i <? 0 then Z.max (i + n) 0 else Z.min i n.

(** Start and stop of [l[a:b]], with [stop >= start]. *)
Definition slice_range (a b n : Z) : nat * nat :=
  let lo := slice_bound a n in
  let hi := slice_bound b n in
  (Z.to_nat lo, Z.to_nat (Z.max lo hi)).

Definition py_slice {A} (l : list A) (a b : Z) : list A :=
  let '(lo, hi) := slice_range a b (len l) in
  take (hi - lo) (drop lo l).

(** [arr[y1:y2, x1:x2]]. *)
Definition slice2 {A} (arr : array2 A) (y1 y2 x1 x2 : Z) : array2 A :=
  map (fun row => py_slice row x1 x2) (py_slice arr y1 y2).

(** Broadcasting of an assigned value along one axis: the lengths agree, or
    the value has length one and is repeated; otherwise numpy raises
    ValueError. *)
Definition broadcast {A} (l : list A) (n : nat) : result (list A) :=
  if Nat.eqb (length l) n then Ok l
  else match l with
       | [x] => Ok (replicate n x)
       | _ => Raise ValueError
       end.

(** [row[x1:x2] = new]. *)
Definition assign_row {A} (row : list A) (x1 x2 : Z) (new : list A)
  : result (list A) :=
  let '(lo, hi) := slice_range x1 x2 (len row) in
  new' ← broadcast new (hi - lo);
  Ok (take lo row ++ new' ++ drop hi row).

Fixpoint assign_rows {A} (rows : array2 A) (x1 x2 : Z) (patch : array2 A)
  : result (array2 A) :=
  match rows, patch with
  | row :: rows', prow :: patch' =>
      row' ← assign_row row x1 x2 prow;
      rest ← assign_rows rows' x1 x2 patch';
      Ok (row' :: rest)
  | _, _ => Ok []
  end.

(** [arr[y1:y2, x1:x2] = patch]: the rows of the slice are overwritten in
    place; the result is the new content of the buffer. *)
Definition assign_slice2 {A} (arr : array2 A) (y1 y2 x1 x2 : Z)
    (patch : array2 A) : result (array2 A) :=
  let '(lo, hi) := slice_range y1 y2 (len arr) in
  patch' ← broadcast patch (hi - lo);
  mid ← assign_rows (take (hi - lo) (drop lo arr)) x1 x2 patch';
  Ok (take lo arr ++ mid ++ drop hi arr).

(** ** [UltraFastNSFWProcessor]: region extraction *)

(** The keys of the dictionary [self.nsfw_classes]. *)
Definition nsfw_classes : list string :=
  [ "BUTTOCKS_EXPOSED"; "FEMALE_BREAST_EXPOSED"; "FEMALE_GENITALIA_EXPOSED";
    "MALE_GENITALIA_EXPOSED"; "ANUS_EXPOSED" ]%string.

Definition coords : Type := Z * Z * Z * Z.

(** [x1, y1, x2, y2 = map(int, coords)]. *)
Definition int_coords (c : float * float * float * float) : result coords :=
  let '(c1, c2, c3, c4) := c in
  x1 ← PyFloat.to_int c1;
  y1 ← PyFloat.to_int c2;
  x2 ← PyFloat.to_int c3;
  y2 ← PyFloat.to_int c4;
  Ok (x1, y1, x2, y2).

(** Scale coordinates back to original size:
    [if resize_factor != 1.0: scale = 1.0 / resize_factor;
     x1, y1, x2, y2 = [int(coord * scale) for coord in [x1, y1, x2, y2]]]. *)
Definition scale_back (resize_factor : float) (c : coords) : result coords :=
  let '(x1, y1, x2, y2) := c in
  if PyFloat.ne resize_factor PyFloat.one then
    scale ← PyFloat.div PyFloat.one resize_factor;
    x1' ← PyFloat.int_of_scaled x1 scale;
    y1' ← PyFloat.int_of_scaled y1 scale;
    x2' ← PyFloat.int_of_scaled x2 scale;
    y2' ← PyFloat.int_of_scaled y2 scale;
    Ok (x1', y1', x2', y2')
  else Ok c.

(** Ensure coordinates are within bounds. *)
Definition clamp_box (height width : Z) (c : coords) : coords :=
  let '(x1, y1, x2, y2) := c in
  let x1 := Z.max 0 (Z.min x1 width) in
  let y1 := Z.max 0 (Z.min y1 height) in
  let x2 := Z.max x1 (Z.min x2 width) in
  let y2 := Z.max y1 (Z.min y2 height) in
  (x1, y1, x2, y2).

Definition region_of (c : coords) (class_name : string) (cf : float) : region :=
  let '(x1, y1, x2, y2) := c in Region x1 y1 x2 y2 class_name cf.

(** The body of the loop over [boxes] in [_extract_blur_regions]: the
    region appended for one box, if any. *)
Definition extract_box (labels : list string) (original_shape : Z * Z)
    (resize_factor : float) (b : box) : result (option region) :=
  cls ← PyFloat.to_int (cls b);
  if cls <? len labels then
    class_name ← py_index labels cls;
    if bool_decide (class_name ∈ nsfw_classes) then
      c ← int_coords (xyxy b);
      c ← scale_back resize_factor c;
      let '(height, width) := original_shape in
      Ok (Some (region_of (clamp_box height width c) class_name (conf b)))
    else Ok None
  else Ok None.

Fixpoint extract_boxes (labels : list string) (original_shape : Z * Z)
    (resize_factor : float) (boxes : list box) (blur_regions : list region)
  : result (list region) :=
  match boxes with
  | [] => Ok blur_regions
  | b :: boxes' =>
      r ← extract_box labels original_shape resize_factor b;
      extract_boxes labels original_shape resize_factor boxes'
        (match r with
         | Some reg => blur_regions ++ [reg]
         | None => blur_regions
         end)
  end.

Fixpoint extract_results (labels : list string) (original_shape : Z * Z)
    (resize_factor : float) (rs : results) (blur_regions : list region)
  : result (list region) :=
  match rs with
  | [] => Ok blur_regions
  | None :: rs' =>
      extract_results labels original_shape resize_factor rs' blur_regions
  | Some boxes :: rs' =>
      acc ← extract_boxes labels original_shape resize_factor boxes
              blur_regions;
      extract_results labels original_shape resize_factor rs' acc
  end.

(** [_extract_blur_regions(results, original_shape, resize_factor)]; the
    import of [get_labels] succeeds, [test_pytorch_model.py] being part of
    the repository. *)
Definition _extract_blur_regions (rs : results) (original_shape : Z * Z)
    (resize_factor : float) : result (list region) :=
  extract_results get_labels original_shape resize_factor rs [].

(** A detection as returned to the caller: the dictionary with the keys
    [class], [confidence] and [bbox]. *)
Record detection : Type := Detection {
  det_class : string;
  det_confidence : float;
  det_bbox : list Z
}.

Definition detection_of (r : region) : detection :=
  Detection (rclass r) (rconf r) [rx1 r; ry1 r; rx2 r; ry2 r].

(** ** The interpreter state *)

(** A frame handed to the pipeline is a reference into the store of numpy
    buffers: writing through the reference is seen by every holder. *)
Definition ref : Type := nat.

(** The part of the state that does not belong to a processor object: the
    buffers, the number of [time.time()] readings and of detector
    invocations so far, and what was passed to [logger.error]. *)
Record state (Self : Type) : Type := State {
  self : Self;
  store : gmap ref image;
  clock_reads : nat;
  detector_calls : nat;
  error_log : list exn
}.
Arguments State {Self} _ _ _ _ _.
Arguments self {Self} _.
Arguments store {Self} _.
Arguments clock_reads {Self} _.
Arguments detector_calls {Self} _.
Arguments error_log {Self} _.

(** Computations that read and write the state and may raise; what was
    written before an exception stays written. *)
Definition M (Self A : Type) : Type := state Self -> result A * state Self.

#[global] Instance M_ret {Self} : MRet (M Self) := fun A a s => (Ok a, s).
#[global] Instance M_bind {Self} : MBind (M Self) := fun A B k m s =>
  match m s with
  | (Ok a, s') => k a s'
  | (Raise e, s') => (Raise e, s')
  end.

Definition lift {Self A} (r : result A) : M Self A := fun s => (r, s).

Definition gets {Self A} (f : Self -> A) : M Self A :=
  fun s => (Ok (f (self s)), s).

Definition modify {Self} (f : Self -> Self) : M Self unit :=
  fun s => (Ok tt, State (f (self s)) (store s) (clock_reads s)
                     (detector_calls s) (error_log s)).

(** [try: body except Exception as e: handler(e)]. *)
Definition try_except {Self A} (body : M Self A) (handler : exn -> M Self A)
  : M Self A :=
  fun s =>
    match body s with
    | (Raise e, s') => handler e s'
    | (Ok a, s') => (Ok a, s')
    end.

(** Reading a buffer through a reference; a dangling reference stands for
    an object without a [shape]. *)
Definition load {Self} (r : ref) : M Self image :=
  fun s =>
    match store s !! r with
    | Some img => (Ok img, s)
    | None => (Raise AttributeError, s)
    end.

(** Overwriting the content of a buffer in place. *)
Definition write {Self} (r : ref) (img : image) : M Self unit :=
  fun s => (Ok tt, State (self s) (<[r := img]> (store s)) (clock_reads s)
                     (detector_calls s) (error_log s)).

(** [arr.copy()]: a new buffer with the same content. *)
Definition copy {Self} (r : ref) : M Self ref :=
  fun s =>
    match store s !! r with
    | Some img =>
        let r' := fresh (dom (store s)) in
        (Ok r', State (self s) (<[r' := img]> (store s)) (clock_reads s)
                  (detector_calls s) (error_log s))
    | None => (Raise AttributeError, s)
    end.

Definition logger_error {Self} (e : exn) : M Self unit :=
  fun s => (Ok tt, State (self s) (store s) (clock_reads s)
                     (detector_calls s) (error_log s ++ [e])).

(** States reached from [s]: an exception was logged, the detector was
    invoked, a buffer was overwritten, the clock was read [n] times. *)
Definition logged {Self} (e : exn) (s : state Self) : state Self :=
  State (self s) (store s) (clock_reads s) (detector_calls s)
    (error_log s ++ [e]).

Definition called {Self} (s : state Self) : state Self :=
  State (self s) (store s) (clock_reads s) (S (detector_calls s))
    (error_log s).

Definition with_store {Self} (st : gmap ref image) (s : state Self)
  : state Self :=
  State (self s) st (clock_reads s) (detector_calls s) (error_log s).

Definition ticked {Self} (n : nat) (s : state Self) : state Self :=
  State (self s) (store s) (n + clock_reads s) (detector_calls s)
    (error_log s).

(** ** OpenCV and the detector *)

Inductive interpolation : Type := INTER_LINEAR | INTER_NEAREST.

(** The fields of [UltraFastNSFWProcessor] that [process_frame] uses. *)
Record cache_entry : Type := CacheEntry {
  cached_result : ref;
  cached_detections : list detection;
  timestamp : float
}.

Record UltraFastNSFWProcessor : Type := Processor {
  resize_factor : float;
  confidence_threshold : float;
  max_detections : Z;
  frame_cache : gmap string cache_entry;
  cache_ttl : float;
  processing_times : list float;
  request_count : Z
}.

Definition set_frame_cache (c : gmap string cache_entry)
    (p : UltraFastNSFWProcessor) : UltraFastNSFWProcessor :=
  Processor (resize_factor p) (confidence_threshold p) (max_detections p)
    c (cache_ttl p) (processing_times p) (request_count p).

Definition set_processing_times (l : list float)
    (p : UltraFastNSFWProcessor) : UltraFastNSFWProcessor :=
  Processor (resize_factor p) (confidence_threshold p) (max_detections p)
    (frame_cache p) (cache_ttl p) l (request_count p).

Definition set_request_count (n : Z)
    (p : UltraFastNSFWProcessor) : UltraFastNSFWProcessor :=
  Processor (resize_factor p) (confidence_threshold p) (max_detections p)
    (frame_cache p) (cache_ttl p) (processing_times p) n.

(** [if frame_id]: [None] and the empty string are false. *)
Definition truthy_id (frame_id : option string) : option string :=
  match frame_id with
  | Some EmptyString => None
  | other => other
  end.

Section Environment.

(** The detector [self.model(frame, conf=, max_det=)], whose answer may
    change from one invocation to the next and which may raise, and the
    successive readings of [time.time()]. *)
Variable model : nat -> image -> float -> Z -> result results.
Variable clock : nat -> float.

Context {Self : Type}.

Definition time_time : M Self float :=
  fun s => (Ok (clock (clock_reads s)),
            State (self s) (store s) (S (clock_reads s))
              (detector_calls s) (error_log s)).

Definition call_model (frame : image) (cf : float) (max_det : Z)
  : M Self results :=
  fun s => (model (detector_calls s) frame cf max_det,
            State (self s) (store s) (clock_reads s)
              (S (detector_calls s)) (error_log s)).

End Environment.

(** ** [UltraFastNSFWProcessor]: compositing, cache and [process_frame] *)

Section Flask.

(** What the pipeline calls and does not define: [cv2.GaussianBlur(src,
    ksize, sigmaX)] and [cv2.resize(src, dsize, interpolation)] with
    [dsize = (width, height)], each of which may raise, the detector and
    the clock. *)
Variable GaussianBlur : image -> Z * Z -> Z -> result image.
Variable cv2_resize : image -> Z * Z -> interpolation -> result image.
Variable model : nat -> image -> float -> Z -> result results.
Variable clock : nat -> float.

Local Abbreviation M := (M UltraFastNSFWProcessor).

(** The body of the loop of [_apply_ultra_fast_blur] for one region: the
    new content of the frame buffer, or the exception raised before
    anything of this region was written. *)
Definition ultra_fast_blur_region (frame : image) (r : region)
  : result image :=
  let '(x1, y1, x2, y2) := (rx1 r, ry1 r, rx2 r, ry2 r) in
  if (x2 >? x1) && (y2 >? y1) then
    let roi := slice2 frame y1 y2 x1 x2 in
    if size3 roi >? 0 then
      let '(h, w) := shape roi in
      let kernel_size := Z.min 15 (Z.max 5 (Z.min (w / 4) (h / 4))) in
      let kernel_size :=
        if kernel_size mod 2 =? 0 then kernel_size + 1 else kernel_size in
      blurred ← GaussianBlur roi (kernel_size, kernel_size) 0;
      let pixel_size := Z.max 2 (Z.min (w / 12) (h / 12)) in
      blurred ←
        (if pixel_size >? 1 then
           small ← cv2_resize blurred (w / pixel_size, h / pixel_size)
                     INTER_LINEAR;
           cv2_resize small (w, h) INTER_NEAREST
         else Ok blurred);
      assign_slice2 frame y1 y2 x1 x2 blurred
    else Ok frame
  else Ok frame.

(** [_apply_ultra_fast_blur(frame, blur_regions)]: every region is
    written into the buffer [frame] refers to; the reference itself is
    returned. *)
Fixpoint _apply_ultra_fast_blur (frame : ref) (blur_regions : list region)
  : M ref :=
  match blur_regions with
  | [] => mret frame
  | r :: rest =>
      img ← load frame;
      img' ← lift (ultra_fast_blur_region img r);
      write frame img';;
      _apply_ultra_fast_blur frame rest
  end.

(** [_clean_cache()]: entries older than the time-to-live are deleted. *)
Definition expired (current_time ttl : float) (e : cache_entry) : bool :=
  PyFloat.gt (PyFloat.sub current_time (timestamp e)) ttl.

Definition _clean_cache : M unit :=
  current_time ← time_time clock;
  modify (fun p =>
    set_frame_cache
      (filter (fun kv => expired current_time (cache_ttl p) kv.2 = false)
         (frame_cache p)) p).

(** Check cache first: the pair to return at once, if any. *)
Definition cache_lookup (frame_id : option string)
  : M (option (ref * list detection)) :=
  match truthy_id frame_id with
  | Some id =>
      cache ← gets frame_cache;
      match cache !! id with
      | Some cache_entry =>
          now ← time_time clock;
          ttl ← gets cache_ttl;
          if PyFloat.lt (PyFloat.sub now (timestamp cache_entry)) ttl
          then mret (Some (cached_result cache_entry,
                           cached_detections cache_entry))
          else mret None
      | None => mret None
      end
  | None => mret None
  end.

(** Cache result: the entry is written, then the cache is cleaned. *)
Definition cache_store (frame_id : option string) (frame : ref)
    (detections : list detection) : M unit :=
  match truthy_id frame_id with
  | Some id =>
      now ← time_time clock;
      modify (fun p =>
        set_frame_cache
          (<[id := CacheEntry frame detections now]> (frame_cache p)) p);;
      _clean_cache
  | None => mret tt
  end.

(** Aggressive resize for speed: the frame given to the detector. *)
Definition resize_for_inference (img : image) (resize_factor : float)
  : result image :=
  if PyFloat.ne resize_factor PyFloat.one then
    let '(height, width) := shape img in
    new_height ← PyFloat.int_of_scaled height resize_factor;
    new_width ← PyFloat.int_of_scaled width resize_factor;
    cv2_resize img (new_width, new_height) INTER_LINEAR
  else Ok img.

(** Track performance. *)
Definition track_performance (start_time : float) : M unit :=
  now ← time_time clock;
  let processing_time :=
    PyFloat.mul (PyFloat.sub now start_time) (PyFloat.lit 1000 1) in
  modify (fun p =>
    let times := processing_times p ++ [processing_time] in
    set_processing_times
      (if len times >? 100 then drop 1 times else times) p);;
  modify (fun p => set_request_count (request_count p + 1) p).

(** The statements of [process_frame] after the cache check, inside the
    [try]. *)
Definition process_uncached (start_time : float) (frame : ref)
    (frame_id : option string) (confidence_threshold_arg : option float)
    (fast_mode : bool) : M (ref * list detection) :=
  img ← load frame;
  let original_shape := shape img in
  default_threshold ← gets confidence_threshold;
  let conf_threshold :=
    match confidence_threshold_arg with
    | Some c => c
    | None => default_threshold
    end in
  default_factor ← gets resize_factor;
  let resize_factor :=
    if fast_mode then PyFloat.lit 3 10 else default_factor in
  frame_resized ← lift (resize_for_inference img resize_factor);
  max_det ← gets max_detections;
  results ← call_model model frame_resized conf_threshold max_det;
  blur_regions ←
    lift (_extract_blur_regions results original_shape resize_factor);
  let detections := map detection_of blur_regions in
  frame ←
    (match blur_regions with
     | [] => mret frame
     | _ => _apply_ultra_fast_blur frame blur_regions
     end);
  cache_store frame_id frame detections;;
  track_performance start_time;;
  mret (frame, detections).

(** [process_frame(frame, frame_id=None, *, confidence_threshold=None,
    fast_mode=None)].  [fast_mode] is only tested for truth, so it is a
    boolean here ([None] is false).  The handler returns the local
    variable [frame]: it is rebound only to what [_apply_ultra_fast_blur]
    returns, which is the reference it was given, so the variable refers
    to the caller's buffer throughout. *)
Definition process_frame (frame : ref) (frame_id : option string)
    (confidence_threshold_arg : option float) (fast_mode : bool)
  : M (ref * list detection) :=
  start_time ← time_time clock;
  try_except
    (hit ← cache_lookup frame_id;
     match hit with
     | Some cached => mret cached
     | None =>
         process_uncached start_time frame frame_id
           confidence_threshold_arg fast_mode
     end)
    (fun e => logger_error e;; mret (frame, [])).

(** *** Notions used to state what [process_frame] does *)

(** The entry that the cache check of a call started in state [s] will
    serve: the identifier is true, the cache holds an entry for it, and
    the age of the entry, measured at the second clock reading of the
    call, is strictly less than the time-to-live. *)
Definition age (s : state UltraFastNSFWProcessor) (e : cache_entry) : float :=
  PyFloat.sub (clock (S (clock_reads s))) (timestamp e).

Definition fresh_entry (s : state UltraFastNSFWProcessor)
    (frame_id : option string) : option cache_entry :=
  id ← truthy_id frame_id;
  e ← frame_cache (self s) !! id;
  if PyFloat.lt (age s e) (cache_ttl (self s)) then Some e else None.

(** The resize factor of a call. *)
Definition factor (s : state UltraFastNSFWProcessor) (fast_mode : bool)
  : float :=
  if fast_mode then PyFloat.lit 3 10 else resize_factor (self s).

(** A call that misses the cache reaches the detector when the frame can
    be read and resized. *)
Definition reaches_detector (s : state UltraFastNSFWProcessor) (frame : ref)
    (fast_mode : bool) : bool :=
  match store s !! frame with
  | Some img =>
      match resize_for_inference img (factor s fast_mode) with
      | Ok _ => true
      | Raise _ => false
      end
  | None => false
  end.

(** The content of a buffer after the regions were blurred one after the
    other, up to the first region whose blur raises, and that exception
    if there is one. *)
Fixpoint blur_progress (img : image) (blur_regions : list region)
  : image * option exn :=
  match blur_regions with
  | [] => (img, None)
  | r :: rest =>
      match ultra_fast_blur_region img r with
      | Ok img' => blur_progress img' rest
      | Raise e => (img, Some e)
      end
  end.

(** The state in which the [try] block continues after a cache check
    that did not return: the clock was read once for [start_time], and
    once more if the cache held an entry for the identifier. *)
Definition after_lookup (s : state UltraFastNSFWProcessor)
    (frame_id : option string) : state UltraFastNSFWProcessor :=
  match truthy_id frame_id ≫= (fun id => frame_cache (self s) !! id) with
  | Some _ => ticked 2 s
  | None => ticked 1 s
  end.

(** The threshold handed to the detector. *)
Definition threshold (s : state UltraFastNSFWProcessor)
    (confidence_threshold_arg : option float) : float :=
  match confidence_threshold_arg with
  | Some c => c
  | None => confidence_threshold (self s)
  end.

(** The regions of a call that reads [img] from the frame buffer: the
    frame is resized, the detector answers and the extraction returns
    them. *)
Definition selects (s : state UltraFastNSFWProcessor) (img : image)
    (ct : option float) (fm : bool) (regions : list region) : Prop :=
  exists img' rs,
    resize_for_inference img (factor s fm) = Ok img' /\
    model (detector_calls s) img' (threshold s ct)
      (max_detections (self s)) = Ok rs /\
    _extract_blur_regions rs (shape img) (factor s fm) = Ok regions.

(** How a call that misses the cache ends, started in [s] and ending in
    [s'] with the detections [dets]: an exception before anything was
    written, an exception in the blur of some region, or completion. *)
Definition failed_early (s s' : state UltraFastNSFWProcessor)
    (dets : list detection) : Prop :=
  dets = [] /\ store s' = store s /\ self s' = self s /\
  exists e, error_log s' = error_log s ++ [e].

Definition failed_in_blur (s s' : state UltraFastNSFWProcessor)
    (frame : ref) (ct : option float) (fm : bool)
    (dets : list detection) : Prop :=
  exists img regions img2 e,
    store s !! frame = Some img /\
    selects s img ct fm regions /\
    blur_progress img regions = (img2, Some e) /\
    dets = [] /\
    store s' = <[frame := img2]> (store s) /\
    self s' = self s /\
    error_log s' = error_log s ++ [e].

Definition completed (s s' : state UltraFastNSFWProcessor)
    (frame : ref) (frame_id : option string) (ct : option float)
    (fm : bool) (dets : list detection) : Prop :=
  exists img regions img2,
    store s !! frame = Some img /\
    selects s img ct fm regions /\
    blur_progress img regions = (img2, None) /\
    dets = map detection_of regions /\
    store s' = <[frame := img2]> (store s) /\
    error_log s' = error_log s /\
    forall id,
      truthy_id frame_id = Some id ->
      exists t_store t_clean,
        frame_cache (self s') !! id
        = (if expired t_clean (cache_ttl (self s))
                (CacheEntry frame dets t_store)
           then None
           else Some (CacheEntry frame dets t_store)).

End Flask.

(** ** [test_pytorch_model.py]: the edge mask and the masked blend *)

(** A mask is a [uint8] array of one channel. *)
Definition mask : Type := array2 Z.

(** [np.ones((height, width), dtype=np.uint8) * 255]; numpy raises
    ValueError on a negative dimension. *)
Definition full_mask (height width : Z) (v : Z) : result mask :=
  if (height <? 0) || (width <? 0) then Raise ValueError
  else Ok (replicate (Z.to_nat height) (replicate (Z.to_nat width) v)).

(** [mask[i, :] = v] for [0 <= i < height]. *)
Definition set_row (i : Z) (v : Z) (m : mask) : mask :=
  alter (map (fun _ => uint8 v)) (Z.to_nat i) m.

(** [mask[:, i] = np.minimum(mask[:, i], v)] for [0 <= i < width]. *)
Definition min_col (i : Z) (v : Z) (m : mask) : mask :=
  map (alter (fun old => uint8 (Z.min old v)) (Z.to_nat i)) m.

(** [alpha = (i + 1) / padding; intensity = int(255 * alpha)]. *)
Definition intensity (padding i : Z) : result Z :=
  a ← PyFloat.of_int (i + 1);
  b ← PyFloat.of_int padding;
  alpha ← PyFloat.div a b;
  PyFloat.int_of_scaled 255 alpha.

(** One iteration of the loop of [create_smooth_mask]: top edge, bottom
    edge, left edge, right edge. *)
Definition smooth_step (width height padding : Z) (i : Z) (m : mask)
  : result mask :=
  v ← intensity padding i;
  let m := if i <? height then set_row i v m else m in
  let m := if height - 1 - i >=? 0 then set_row (height - 1 - i) v m else m in
  let m := if i <? width then min_col i v m else m in
  let m := if width - 1 - i >=? 0 then min_col (width - 1 - i) v m else m in
  Ok m.

Fixpoint smooth_loop (width height padding : Z) (ixs : list Z) (m : mask)
  : result mask :=
  match ixs with
  | [] => Ok m
  | i :: rest =>
      m' ← smooth_step width height padding i m;
      smooth_loop width height padding rest m'
  end.

(** [range(n)]. *)
Definition range (n : Z) : list Z :=
  map Z.of_nat (seq 0 (Z.to_nat n)).

(** [create_smooth_mask(width, height, padding)]. *)
Definition create_smooth_mask (width height padding : Z) : result mask :=
  m ← full_mask height width 255;
  if padding >? 0
  then smooth_loop width height padding (range padding) m
  else Ok m.

(** [np.maximum(a, b)] on two masks.  Both operands have the same shape
    wherever the program calls it; other shapes raise. *)
Definition np_maximum (a b : mask) : result mask :=
  if bool_decide (map length a = map length b)
  then Ok (zip_with (zip_with Z.max) a b)
  else Raise ValueError.

Definition padding : Z := 5.

(** The padded box of a region on an image of the given shape. *)
Definition padded_box (img_shape : Z * Z) (r : region) : coords :=
  let '(h, w) := img_shape in
  (Z.max 0 (rx1 r - padding), Z.max 0 (ry1 r - padding),
   Z.min w (rx2 r + padding), Z.min h (ry2 r + padding)).

(** The body of the loop over the regions in [apply_optimized_blur]. *)
Definition mark_region (img_shape : Z * Z) (m : mask) (r : region)
  : result mask :=
  let '(x1_pad, y1_pad, x2_pad, y2_pad) := padded_box img_shape r in
  roi_mask ← create_smooth_mask (x2_pad - x1_pad) (y2_pad - y1_pad) padding;
  merged ← np_maximum (slice2 m y1_pad y2_pad x1_pad x2_pad) roi_mask;
  assign_slice2 m y1_pad y2_pad x1_pad x2_pad merged.

Fixpoint mark_regions (img_shape : Z * Z) (m : mask) (rs : list region)
  : result mask :=
  match rs with
  | [] => Ok m
  | r :: rest =>
      m' ← mark_region img_shape m r;
      mark_regions img_shape m' rest
  end.

(** One channel of
    [result.astype(float32) * (1 - mask_3d) + blurred.astype(float32) * mask_3d]
    cast back to [uint8], with [mask_3d = mask.astype(float32) / 255.0]. *)
Definition blend_channel (orig blurred : byte) (m : Z) : byte :=
  let mask_3d := F32.div (F32.of_int m) (F32.of_int 255) in
  uint8_of_f32
    (F32.add
       (F32.mul (F32.of_int (byte_val orig)) (F32.sub (F32.of_int 1) mask_3d))
       (F32.mul (F32.of_int (byte_val blurred)) mask_3d)).

Definition blend_pixel (orig blurred : pixel) (m : Z) : pixel :=
  let '(b1, g1, r1) := orig in
  let '(b2, g2, r2) := blurred in
  (blend_channel b1 b2 m, blend_channel g1 g2 m, blend_channel r1 r2 m).

(** The blend of two images under a mask; the three arrays have the same
    shape wherever the program reaches it, other shapes raise. *)
Definition blend (orig blurred : image) (m : mask) : result image :=
  if bool_decide (map length blurred = map length orig)
     && bool_decide (map length m = map length orig)
  then Ok (zip_with (fun '(o, b) mrow =>
                       zip_with (fun '(po, pb) mv => blend_pixel po pb mv)
                         (zip o b) mrow)
             (zip orig blurred) m)
  else Raise ValueError.

(** The motion-blur kernel: a 15 by 15 array of zeros whose middle row is
    ones, divided by 15. *)
Definition motion_kernel : array2 float :=
  let kernel_size := 15 in
  let zero := PyFloat.lit 0 kernel_size in
  let one := PyFloat.lit 1 kernel_size in
  map (fun r =>
         replicate (Z.to_nat kernel_size)
           (if Z.of_nat r =? (kernel_size - 1) / 2 then one else zero))
      (seq 0 (Z.to_nat kernel_size)).

Section TestPytorchModel.

Variable GaussianBlur : image -> Z * Z -> Z -> result image.
Variable cv2_resize : image -> Z * Z -> interpolation -> result image.
Variable filter2D : image -> Z -> array2 float -> result image.

(** [apply_multi_stage_blur(img)]. *)
Definition apply_multi_stage_blur (img : image) : result image :=
  blur_heavy ← GaussianBlur img (45, 45) 15;
  blur_motion ← filter2D blur_heavy (-1) motion_kernel;
  let '(height, width) := shape img in
  let pixel_size := 8 in
  small ← cv2_resize blur_motion (width / pixel_size, height / pixel_size)
            INTER_LINEAR;
  cv2_resize small (width, height) INTER_NEAREST.

(** [apply_optimized_blur(img, blur_regions)]: the result is a new
    array, [img] is not written. *)
Definition apply_optimized_blur (img : image) (blur_regions : list region)
  : result image :=
  let result_img := img in
  m ← full_mask (height img) (width img) 0;
  m ← mark_regions (shape img) m blur_regions;
  blurred_img ← apply_multi_stage_blur img;
  blend result_img blurred_img m.

End TestPytorchModel.

(** ** [VideoStreamProcessor] *)

Module VideoStreamProcessor.

Record t : Type := Make {
  resize_factor : float;
  processing_times : list float
}.

Definition nudity_classes : list string :=
  [ "BUTTOCKS_EXPOSED"; "FEMALE_BREAST_EXPOSED";
    "FEMALE_GENITALIA_EXPOSED"; "MALE_GENITALIA_EXPOSED";
    "ANUS_EXPOSED" ]%string.

(** [self.processing_times.append(x)] on a [deque(maxlen=100)]. *)
Definition append_time (x : float) (p : t) : t :=
  let times := processing_times p ++ [x] in
  Make (resize_factor p)
    (if len times >? 100 then drop 1 times else times).

Section Realtime.

Variable GaussianBlur : image -> Z * Z -> Z -> result image.
Variable cv2_resize : image -> Z * Z -> interpolation -> result image.
Variable model : nat -> image -> result results.
Variable clock : nat -> float.

(** The outcome of [from test_pytorch_model import __labels], a
    statement inside the class body.  The author means the table
    [__labels]; CPython mangles a name with two leading underscores
    inside a class, here to [_VideoStreamProcessor__labels], which the
    module does not define, and raises ImportError.  The outcome is a
    parameter of the model; what is proved of the code as CPython runs
    it takes it to be [Raise ImportError]. *)
Variable import_labels : result (list string).

Local Abbreviation M := (M t).

(** The body of the loop over [boxes] in [process_single_frame]. *)
Definition select_box (resize_factor confidence_threshold : float)
    (b : box) : result (option region) :=
  cls ← PyFloat.to_int (cls b);
  labels ← import_labels;
  if cls <? len labels then
    class_name ← py_index labels cls;
    if bool_decide (class_name ∈ nudity_classes)
       && PyFloat.gt (conf b) confidence_threshold
    then
      c ← int_coords (xyxy b);
      c ← scale_back resize_factor c;
      Ok (Some (region_of c class_name (conf b)))
    else Ok None
  else Ok None.

Fixpoint select_boxes (resize_factor confidence_threshold : float)
    (boxes : list box) (blur_regions : list region)
  : result (list region) :=
  match boxes with
  | [] => Ok blur_regions
  | b :: boxes' =>
      r ← select_box resize_factor confidence_threshold b;
      select_boxes resize_factor confidence_threshold boxes'
        (match r with
         | Some reg => blur_regions ++ [reg]
         | None => blur_regions
         end)
  end.

Fixpoint select_results (resize_factor confidence_threshold : float)
    (rs : results) (blur_regions : list region) : result (list region) :=
  match rs with
  | [] => Ok blur_regions
  | None :: rs' =>
      select_results resize_factor confidence_threshold rs' blur_regions
  | Some boxes :: rs' =>
      acc ← select_boxes resize_factor confidence_threshold boxes
              blur_regions;
      select_results resize_factor confidence_threshold rs' acc
  end.

(** The box that [apply_fast_blur] slices for a region. *)
Definition clamped (frame : image) (r : region) : coords :=
  clamp_box (height frame) (width frame) (rx1 r, ry1 r, rx2 r, ry2 r).

(** The body of the loop of [apply_fast_blur] for one region. *)
Definition fast_blur_region (frame : image) (r : region) : result image :=
  let '(x1, y1, x2, y2) := clamped frame r in
  if (x2 >? x1) && (y2 >? y1) then
    let roi := slice2 frame y1 y2 x1 x2 in
    if size3 roi >? 0 then
      blurred ← GaussianBlur roi (15, 15) 5;
      let '(h, w) := shape roi in
      let pixel_size := Z.max 4 (Z.min (w / 8) (h / 8)) in
      if (w >? pixel_size) && (h >? pixel_size) then
        small ← cv2_resize blurred (w / pixel_size, h / pixel_size)
                  INTER_LINEAR;
        pixelated ← cv2_resize small (w, h) INTER_NEAREST;
        assign_slice2 frame y1 y2 x1 x2 pixelated
      else Ok frame
    else Ok frame
  else Ok frame.

(** [apply_fast_blur(frame, blur_regions)]. *)
Fixpoint apply_fast_blur (frame : ref) (blur_regions : list region)
  : M ref :=
  match blur_regions with
  | [] => mret frame
  | r :: rest =>
      img ← load frame;
      img' ← lift (fast_blur_region img r);
      write frame img';;
      apply_fast_blur frame rest
  end.

Definition call_detector (frame : image) : M results :=
  fun s => (model (detector_calls s) frame,
            State (self s) (store s) (clock_reads s)
              (S (detector_calls s)) (error_log s)).

(** Resize frame if needed for faster processing: the frame that will
    be blurred and returned (a copy of the caller's when the frame is
    resized, the caller's own otherwise) and the frame given to the
    detector. *)
Definition prepare (frame : ref) (rf : float) : M (ref * image) :=
  if PyFloat.ne rf PyFloat.one then
    original_frame ← copy frame;
    img ← load frame;
    let '(height, width) := shape img in
    new_width ← lift (PyFloat.int_of_scaled width rf);
    new_height ← lift (PyFloat.int_of_scaled height rf);
    resized ← lift (cv2_resize img (new_width, new_height) INTER_LINEAR);
    mret (original_frame, resized)
  else
    img ← load frame;
    mret (frame, img).

(** [process_single_frame(frame, confidence_threshold=0.4)]; nothing
    is caught. *)
Definition process_single_frame (frame : ref)
    (confidence_threshold : float) : M ref :=
  process_start ← time_time clock;
  rf ← gets resize_factor;
  '(original_frame, resized) ← prepare frame rf;
  results ← call_detector resized;
  blur_regions ← lift (select_results rf confidence_threshold results []);
  let frame := original_frame in
  frame ←
    (match blur_regions with
     | [] => mret frame
     | _ => apply_fast_blur frame blur_regions
     end);
  now ← time_time clock;
  modify (append_time (PyFloat.sub now process_start));;
  mret frame.

End Realtime.

End VideoStreamProcessor.

(** ** Stand-ins for OpenCV, the detector and the clock

    Executable doubles used to run the pipeline on concrete frames.  They
    keep the two facts about OpenCV that the examples rely on:
    [cv2.resize] raises on an empty destination size, and both functions
    return an array of the size they are asked for. *)

Module Stub.

(** A blur that paints the whole region with its top-left pixel. *)
Definition GaussianBlur (src : image) (ksize : Z * Z) (sigma : Z)
  : result image :=
  match src with
  | (p :: _) :: _ => Ok (map (map (fun _ => p)) src)
  | _ => Raise cv2_error
  end.

(** Nearest-neighbour resampling to [dsize = (width, height)]. *)
Definition cv2_resize (src : image) (dsize : Z * Z) (i : interpolation)
  : result image :=
  let '(w, h) := dsize in
  match src with
  | (p :: _) :: _ =>
      if (0 <? w) && (0 <? h) then
        Ok (map (fun r =>
              map (fun c =>
                default p
                  (at2 src (Z.to_nat (Z.of_nat r * height src / h))
                           (Z.to_nat (Z.of_nat c * width src / w))))
                (seq 0 (Z.to_nat w)))
              (seq 0 (Z.to_nat h)))
      else Raise cv2_error
  | _ => Raise cv2_error
  end.

(** A filter that returns its source. *)
Definition filter2D (src : image) (ddepth : Z) (kernel : array2 float)
  : result image :=
  Ok src.

(** A detector that answers with the same boxes at every invocation. *)
Definition model (boxes : list box) (n : nat) (frame : image) (cf : float)
    (max_det : Z) : result results :=
  Ok [Some boxes].

(** A clock whose [n]-th reading is [n] hundredths of a second. *)
Definition clock (n : nat) : float := PyFloat.lit (Z.of_nat n) 100.

(** A clock that stands still for one second after its first [k]
    readings. *)
Definition paused_clock (k n : nat) : float :=
  if (n <? k)%nat then PyFloat.lit (Z.of_nat n) 100
  else PyFloat.lit (100 + Z.of_nat n) 100.

(** A box with integral corners, class index [k] and confidence
    [n / d]. *)
Definition box_of (x1 y1 x2 y2 k n d : Z) : box :=
  Box (PyFloat.lit x1 1, PyFloat.lit y1 1, PyFloat.lit x2 1,
       PyFloat.lit y2 1)
      (PyFloat.lit n d) (PyFloat.lit k 1).

(** A frame of [h] rows and [w] columns whose pixel at [(r, c)] has the
    blue channel [r], the green channel [c] and a zero red channel. *)
Definition byte_of (n : nat) : byte :=
  default x00 (Byte.of_N (N.of_nat n)).

Definition gradient (h w : nat) : image :=
  map (fun r => map (fun c => (byte_of r, byte_of c, x00)) (seq 0 w))
    (seq 0 h).

(** The processor as [__init__] leaves it, with a given resize factor. *)
Definition processor (rf : float) : UltraFastNSFWProcessor :=
  Processor rf (PyFloat.lit 1 2) 20 ∅ (PyFloat.lit 1 10) [] 0.

(** A state holding one frame at reference [0]. *)
Definition initial (rf : float) (frame : image)
  : state UltraFastNSFWProcessor :=
  State (processor rf) {[ 0%nat := frame ]} 0 0 [].

End Stub.

(** ** Vocabulary of the statements *)

(** A region lies within a frame of [h] rows and [w] columns. *)
Definition in_frame (h w : Z) (r : region) : Prop :=
  (0 <= rx1 r /\ rx1 r <= rx2 r /\ rx2 r <= w) /\
  (0 <= ry1 r /\ ry1 r <= ry2 r /\ ry2 r <= h).

(** The detector's boxes in the order the loops visit them. *)
Definition all_boxes (rs : results) : list box :=
  concat (omap id rs).

(** The class test of [_extract_blur_regions]: the class index is below
    the number of labels and its label is one of [nsfw_classes]. *)
Definition class_selected (labels : list string) (b : box) : bool :=
  match PyFloat.to_int (cls b) with
  | Ok k =>
      (k <? len labels) &&
      match py_index labels k with
      | Ok name => bool_decide (name ∈ nsfw_classes)
      | Raise _ => false
      end
  | Raise _ => false
  end.

(** [produced labels shape rf b r]: the loop body appends [r] for [b]. *)
Definition produced (labels : list string) (original_shape : Z * Z)
    (rf : float) (b : box) (r : region) : Prop :=
  extract_box labels original_shape rf b = Ok (Some r).




(** The corners of a region. *)
Definition corners (r : region) : coords := (rx1 r, ry1 r, rx2 r, ry2 r).








(** Two states agree on everything but the processor object and the
    number of clock readings. *)
Definition same_world {Self} (s s' : state Self) : Prop :=
  store s' = store s /\
  detector_calls s' = detector_calls s /\
  error_log s' = error_log s.

(** ** The edge mask in closed form *)

(** The array of [h] rows and [w] columns whose element at [(r, c)] is
    [f r c]. *)
Definition tab {A} (h w : nat) (f : nat -> nat -> A) : array2 A :=
  map (fun r => map (fun c => f r c) (seq 0 w)) (seq 0 h).

(** What one iteration of [create_smooth_mask] makes of the element at
    [(r, c)] of a mask of [H] rows and [W] columns whose elements are given
    by [f]: top edge, bottom edge, left edge, right edge. *)
Definition step_fn (H W : nat) (i v : Z) (f : nat -> nat -> Z)
  : nat -> nat -> Z :=
  fun r c =>
    let top := fun r c => if Nat.eqb r (Z.to_nat i) then uint8 v else f r c in
    let bottom := fun r c =>
      if Nat.eqb r (Z.to_nat (Z.of_nat H - 1 - i)) then uint8 v
      else top r c in
    let left := fun r c =>
      if Nat.eqb c (Z.to_nat i) then uint8 (Z.min (bottom r c) v)
      else bottom r c in
    if Nat.eqb c (Z.to_nat (Z.of_nat W - 1 - i))
    then uint8 (Z.min (left r c) v) else left r c.

(** The distance of index [i] to the nearer end of an axis of length
    [n]. *)
Definition dist (n : nat) (i : nat) : Z :=
  Z.min (Z.of_nat i) (Z.of_nat n - 1 - Z.of_nat i).

(** The weight [int(255 * ((d + 1) / 5))] at distance [d] from an edge. *)
Definition ramp (d : Z) : Z := 51 * (d + 1).

(** The mask after [k] iterations: the [k] outer rows at the top and at
    the bottom carry the ramp of their row distance over their whole
    width; below them the [k] outer columns carry the ramp of their column
    distance; everything else is 255. *)
Definition bands (k : Z) (H W r c : nat) : Z :=
  if dist H r <? k then ramp (dist H r)
  else if dist W c <? k then ramp (dist W c)
  else 255.

(** ** Locality of an assignment *)

(** A row agrees with another outside the columns [x1 .. x2 - 1]. *)
Definition row_agrees {A} (x1 x2 : Z) (row row' : list A) : Prop :=
  length row' = length row /\
  forall c : nat, ~ (x1 <= Z.of_nat c < x2) -> row' !! c = row !! c.

(** Two arrays have the same shape and agree outside the box of the rows
    [y1 .. y2 - 1] and the columns [x1 .. x2 - 1]. *)
Definition agrees_outside {A} (y1 y2 x1 x2 : Z) (arr arr' : array2 A) : Prop :=
  map length arr' = map length arr /\
  forall r c : nat,
    ~ (y1 <= Z.of_nat r < y2 /\ x1 <= Z.of_nat c < x2) ->
    at2 arr' r c = at2 arr r c.

(** The pixel at [(r, c)] lies outside the box of a region, and outside its
    padded box. *)
Definition outside (reg : region) (r c : nat) : Prop :=
  ~ (ry1 reg <= Z.of_nat r < ry2 reg /\ rx1 reg <= Z.of_nat c < rx2 reg).

Definition outside_padded (img_shape : Z * Z) (reg : region) (r c : nat)
  : Prop :=
  let '(x1, y1, x2, y2) := padded_box img_shape reg in
  ~ (y1 <= Z.of_nat r < y2 /\ x1 <= Z.of_nat c < x2).

(** The top-left corner of a region has no negative coordinate, as after
    rectification. *)
Definition origin_nonneg (reg : region) : Prop :=
  0 <= rx1 reg /\ 0 <= ry1 reg.

(** ** Concrete inputs *)

Module Examples.

Definition half : float := PyFloat.lit 1 2.
Definition nine_tenths : float := PyFloat.lit 9 10.




Definition frame20 : image := Stub.gradient 20 20.

(** A processor with the default resize factor 0.5 and a 20 by 20 frame
    at reference 0. *)
Definition s0 : state UltraFastNSFWProcessor :=
  Stub.initial half frame20.

(** A detector that finds one region, and the detection
    [process_frame] reports for it. *)
Definition one_box : list box := [Stub.box_of 2 2 8 8 2 9 10].

Definition one_detection : list detection :=
  [Detection "BUTTOCKS_EXPOSED" nine_tenths [4; 4; 16; 16]].

(** A first call for the identifier [f1], under a given clock. *)
Definition first_call (clock : nat -> float)
  : result (ref * list detection) * state UltraFastNSFWProcessor :=
  process_frame Stub.GaussianBlur Stub.cv2_resize (Stub.model one_box)
    clock 0%nat (Some "f1"%string) None false s0.

(** The entry the first call leaves in the cache. *)
Definition entry : cache_entry :=
  CacheEntry 0%nat one_detection (Stub.clock 1).

(** A detector that only finds a face. *)
Definition face_box : list box := [Stub.box_of 2 2 8 8 1 9 10].

(** A processor whose resize factor was set to 1.0, and a detector that
    finds an 8 by 8 region and a region one pixel wide. *)
Definition s_unscaled : state UltraFastNSFWProcessor :=
  Stub.initial PyFloat.one frame20.

Definition thin_boxes : list box :=
  [Stub.box_of 0 0 8 8 2 9 10; Stub.box_of 10 10 11 18 2 9 10].

Definition failing_call
  : result (ref * list detection) * state UltraFastNSFWProcessor :=
  process_frame Stub.GaussianBlur Stub.cv2_resize (Stub.model thin_boxes)
    Stub.clock 0%nat None None false s_unscaled.

End Examples.

(** A second call for the identifier [f1], one that passes another
    buffer: after the first call, a clean frame is put at reference 1
    and processed with a detector that only finds a face. *)
Module CacheExamples.



End CacheExamples.

(** * Further parts of the source

    What the callers and neighbours of the pipeline do: the endpoints of
    [flask_api.py] ([/config], [/process-frame], [/process-frame-stream]
    and [/process-image]), [process_video_file] and
    [get_performance_stats] of [VideoStreamProcessor], and
    [create_blurred_image] of [test_pytorch_model.py]; with them the
    predicates in which their properties are stated. *)

(** ** Predicates on detections, regions and OpenCV *)

(** The bounding box of a detection lies within a frame of [h] rows and
    [w] columns. *)
Definition bbox_in_frame (h w : Z) (d : detection) : Prop :=
  exists x1 y1 x2 y2,
    det_bbox d = [x1; y1; x2; y2] /\
    0 <= x1 <= x2 /\ x2 <= w /\ 0 <= y1 <= y2 /\ y2 <= h.

(** The list [processing_times] after [append(t)] and, when it then holds
    more than 100 elements, [pop(0)]. *)
Definition recorded (t : float) (times : list float) : list float :=
  let times := times ++ [t] in
  if len times >? 100 then drop 1 times else times.

(** A processing time in milliseconds measured from [start_time]. *)
Definition elapsed_ms (clock : nat -> float) (start_time : float) (k : nat)
  : float :=
  PyFloat.mul (PyFloat.sub (clock k) start_time) (PyFloat.lit 1000 1).

(** What OpenCV asks of a Gaussian kernel as the pipeline uses it: square,
    of odd side; the pipeline keeps the side between 5 and 15. *)
Definition valid_ksize (ksize : Z * Z) : bool :=
  let '(kx, ky) := ksize in
  (kx =? ky) && Z.odd kx && (5 <=? kx) && (kx <=? 15).

(** A [cv2.GaussianBlur] that refuses any other kernel. *)
Definition checked_blur (GaussianBlur : image -> Z * Z -> Z -> result image)
    (src : image) (ksize : Z * Z) (sigma : Z) : result image :=
  if valid_ksize ksize then GaussianBlur src ksize sigma
  else Raise cv2_error.

(** A [cv2.resize] that refuses a destination size with a side that is
    not positive. *)
Definition checked_resize
    (cv2_resize : image -> Z * Z -> interpolation -> result image)
    (src : image) (dsize : Z * Z) (i : interpolation) : result image :=
  let '(w, h) := dsize in
  if (0 <? w) && (0 <? h) then cv2_resize src dsize i
  else Raise cv2_error.

(** [cv2.resize] raises when it is asked for an empty destination
    size. *)
Definition rejects_empty_size
    (cv2_resize : image -> Z * Z -> interpolation -> result image) : Prop :=
  forall src w h i,
    w <= 0 \/ h <= 0 -> exists e, cv2_resize src (w, h) i = Raise e.

(** A region one pixel wide or one pixel high. *)
Definition thin (r : region) : Prop :=
  (rx2 r - rx1 r = 1 /\ ry1 r < ry2 r) \/
  (ry2 r - ry1 r = 1 /\ rx1 r < rx2 r).

(** ** Values of a JSON body and Python's ordering of numbers *)

(** What [request.get_json()] finds under a key: [null], a boolean, an
    integer, a real number (Python's decoder also reads [NaN] and
    [Infinity]), a string, or an array or object. *)
Inductive value : Type :=
  | VNone
  | VBool (b : bool)
  | VInt (n : Z)
  | VFloat (x : float)
  | VStr (s : string)
  | VComposite.

Inductive number : Type :=
  | NInt (n : Z)
  | NFloat (x : float).

(** A [bool] is an [int] in comparisons. *)
Definition as_number (v : value) : option number :=
  match v with
  | VBool b => Some (NInt (if b then 1 else 0))
  | VInt n => Some (NInt n)
  | VFloat x => Some (NFloat x)
  | _ => None
  end.

Definition of_number (n : number) : value :=
  match n with
  | NInt n => VInt n
  | NFloat x => VFloat x
  end.

(** [n < x] and [x < n] for an [int] [n] and a float [x]: Python compares
    the two exactly, without converting the integer to a float. *)
Definition int_lt_float (n : Z) (x : float) : bool :=
  match x with
  | S754_zero _ => n <? 0
  | S754_infinity s => negb s
  | S754_nan => false
  | S754_finite s m e =>
      if 0 <=? e then n <? cond_Zopp s (Zpos m * 2 ^ e)
      else n * 2 ^ (- e) <? cond_Zopp s (Zpos m)
  end.

Definition float_lt_int (x : float) (n : Z) : bool :=
  match x with
  | S754_zero _ => 0 <? n
  | S754_infinity s => s
  | S754_nan => false
  | S754_finite s m e =>
      if 0 <=? e then cond_Zopp s (Zpos m * 2 ^ e) <? n
      else cond_Zopp s (Zpos m) <? n * 2 ^ (- e)
  end.

Definition num_lt (a b : number) : bool :=
  match a, b with
  | NInt m, NInt n => m <? n
  | NInt m, NFloat y => int_lt_float m y
  | NFloat x, NInt n => float_lt_int x n
  | NFloat x, NFloat y => PyFloat.lt x y
  end.

(** [v < bound] and [v > bound] for a value [v] of the body and a number
    [bound]; [None] stands for the TypeError that Python raises when [v]
    is not a number. *)
Definition less_than (v : value) (bound : number) : option bool :=
  match as_number v with
  | Some n => Some (num_lt n bound)
  | None => None
  end.

Definition greater_than (v : value) (bound : number) : option bool :=
  match as_number v with
  | Some n => Some (num_lt bound n)
  | None => None
  end.

(** [min(hi, v)] and [max(lo, x)]: the first argument is kept unless the
    second is strictly smaller, respectively strictly greater. *)
Definition py_min (hi : number) (v : value) : option value :=
  match less_than v hi with
  | Some b => Some (if b then v else of_number hi)
  | None => None
  end.

Definition py_max (lo : number) (x : value) : option value :=
  match greater_than x lo with
  | Some b => Some (if b then x else of_number lo)
  | None => None
  end.

(** [max(lo, min(hi, v))]. *)
Definition clamp (lo hi : number) (v : value) : option value :=
  match py_min hi v with
  | Some x => py_max lo x
  | None => None
  end.

(** ** The [/config] endpoint *)

Module ConfigEndpoint.

(** The attributes of the processor object that the endpoint reads and
    assigns.  An attribute holds whatever the endpoint stored, so it is a
    [value] here. *)
Record settings : Type := Settings {
  resize_factor : value;
  confidence_threshold : value;
  max_detections : value;
  cache_ttl : value;
  device : string
}.

Definition set_resize_factor (x : value) (p : settings) : settings :=
  Settings x (confidence_threshold p) (max_detections p) (cache_ttl p)
    (device p).

Definition set_confidence_threshold (x : value) (p : settings) : settings :=
  Settings (resize_factor p) x (max_detections p) (cache_ttl p) (device p).

Definition set_max_detections (x : value) (p : settings) : settings :=
  Settings (resize_factor p) (confidence_threshold p) x (cache_ttl p)
    (device p).

Definition set_cache_ttl (x : value) (p : settings) : settings :=
  Settings (resize_factor p) (confidence_threshold p) (max_detections p) x
    (device p).

Inductive http_method : Type := GET | POST.

(** The answers of the endpoint: the configuration, the acknowledgement
    of an update, and what the handler registered for status 500 sends
    when the view raised. *)
Inductive config_response : Type :=
  | Configuration (p : settings)
  | Updated
  | Internal_server_error.

(** [if key in data: processor.attr = max(lo, min(hi, data[key]))]: the
    settings after the statement, and whether it raised. *)
Definition update (key : string) (lo hi : number)
    (assign : value -> settings -> settings) (data : gmap string value)
    (p : settings) : option settings :=
  match data !! key with
  | Some v =>
      match clamp lo hi v with
      | Some x => Some (assign x p)
      | None => None
      end
  | None => Some p
  end.

(** [config()].  [data] is what [request.get_json()] returned: [None], on
    which the first membership test raises, or the object of the body.
    An exception leaves the assignments made before it in place. *)
Definition config (method : http_method) (data : option (gmap string value))
    (p : settings) : config_response * settings :=
  match method with
  | GET => (Configuration p, p)
  | POST =>
      match data with
      | None => (Internal_server_error, p)
      | Some data =>
          match update "resize_factor" (NFloat (PyFloat.lit 1 10))
                  (NFloat PyFloat.one) set_resize_factor data p with
          | None => (Internal_server_error, p)
          | Some p1 =>
          match update "confidence_threshold" (NFloat (PyFloat.lit 1 10))
                  (NFloat (PyFloat.lit 9 10)) set_confidence_threshold
                  data p1 with
          | None => (Internal_server_error, p1)
          | Some p2 =>
          match update "max_detections" (NInt 1) (NInt 100)
                  set_max_detections data p2 with
          | None => (Internal_server_error, p2)
          | Some p3 =>
          match update "cache_ttl" (NFloat (PyFloat.lit 1 100))
                  (NFloat PyFloat.one) set_cache_ttl data p3 with
          | None => (Internal_server_error, p3)
          | Some p4 => (Updated, p4)
          end end end end
      end
  end.

End ConfigEndpoint.

(** [lo <= x <= hi] on floats; false when [x] is not a number. *)
Definition float_between (lo hi x : float) : bool :=
  SFleb lo x && SFleb x hi.

(** A value is a float within [lo, hi]. *)
Definition float_setting (lo hi : float) (v : value) : Prop :=
  exists x, v = VFloat x /\ float_between lo hi x = true.

(** A value is an integer within [lo, hi] or a float strictly between
    them. *)
Definition count_setting (lo hi : Z) (v : value) : Prop :=
  (exists n, v = VInt n /\ lo <= n <= hi) \/
  (exists x, v = VFloat x /\ float_lt_int x hi = true /\
             int_lt_float lo x = true).

(** Requests to [/config]. *)
Module ConfigExamples.

(** The settings as [__init__] leaves them, on a machine without CUDA. *)
Definition defaults : ConfigEndpoint.settings :=
  ConfigEndpoint.Settings (VFloat (PyFloat.lit 1 2)) (VFloat (PyFloat.lit 1 2))
    (VInt 20) (VFloat (PyFloat.lit 1 10)) "cpu".

(** A body with [NaN] for the resize factor and 5000 detections. *)
Definition clamped_request : gmap string value :=
  {[ "resize_factor"%string := VFloat S754_nan;
     "max_detections"%string := VInt 5000 ]}.

Definition clamped_settings : ConfigEndpoint.settings :=
  ConfigEndpoint.Settings (VFloat PyFloat.one) (VFloat (PyFloat.lit 1 2))
    (VInt 100) (VFloat (PyFloat.lit 1 10)) "cpu".

(** A body with a resize factor of 0 and a string for [cache_ttl]. *)
Definition refused_request : gmap string value :=
  {[ "resize_factor"%string := VInt 0;
     "cache_ttl"%string := VStr "soon" ]}.

End ConfigExamples.

(** ** The endpoints of [flask_api.py] *)

Definition set_confidence_threshold (c : float)
    (p : UltraFastNSFWProcessor) : UltraFastNSFWProcessor :=
  Processor (resize_factor p) c (max_detections p) (frame_cache p)
    (cache_ttl p) (processing_times p) (request_count p).

(** A new numpy array, as [cv2.imdecode] and [cv2.resize] return one. *)
Definition new_buffer {Self} (img : image) : M Self ref :=
  fun s =>
    let r := fresh (dom (store s)) in
    (Ok r, State (self s) (<[r := img]> (store s)) (clock_reads s)
             (detector_calls s) (error_log s)).

(** [max(l)] for a non-empty list of floats: the first element is kept
    until a strictly greater one is met. *)
Fixpoint py_max_floats (current : float) (l : list float) : float :=
  match l with
  | [] => current
  | x :: rest =>
      py_max_floats (if PyFloat.gt x current then x else current) rest
  end.

(** [n / d] for two integers: the float nearest to the quotient (the
    operands are array dimensions, far below [2^53]); ZeroDivisionError
    on a zero divisor. *)
Definition true_divide (n d : Z) : result float :=
  if d =? 0 then Raise ZeroDivisionError else Ok (PyFloat.lit n d).

Module Routes.

(** The body of a request as the endpoints read it.  A field is [None]
    when the key is absent; [frame_id] and [image_id] are strings,
    [confidence] is a real number and [fast_mode] a boolean. *)
Record frame_request : Type := FrameRequest {
  req_frame : option string;
  req_frame_id : option string;
  req_confidence : option float;
  req_fast_mode : option bool
}.

Record image_request : Type := ImageRequest {
  req_image : option string;
  req_image_id : option string;
  req_image_confidence : option float;
  req_image_fast_mode : option bool
}.

(** The JSON objects the endpoints answer with. *)
Inductive payload : Type :=
  | Error (message : string)
  | Failed_to_decode (e : exn)
  | Processing_failed (e : exn)
  | Processed_frame (processed_frame : string) (processing_time_ms : float)
      (frame_id : option string) (timestamp : float)
  | Stream_blurred (frame : string) (time : float)
  | Stream_clean (time : float)
  | Stream_failed
  | Image_verdict (nsfw_detected : bool) (confidence : float)
      (detections : Z) (image_id : string) (processing_time : float)
  | Image_error (e : exn) (processing_time : float).

Record response : Type := Response {
  status : Z;
  body : payload
}.

Section Endpoints.

(** The pipeline's parameters, and what the endpoints call besides:
    [decode] is [base64.b64decode] followed by [np.frombuffer] and
    [cv2.imdecode], which raises or returns [None] or an image; [encode]
    is [cv2.imencode] at a JPEG quality followed by [base64.b64encode];
    [round] is the builtin with a number of digits. *)
Variable GaussianBlur : image -> Z * Z -> Z -> result image.
Variable cv2_resize : image -> Z * Z -> interpolation -> result image.
Variable model : nat -> image -> float -> Z -> result results.
Variable clock : nat -> float.
Variable decode : string -> result (option image).
Variable encode : image -> Z -> result string.
Variable round : float -> Z -> float.

Local Abbreviation M := (M UltraFastNSFWProcessor).
Local Abbreviation pipeline :=
  (process_frame GaussianBlur cv2_resize model clock).

Definition milliseconds_since (start_time : float) : M float :=
  now ← time_time clock;
  mret (PyFloat.mul (PyFloat.sub now start_time) (PyFloat.lit 1000 1)).

(** The inner [try] of [/process-frame]: the decoded frame, or the
    exception that the decoding raised. *)
Definition try_decode (text : string) : M (result (option image)) :=
  try_except (img ← lift (decode text); mret (Ok img))
    (fun e => mret (Raise e)).

(** [process_frame()], the view of [/process-frame]. *)
Definition process_frame (data : option frame_request) : M response :=
  start_time ← time_time clock;
  try_except
    (match data ≫= (fun d => req_frame d ≫= (fun text => Some (d, text))) with
     | None => mret (Response 400 (Error "No frame data provided"))
     | Some (d, text) =>
         decoded ← try_decode text;
         match decoded with
         | Raise e => mret (Response 400 (Failed_to_decode e))
         | Ok None => mret (Response 400 (Error "Invalid frame data"))
         | Ok (Some img) =>
             frame ← new_buffer img;
             let frame_id := req_frame_id d in
             original_threshold ← gets confidence_threshold;
             let confidence := default original_threshold (req_confidence d) in
             (if PyFloat.ne confidence original_threshold
              then modify (set_confidence_threshold confidence)
              else mret tt);;
             '(processed_frame, _) ← pipeline frame frame_id None false;
             modify (set_confidence_threshold original_threshold);;
             processed ← load processed_frame;
             processed_frame_b64 ← lift (encode processed 85);
             total_time ← milliseconds_since start_time;
             let processing_time_ms := round total_time 2 in
             timestamp ← time_time clock;
             mret (Response 200
                     (Processed_frame processed_frame_b64 processing_time_ms
                        frame_id timestamp))
         end
     end)
    (fun e => logger_error e;; mret (Response 500 (Processing_failed e))).

(** [process_frame_stream()], the view of [/process-frame-stream].  The
    [confidence] of the request is read and not used. *)
Definition process_frame_stream (data : option frame_request) : M response :=
  start_time ← time_time clock;
  try_except
    (match data ≫= (fun d => req_frame d ≫= (fun text => Some (d, text))) with
     | None => mret (Response 400 (Error "No frame data provided"))
     | Some (d, text) =>
         decoded ← lift (decode text);
         match decoded with
         | None => mret (Response 400 (Error "Invalid frame data"))
         | Some img =>
             frame ← new_buffer img;
             let frame_id := req_frame_id d in
             let fast_mode := default false (req_fast_mode d) in
             let confidence := default (PyFloat.lit 1 2) (req_confidence d) in
             let original_shape := shape img in
             frame ←
               (if fast_mode && (Z.max (height img) (width img) >? 320) then
                  scale_factor ←
                    lift (true_divide 320 (Z.max (height img) (width img)));
                  new_height ←
                    lift (PyFloat.int_of_scaled (height img) scale_factor);
                  new_width ←
                    lift (PyFloat.int_of_scaled (width img) scale_factor);
                  small ←
                    lift (cv2_resize img (new_width, new_height) INTER_LINEAR);
                  new_buffer small
                else mret frame);
             '(processed_frame, detections) ←
               pipeline frame frame_id None false;
             let has_blur := len detections >? 0 in
             if has_blur then
               processed ← load processed_frame;
               processed ←
                 (if fast_mode
                     && negb (bool_decide (shape processed = original_shape))
                  then
                    lift (cv2_resize processed
                            (original_shape.2, original_shape.1) INTER_LINEAR)
                  else mret processed);
               processed_frame_b64 ←
                 lift (encode processed (if fast_mode then 50 else 70));
               total_time ← milliseconds_since start_time;
               mret (Response 200
                       (Stream_blurred processed_frame_b64
                          (round total_time 1)))
             else
               total_time ← milliseconds_since start_time;
               mret (Response 200 (Stream_clean (round total_time 1)))
         end
     end)
    (fun e => logger_error e;; mret (Response 500 Stream_failed)).

(** [max([det['confidence'] for det in detections]) if detections
    else 0.0]. *)
Definition max_confidence (detections : list detection) : float :=
  match detections with
  | [] => S754_zero false
  | d :: rest => py_max_floats (det_confidence d) (map det_confidence rest)
  end.

(** [process_image()], the view of [/process-image].  The default of
    [data.get('image_id', ...)] is evaluated whether or not the key is
    there, so the clock is read and truncated in either case. *)
Definition process_image (data : option image_request) : M response :=
  start_time ← time_time clock;
  try_except
    (match data ≫= (fun d => req_image d ≫= (fun text => Some (d, text))) with
     | None => mret (Response 400 (Error "No image data provided"))
     | Some (d, image_data) =>
         now ← time_time clock;
         seconds ← lift (PyFloat.to_int now);
         let image_id :=
           default ("img_" +:+ pretty seconds) (req_image_id d) in
         let confidence_threshold :=
           default (PyFloat.lit 1 2) (req_image_confidence d) in
         let fast_mode := default true (req_image_fast_mode d) in
         decoded ← lift (decode image_data);
         match decoded with
         | None => mret (Response 400 (Error "Invalid image data"))
         | Some img =>
             image ← new_buffer img;
             '(processed_image, detections) ←
               pipeline image (Some image_id) (Some confidence_threshold)
                 fast_mode;
             let nsfw_detected := len detections >? 0 in
             now ← time_time clock;
             let processing_time := PyFloat.sub now start_time in
             mret (Response 200
                     (Image_verdict nsfw_detected (max_confidence detections)
                        (len detections) image_id processing_time))
         end
     end)
    (fun e =>
       now ← time_time clock;
       let error_time := PyFloat.sub now start_time in
       logger_error e;;
       mret (Response 500 (Image_error e error_time))).

End Endpoints.

End Routes.

(** Stand-ins for the codec and for [round], and two requests to
    [/process-image] that name no identifier. *)
Module RouteExamples.

(** Every text decodes to a 20 by 20 frame, the empty text to no image. *)
Definition decode (text : string) : result (option image) :=
  match text with
  | EmptyString => Ok None
  | _ => Ok (Some (Stub.gradient 20 20))
  end.

Definition encode (img : image) (quality : Z) : result string :=
  Ok "jpeg"%string.

Definition round (x : float) (ndigits : Z) : float := x.

Definition first_image : Routes.image_request :=
  Routes.ImageRequest (Some "first"%string) None None None.

Definition second_image : Routes.image_request :=
  Routes.ImageRequest (Some "second"%string) None None None.

(** The state after the first request was served. *)
Definition after_first_image : state UltraFastNSFWProcessor :=
  (Routes.process_image Stub.GaussianBlur Stub.cv2_resize
     (Stub.model Examples.one_box) Stub.clock decode (Some first_image)
     Examples.s0).2.

(** The entry the first request left under [img_0]. *)
Definition first_entry : cache_entry :=
  default (CacheEntry 0%nat [] (S754_zero false))
    (frame_cache (self after_first_image) !! "img_0"%string).

End RouteExamples.

(** Two processor objects with the same configuration. *)
Definition same_configuration (p p' : UltraFastNSFWProcessor) : Prop :=
  resize_factor p' = resize_factor p /\
  confidence_threshold p' = confidence_threshold p /\
  max_detections p' = max_detections p /\
  cache_ttl p' = cache_ttl p.

(** ** [VideoStreamProcessor.process_video_file] *)

(** Running a computation on a part of the object: [get] reads the part,
    [set] puts it back. *)
Definition zoom {Whole Part A} (get : Whole -> Part)
    (set : Part -> Whole -> Whole) (m : M Part A) : M Whole A :=
  fun s =>
    let '(r, s') :=
      m (State (get (self s)) (store s) (clock_reads s) (detector_calls s)
           (error_log s)) in
    (r, State (set (self s') (self s)) (store s') (clock_reads s')
          (detector_calls s') (error_log s')).

Module VideoFile.

(** What [cv2.VideoCapture] gives: whether the file could be opened, the
    properties [cap.get] returns as floats, and the frames that
    [cap.read()] returns one after the other. *)
Record capture : Type := Capture {
  isOpened : bool;
  CAP_PROP_FPS : float;
  CAP_PROP_FRAME_WIDTH : float;
  CAP_PROP_FRAME_HEIGHT : float;
  CAP_PROP_FRAME_COUNT : float;
  frames : list image
}.

(** The processor together with the frames written so far; [writer] is
    [None] when no output path was given. *)
Record job : Type := Job {
  processor : VideoStreamProcessor.t;
  writer : option (list image)
}.

Definition set_processor (p : VideoStreamProcessor.t) (j : job) : job :=
  Job p (writer j).

(** [if writer: writer.write(frame)]. *)
Definition write_frame (frame : ref) : M job unit :=
  w ← gets writer;
  match w with
  | Some written =>
      img ← load frame;
      modify (fun j => Job (processor j) (Some (written ++ [img])))
  | None => mret tt
  end.

Section VideoFile.

Variable GaussianBlur : image -> Z * Z -> Z -> result image.
Variable cv2_resize : image -> Z * Z -> interpolation -> result image.
Variable model : nat -> image -> result results.
Variable clock : nat -> float.
Variable import_labels : result (list string).

(** The outcome of [self.initialize_model()] and the field
    [self.frame_skip], which [process_video_file] only reads. *)
Variable initialize_model : bool.
Variable frame_skip : Z.

Local Abbreviation M := (M job).

Definition process_single_frame (frame : ref) (confidence_threshold : float)
  : M ref :=
  zoom processor set_processor
    (VideoStreamProcessor.process_single_frame GaussianBlur cv2_resize model
       clock import_labels frame confidence_threshold).

(** [a % b] on integers. *)
Definition py_mod (a b : Z) : result Z :=
  if b =? 0 then Raise ZeroDivisionError else Ok (a mod b).

(** The progress report.  What it computes is only printed; it reads the
    clock once, and [frame_count / total_frames] raises when the capture
    reports no frame. *)
Definition report_progress (total_frames : Z) : M unit :=
  now ← time_time clock;
  if total_frames =? 0 then lift (Raise ZeroDivisionError) else mret tt.

(** The [while] loop, over the frames that [cap.read()] is still to
    return; it ends with the number of frames read. *)
Fixpoint read_frames (fps total_frames : Z) (confidence_threshold : float)
    (rest : list image) (frame_count : Z) : M Z :=
  match rest with
  | [] => mret frame_count
  | img :: rest =>
      frame ← new_buffer img;
      let frame_count := frame_count + 1 in
      turn ← lift (py_mod frame_count frame_skip);
      if negb (turn =? 0) then
        write_frame frame;;
        read_frames fps total_frames confidence_threshold rest frame_count
      else
        processed_frame ← process_single_frame frame confidence_threshold;
        write_frame processed_frame;;
        due ← lift (py_mod frame_count (fps * 5));
        (if due =? 0 then report_progress total_frames else mret tt);;
        read_frames fps total_frames confidence_threshold rest frame_count
  end.

(** [process_video_file(input_path, output_path, confidence_threshold)]:
    [cap] is what opening [input_path] gives, [output] tells whether an
    output path was given.  The frames written are in the [writer] of the
    state, also when an exception ends the loop. *)
Definition process_video_file (cap : capture) (output : bool)
    (confidence_threshold : float) : M bool :=
  if negb initialize_model then mret false
  else if negb (isOpened cap) then mret false
  else
    fps ← lift (PyFloat.to_int (CAP_PROP_FPS cap));
    width ← lift (PyFloat.to_int (CAP_PROP_FRAME_WIDTH cap));
    height ← lift (PyFloat.to_int (CAP_PROP_FRAME_HEIGHT cap));
    total_frames ← lift (PyFloat.to_int (CAP_PROP_FRAME_COUNT cap));
    modify (fun j => Job (processor j) (if output then Some [] else None));;
    start_time ← time_time clock;
    frame_count ←
      read_frames fps total_frames confidence_threshold (frames cap) 0;
    now ← time_time clock;
    let total_time := PyFloat.sub now start_time in
    count ← lift (PyFloat.of_int frame_count);
    avg_fps ← lift (PyFloat.div count total_time);
    mret true.

End VideoFile.

End VideoFile.

(** A capture of three frames at 30 frames per second, and a run as
    CPython makes it, the import of the labels raising ImportError: every
    second frame is processed, and the detector reports no box. *)
Module VideoExamples.

Definition cap : VideoFile.capture :=
  VideoFile.Capture true (PyFloat.lit 30 1) (PyFloat.lit 20 1)
    (PyFloat.lit 20 1) (PyFloat.lit 3 1)
    [Stub.gradient 20 20; Stub.gradient 20 20; Stub.gradient 20 20].

Definition start : state VideoFile.job :=
  State (VideoFile.Job (VideoStreamProcessor.Make PyFloat.one []) None)
    ∅ 0 0 [].

Definition detector (n : nat) (frame : image) : result results :=
  Ok [Some []].

Definition run : result bool * state VideoFile.job :=
  VideoFile.process_video_file Stub.GaussianBlur Stub.cv2_resize detector
    Stub.clock (Raise ImportError) true 2 cap true (PyFloat.lit 4 10) start.

(** The same file when the capture reports 0 frames per second. *)
Definition still : VideoFile.capture :=
  VideoFile.Capture true (S754_zero false) (PyFloat.lit 20 1)
    (PyFloat.lit 20 1) (PyFloat.lit 3 1)
    [Stub.gradient 20 20; Stub.gradient 20 20; Stub.gradient 20 20].

(** The state in which the loop starts, the first frame processed in
    it, and what that frame then holds. *)
Definition ready : state VideoFile.job :=
  State (VideoFile.Job (VideoStreamProcessor.Make PyFloat.one []) (Some []))
    ∅ 1 0 [].

Definition first_processed : result ref * state VideoFile.job :=
  VideoFile.process_single_frame Stub.GaussianBlur Stub.cv2_resize detector
    Stub.clock (Raise ImportError) 0%nat (PyFloat.lit 4 10)
    (with_store {[ 0%nat := Stub.gradient 20 20 ]} ready).

Definition processed : image :=
  default [] (store first_processed.2 !! 0%nat).

End VideoExamples.

(** The frame at index [i], counted from 0, is one that the loop skips. *)
Definition skipped (frame_skip : Z) (i : nat) : Prop :=
  (Z.of_nat i + 1) mod frame_skip <> 0.

(** [cv2.resize] returns an array of the size it was asked for. *)
Definition returns_dsize
    (cv2_resize : image -> Z * Z -> interpolation -> result image) : Prop :=
  forall src w h i out,
    cv2_resize src (w, h) i = Ok out ->
    height out = h /\ rectangular out w.

(** The pixel at [(r, c)] lies in the box of a region. *)
Definition inside (reg : region) (r c : nat) : Prop :=
  ry1 reg <= Z.of_nat r < ry2 reg /\ rx1 reg <= Z.of_nat c < rx2 reg.

(** ** The core of a region under the edge mask *)

(** A mask of [h] rows and [w] columns holding [uint8] values. *)
Definition uint8_mask (h w : Z) (m : mask) : Prop :=
  height m = h /\ rectangular m w /\
  forall (r c : nat) (v : Z), at2 m r c = Some v -> 0 <= v <= 255.

(** The pixel at [(r, c)] lies in the padded box of a region, at least
    [padding - 1] pixels from each of its sides; the padded box is at
    least [2 * padding] wide and high. *)
Definition in_core (img_shape : Z * Z) (reg : region) (r c : nat) : Prop :=
  let '(x1, y1, x2, y2) := padded_box img_shape reg in
  2 * padding <= y2 - y1 /\ 2 * padding <= x2 - x1 /\
  y1 + (padding - 1) <= Z.of_nat r < y2 - (padding - 1) /\
  x1 + (padding - 1) <= Z.of_nat c < x2 - (padding - 1).

(** ** [create_blurred_image] *)

Module BlurredImage.

Definition nudity_classes : list string :=
  [ "BUTTOCKS_EXPOSED"; "FEMALE_BREAST_EXPOSED"; "FEMALE_GENITALIA_EXPOSED";
    "MALE_GENITALIA_EXPOSED"; "ANUS_EXPOSED" ]%string.

(** The body of the loop over [boxes]: the region appended for one box,
    if any.  The function stands at module level, where [__labels] is the
    label table; a class index at or above its length is named
    [CLASS_<index>]. *)
Definition prepare_box (b : box) : result (option region) :=
  cls ← PyFloat.to_int (cls b);
  c ← int_coords (xyxy b);
  class_name ←
    (if cls <? len __labels then py_index __labels cls
     else Ok ("CLASS_" +:+ pretty cls));
  if bool_decide (class_name ∈ nudity_classes)
     && PyFloat.gt (conf b) (PyFloat.lit 3 10)
  then Ok (Some (region_of c class_name (conf b)))
  else Ok None.

Fixpoint prepare_boxes (boxes : list box) (blur_regions : list region)
  : result (list region) :=
  match boxes with
  | [] => Ok blur_regions
  | b :: boxes' =>
      r ← prepare_box b;
      prepare_boxes boxes'
        (match r with
         | Some reg => blur_regions ++ [reg]
         | None => blur_regions
         end)
  end.

Fixpoint prepare_results (rs : results) (blur_regions : list region)
  : result (list region) :=
  match rs with
  | [] => Ok blur_regions
  | None :: rs' => prepare_results rs' blur_regions
  | Some boxes :: rs' =>
      acc ← prepare_boxes boxes blur_regions;
      prepare_results rs' acc
  end.

Section CreateBlurredImage.

Variable GaussianBlur : image -> Z * Z -> Z -> result image.
Variable cv2_resize : image -> Z * Z -> interpolation -> result image.
Variable filter2D : image -> Z -> array2 float -> result image.

(** [create_blurred_image(image_path, results, output_path)].  [img] is
    what [cv2.imread(image_path)] returns, [None] for a file it cannot
    read.  The body is one [try] whose handler prints the exception:
    [Ok out] says that [out] was handed to [cv2.imwrite], [Raise e] that
    [e] was caught before anything was written. *)
Definition create_blurred_image (img : option image) (rs : results)
  : result image :=
  blur_regions ← prepare_results rs [];
  img ←
    match blur_regions with
    | [] => Ok img
    | _ :: _ =>
        match img with
        | Some img =>
            out ← apply_optimized_blur GaussianBlur cv2_resize filter2D img
                    blur_regions;
            Ok (Some out)
        | None => Raise AttributeError
        end
    end;
  match img with
  | Some img => Ok img
  | None => Raise cv2_error
  end.

End CreateBlurredImage.

End BlurredImage.

(** The region that [create_blurred_image] prepares for a box: the class
    of the box is a nudity class, its confidence is above 0.3, and the
    corners are the coordinates of the box truncated to integers. *)
Definition prepared (b : box) (r : region) : Prop :=
  exists k name c,
    PyFloat.to_int (cls b) = Ok k /\
    py_index __labels k = Ok name /\
    name ∈ BlurredImage.nudity_classes /\
    PyFloat.gt (conf b) (PyFloat.lit 3 10) = true /\
    int_coords (xyxy b) = Ok c /\
    r = region_of c name (conf b).

(** The pixel at [(r, c)] lies within [padding] pixels of the box of a
    region. *)
Definition near (reg : region) (r c : nat) : Prop :=
  ry1 reg - padding <= Z.of_nat r < ry2 reg + padding /\
  rx1 reg - padding <= Z.of_nat c < rx2 reg + padding.

(** ** [VideoStreamProcessor.get_performance_stats] *)

(** [min(l)] for a non-empty sequence of floats: the first element is
    kept until a strictly smaller one is met. *)
Fixpoint py_min_floats (current : float) (l : list float) : float :=
  match l with
  | [] => current
  | x :: rest =>
      py_min_floats (if PyFloat.lt x current then x else current) rest
  end.

Module PerformanceStats.

(** The dictionary that [get_performance_stats] returns when it is not
    empty.  [estimated_fps] is a float or the integer 0. *)
Record t : Type := Stats {
  average_processing_time : float;
  max_processing_time : float;
  min_processing_time : float;
  estimated_fps : value;
  total_frames_processed : Z
}.

Section Stats.

(** The builtin [sum] on a sequence of floats; how it rounds depends on
    the version of CPython. *)
Variable sum : list float -> float.

(** [get_performance_stats()]; [None] stands for the empty
    dictionary. *)
Definition get_performance_stats (p : VideoStreamProcessor.t)
  : result (option t) :=
  let times := VideoStreamProcessor.processing_times p in
  match times with
  | [] => Ok None
  | first :: rest =>
      n ← PyFloat.of_int (len times);
      avg_time ← PyFloat.div (sum times) n;
      let max_time := py_max_floats first rest in
      let min_time := py_min_floats first rest in
      estimated_fps ←
        (if int_lt_float 0 avg_time then
           fps ← PyFloat.div PyFloat.one avg_time; Ok (VFloat fps)
         else Ok (VInt 0));
      Ok (Some (Stats avg_time max_time min_time estimated_fps (len times)))
  end.

End Stats.

End PerformanceStats.

(** A computation that leaves the processor object as it was. *)
Definition keeps_self {Self A} (m : M Self A) : Prop :=
  forall s, self (m s).2 = self s.

(** A computation that, when it returns, leaves the processor object
    with one more processing time and, when it raises, as it was. *)
Definition records_a_time {A} (m : M VideoStreamProcessor.t A) : Prop :=
  forall s,
    match (m s).1 with
    | Ok _ =>
        exists x,
          self (m s).2 = VideoStreamProcessor.append_time x (self s)
    | Raise _ => self (m s).2 = self s
    end.

(** The first hundred counts convert to floats other than zero. *)
Definition counts_convert : bool :=
  forallb (fun n => match PyFloat.of_int (Z.of_nat n) with
                    | Ok (S754_finite _ _ _) => true
                    | _ => false
                    end) (seq 1 100).

(** * Properties *)

(** ** Floats *)

Lemma SFcompare_refl_not_Lt (x : float) : SFcompare x x <> Some Lt.
Proof.
  destruct x as [s|s| |s m e]; simpl; try destruct s; try discriminate.
  - rewrite Z.compare_refl, Pos.compare_cont_refl. discriminate.
  - rewrite Z.compare_refl, Pos.compare_cont_refl. discriminate.
Qed.

Lemma gt_irrefl (x : float) : PyFloat.gt x x = false.
Proof.
  unfold PyFloat.gt, SFltb.
  pose proof (SFcompare_refl_not_Lt x) as H.
  destruct (SFcompare x x) as [[]|]; congruence.
Qed.

(** A float that compares equal to [y] is not greater than [y]; this also
    covers the two zeros. *)
Lemma eq_not_gt (x y : float) : PyFloat.eq x y = true -> PyFloat.gt x y = false.
Proof.
  unfold PyFloat.eq, PyFloat.gt, SFeqb, SFltb.
  destruct x as [s1|s1| |s1 m1 e1], y as [s2|s2| |s2 m2 e2]; simpl;
    try destruct s1; try destruct s2; simpl; try congruence.
  - destruct (Z.compare_spec e1 e2) as [->|?|?]; try discriminate.
    rewrite Z.compare_refl.
    rewrite Pos.compare_cont_spec; simpl.
    destruct (Pos.compare_spec m1 m2) as [->|?|?]; simpl; try discriminate.
    rewrite Pos.compare_cont_refl. reflexivity.
  - destruct (Z.compare_spec e1 e2) as [->|?|?]; try discriminate.
    rewrite Z.compare_refl.
    rewrite Pos.compare_cont_spec; simpl.
    destruct (Pos.compare_spec m1 m2) as [->|?|?]; simpl; try discriminate.
    rewrite Pos.compare_cont_refl. reflexivity.
Qed.






(** ** Coordinate rectification *)

Lemma clamp_box_in_frame (h w : Z) (c : coords) (name : string) (cf : float) :
  0 <= h -> 0 <= w -> in_frame h w (region_of (clamp_box h w c) name cf).
Proof.
  intros Hh Hw. destruct c as [[[x1 y1] x2] y2].
  unfold in_frame, region_of, clamp_box; simpl. lia.
Qed.

(** ** Region extraction, box by box *)

(** Inversion of a bind in the [result] monad. *)
Lemma bind_Ok {A B} (m : result A) (k : A -> result B) (b : B) :
  (m ≫= k) = Ok b -> exists a, m = Ok a /\ k a = Ok b.
Proof. destruct m as [a|e]; simpl; [eauto | discriminate]. Qed.

Ltac inv_bind H :=
  let a := fresh "v" in
  let Ha := fresh "E" in
  apply bind_Ok in H; destruct H as (a & Ha & H).

Lemma extract_box_Some labels sh rf b r :
  extract_box labels sh rf b = Ok (Some r) ->
  class_selected labels b = true /\
  exists k name c c',
    PyFloat.to_int (cls b) = Ok k /\
    py_index labels k = Ok name /\
    name ∈ nsfw_classes /\
    int_coords (xyxy b) = Ok c /\
    scale_back rf c = Ok c' /\
    r = region_of (clamp_box sh.1 sh.2 c') name (conf b).
Proof.
  unfold extract_box, class_selected. intros H.
  inv_bind H. rewrite E.
  destruct (v <? len labels); [|discriminate].
  inv_bind H. rewrite E0. simpl.
  case_bool_decide; [|discriminate].
  inv_bind H. inv_bind H. destruct sh as [h w].
  injection H as <-. split; [reflexivity|].
  exists v, v0, v1, v2. repeat split; assumption.
Qed.

Lemma extract_box_None labels sh rf b :
  extract_box labels sh rf b = Ok None -> class_selected labels b = false.
Proof.
  unfold extract_box, class_selected. intros H.
  inv_bind H. rewrite E.
  destruct (v <? len labels); [|reflexivity].
  inv_bind H. rewrite E0. simpl.
  case_bool_decide; [|reflexivity].
  inv_bind H. inv_bind H. destruct sh. discriminate.
Qed.

Lemma extract_boxes_spec labels sh rf boxes :
  forall acc out,
    extract_boxes labels sh rf boxes acc = Ok out ->
    exists new,
      out = acc ++ new /\
      Forall2 (produced labels sh rf)
        (List.filter (class_selected labels) boxes) new.
Proof.
  induction boxes as [|b boxes IH]; simpl; intros acc out H.
  - injection H as <-. exists []. rewrite app_nil_r. split; constructor.
  - inv_bind H. destruct v as [reg|].
    + destruct (extract_box_Some _ _ _ _ _ E) as [-> _].
      apply IH in H. destruct H as (new & -> & HF).
      exists (reg :: new). rewrite <- app_assoc. split; [reflexivity|].
      constructor; assumption.
    + rewrite (extract_box_None _ _ _ _ E).
      apply IH in H. exact H.
Qed.

Lemma extract_results_spec labels sh rf rs :
  forall acc out,
    extract_results labels sh rf rs acc = Ok out ->
    exists new,
      out = acc ++ new /\
      Forall2 (produced labels sh rf)
        (List.filter (class_selected labels) (all_boxes rs)) new.
Proof.
  unfold all_boxes.
  induction rs as [|[boxes|] rs IH]; simpl; intros acc out H.
  - injection H as <-. exists []. rewrite app_nil_r. split; constructor.
  - inv_bind H. apply extract_boxes_spec in E. destruct E as (n1 & -> & F1).
    apply IH in H. destruct H as (n2 & -> & F2).
    exists (n1 ++ n2). rewrite <- app_assoc. split; [reflexivity|].
    rewrite List.filter_app. apply Forall2_app; assumption.
  - apply IH in H. exact H.
Qed.

(** Every region of [_extract_blur_regions] comes from a box that passes
    the class test, and the regions keep the order of the boxes. *)
Lemma _extract_blur_regions_spec rs sh rf regions :
  _extract_blur_regions rs sh rf = Ok regions ->
  Forall2 (produced get_labels sh rf)
    (List.filter (class_selected get_labels) (all_boxes rs)) regions.
Proof.
  unfold _extract_blur_regions. intros H.
  apply extract_results_spec in H. destruct H as (new & -> & HF). exact HF.
Qed.

Lemma Forall2_elem_of_right {A B} (P : A -> B -> Prop) (l : list A)
    (k : list B) (y : B) :
  Forall2 P l k -> y ∈ k -> exists x, x ∈ l /\ P x y.
Proof.
  induction 1 as [|x y' l k HP HF IH]; intros Hy.
  - inversion Hy.
  - apply elem_of_cons in Hy. destruct Hy as [->|Hy].
    + exists x. split; [apply list_elem_of_here | assumption].
    + destruct (IH Hy) as (x' & Hx' & HP').
      exists x'. split; [apply list_elem_of_further|]; assumption.
Qed.

Lemma height_nonneg {A} (arr : array2 A) : 0 <= height arr.
Proof. unfold height, len. lia. Qed.

Lemma width_nonneg {A} (arr : array2 A) : 0 <= width arr.
Proof. unfold width, len. destruct arr; lia. Qed.

(** C2: every box produced by coordinate rectification, that is by scaling
    back to the original frame and clamping, satisfies
    [0 <= x1 <= x2 <= original_width] and [0 <= y1 <= y2 <= original_height],
    for every detection and every inference scale; this holds for the
    regions of [_extract_blur_regions] and for the box [apply_fast_blur]
    slices for any region [r0]. *)
Theorem rectified_box_within_frame
    (rs : results) (frame : image) (rf : float) (regions : list region)
    (r r0 : region) :
  _extract_blur_regions rs (shape frame) rf = Ok regions ->
  r ∈ regions ->
  in_frame (height frame) (width frame) r /\
  in_frame (height frame) (width frame)
    (region_of (VideoStreamProcessor.clamped frame r0) (rclass r0) (rconf r0)).
Proof.
  intros H Hr. split.
  - apply _extract_blur_regions_spec in H.
    destruct (Forall2_elem_of_right _ _ _ _ H Hr) as (b & _ & Hb).
    apply extract_box_Some in Hb.
    destruct Hb as (_ & k & name & c & c' & _ & _ & _ & _ & _ & ->).
    apply clamp_box_in_frame; [apply height_nonneg | apply width_nonneg].
  - apply clamp_box_in_frame; [apply height_nonneg | apply width_nonneg].
Qed.

Lemma rectified_box_within_frame_witness :
  in_frame 20 20 (Region 4 6 20 16 "BUTTOCKS_EXPOSED" Examples.nine_tenths) /\
  in_frame 20 20 (Region 0 3 20 20 "ANUS_EXPOSED" Examples.half).
Proof.
  apply (rectified_box_within_frame
           [Some [Stub.box_of 2 3 50 8 2 9 10]] Examples.frame20
           Examples.half
           [Region 4 6 20 16 "BUTTOCKS_EXPOSED" Examples.nine_tenths]
           (Region 4 6 20 16 "BUTTOCKS_EXPOSED" Examples.nine_tenths)
           (Region (-7) 3 25 400 "ANUS_EXPOSED" Examples.half)).
  - vm_compute. reflexivity.
  - apply list_elem_of_here.
Defined.

Lemma region_of_fields (c : coords) (name : string) (cf : float) :
  rclass (region_of c name cf) = name /\
  rconf (region_of c name cf) = cf /\
  corners (region_of c name cf) = c.
Proof. destruct c as [[[? ?] ?] ?]. repeat split. Qed.




(** ** Selection in [process_single_frame]: the import of the labels *)

Section RealtimeImportFails.

(** The exception that the import of the labels raises. *)
Variable e0 : exn.

Local Abbreviation select_box := (VideoStreamProcessor.select_box (Raise e0)).
Local Abbreviation select_boxes :=
  (VideoStreamProcessor.select_boxes (Raise e0)).
Local Abbreviation select_results :=
  (VideoStreamProcessor.select_results (Raise e0)).

Lemma select_box_raises rf thr b : exists e, select_box rf thr b = Raise e.
Proof.
  unfold VideoStreamProcessor.select_box.
  destruct (PyFloat.to_int (cls b)); simpl; eauto.
Qed.

Lemma select_boxes_without_labels rf thr boxes acc out :
  select_boxes rf thr boxes acc = Ok out -> boxes = [] /\ out = acc.
Proof.
  destruct boxes as [|b boxes]; simpl.
  - intros [= <-]. split; reflexivity.
  - destruct (select_box_raises rf thr b) as [e ->]. discriminate.
Qed.

Lemma select_results_without_labels rf thr rs :
  forall acc out,
    select_results rf thr rs acc = Ok out -> all_boxes rs = [] /\ out = acc.
Proof.
  unfold all_boxes.
  induction rs as [|[boxes|] rs IH]; simpl; intros acc out H.
  - injection H as <-. split; reflexivity.
  - apply bind_Ok in H. destruct H as (acc' & Hb & H).
    apply select_boxes_without_labels in Hb. destruct Hb as [-> ->].
    apply IH in H. exact H.
  - apply IH in H. exact H.
Qed.

Lemma select_results_first_box rf thr rs b rest k :
  all_boxes rs = b :: rest ->
  PyFloat.to_int (cls b) = Ok k ->
  forall acc, select_results rf thr rs acc = Raise e0.
Proof.
  unfold all_boxes.
  induction rs as [|[boxes|] rs IH]; simpl; intros Hb Hk acc.
  - discriminate.
  - destruct boxes as [|b' boxes]; simpl in *.
    + apply IH; assumption.
    + injection Hb as -> _.
      unfold VideoStreamProcessor.select_box. rewrite Hk. reflexivity.
  - apply IH; assumption.
Qed.

End RealtimeImportFails.


(** ** Region selection *)




(** ** Truncation *)




(** ** The steps of [process_frame] *)

Lemma eq_not_lt (x y : float) : PyFloat.eq x y = true -> PyFloat.lt x y = false.
Proof.
  unfold PyFloat.eq, PyFloat.lt, SFeqb, SFltb.
  destruct (SFcompare x y) as [[]|]; congruence.
Qed.

Lemma same_world_refl {Self} (s : state Self) : same_world s s.
Proof. repeat split. Qed.

Lemma same_world_trans {Self} (s1 s2 s3 : state Self) :
  same_world s1 s2 -> same_world s2 s3 -> same_world s1 s3.
Proof. unfold same_world. intros (?&?&?) (?&?&?). repeat split; congruence. Qed.

Lemma bind_run {Self A B} (m : M Self A) (k : A -> M Self B) (s : state Self) :
  (m ≫= k) s
  = match m s with
    | (Ok a, s') => k a s'
    | (Raise e, s') => (Raise e, s')
    end.
Proof. reflexivity. Qed.

Lemma try_except_run {Self A} (body : M Self A) (h : exn -> M Self A)
    (s : state Self) :
  try_except body h s
  = match body s with
    | (Raise e, s') => h e s'
    | (Ok a, s') => (Ok a, s')
    end.
Proof. reflexivity. Qed.

Lemma gets_run {Self A} (f : Self -> A) (s : state Self) :
  gets f s = (Ok (f (self s)), s).
Proof. reflexivity. Qed.

Lemma load_run {Self} (r : ref) (s : state Self) (img : image) :
  store s !! r = Some img -> load r s = (Ok img, s).
Proof. intros H. unfold load. rewrite H. reflexivity. Qed.

Section FlaskSteps.

Variable GaussianBlur : image -> Z * Z -> Z -> result image.
Variable cv2_resize : image -> Z * Z -> interpolation -> result image.
Variable model : nat -> image -> float -> Z -> result results.
Variable clock : nat -> float.

Local Abbreviation St := (state UltraFastNSFWProcessor).

Local Abbreviation blur := (_apply_ultra_fast_blur GaussianBlur cv2_resize).
Local Abbreviation progress := (blur_progress GaussianBlur cv2_resize).

(** [_apply_ultra_fast_blur] writes into the buffer of [frame] and into
    nothing else; it returns [frame] or raises after the regions before
    the failing one were written. *)
Lemma _apply_ultra_fast_blur_spec (frame : ref) (regions : list region) :
  forall (s : St) (img : image),
    store s !! frame = Some img ->
    blur frame regions s
    = (match (progress img regions).2 with
       | None => Ok frame
       | Some e => Raise e
       end,
       State (self s) (<[frame := (progress img regions).1]> (store s))
         (clock_reads s) (detector_calls s) (error_log s)).
Proof.
  induction regions as [|r rest IH]; intros s img Hs; simpl.
  - rewrite (insert_id _ _ _ Hs). destruct s; reflexivity.
  - unfold mbind, M_bind, load, lift, write. rewrite Hs.
    destruct (ultra_fast_blur_region GaussianBlur cv2_resize img r)
      as [img'|e]; simpl.
    + rewrite (IH _ img') by (simpl; apply lookup_insert_eq).
      simpl. rewrite insert_insert_eq. reflexivity.
    + rewrite (insert_id _ _ _ Hs). destruct s; reflexivity.
Qed.

(** [cache_store] does not raise and only touches the cache and the
    clock; it leaves for the identifier the entry just written, unless
    the cleaning that follows finds it expired already. *)
Lemma cache_store_spec (frame_id : option string) (frame : ref)
    (dets : list detection) (s : St) :
  exists s',
    cache_store clock frame_id frame dets s = (Ok tt, s') /\
    same_world s s' /\
    cache_ttl (self s') = cache_ttl (self s) /\
    forall id,
      truthy_id frame_id = Some id ->
      exists t_store t_clean,
        frame_cache (self s') !! id
        = (if expired t_clean (cache_ttl (self s))
                (CacheEntry frame dets t_store)
           then None
           else Some (CacheEntry frame dets t_store)).
Proof.
  unfold cache_store. destruct (truthy_id frame_id) as [id|].
  - eexists. split; [reflexivity|]. simpl.
    split; [repeat split|]. split; [reflexivity|].
    intros id' [= <-].
    exists (clock (clock_reads s)), (clock (S (clock_reads s))).
    destruct (expired _ _ _) eqn:Hexp.
    + apply map_lookup_filter_None_2. right. intros x Hx.
      rewrite lookup_insert_eq in Hx. injection Hx as <-. simpl.
      congruence.
    + apply map_lookup_filter_Some_2; [apply lookup_insert_eq|].
      simpl. exact Hexp.
  - exists s. split; [reflexivity|].
    split; [apply same_world_refl|]. split; [reflexivity|].
    intros id [=].
Qed.

(** [track_performance] does not raise and only touches the statistics
    and the clock. *)
Lemma track_performance_spec (start_time : float) (s : St) :
  exists s',
    track_performance clock start_time s = (Ok tt, s') /\
    same_world s s' /\
    frame_cache (self s') = frame_cache (self s) /\
    cache_ttl (self s') = cache_ttl (self s).
Proof.
  unfold track_performance, mbind, M_bind, time_time, modify.
  eexists. split; [reflexivity|]. simpl.
  split; [repeat split|]. split; reflexivity.
Qed.

Local Abbreviation handled start frame fid ct fm :=
  (try_except
     (process_uncached GaussianBlur cv2_resize model clock start frame fid
        ct fm)
     (fun e => logger_error e;; mret (frame, []))).

Local Abbreviation resized img s fm :=
  (resize_for_inference cv2_resize img
     (factor s fm)).

Ltac run_uncached :=
  unfold try_except, process_uncached, mbind, M_bind, load, lift, gets,
    call_model, logger_error, mret, M_ret, factor, threshold in *.

(** The frame cannot be read. *)
Lemma uncached_no_frame start frame fid ct fm (s : St) :
  store s !! frame = None ->
  handled start frame fid ct fm s
  = (Ok (frame, []), logged AttributeError s).
Proof. intros H. run_uncached. rewrite H. reflexivity. Qed.

(** The resize raises. *)
Lemma uncached_resize_raises start frame fid ct fm (s : St) img e :
  store s !! frame = Some img ->
  resized img s fm = Raise e ->
  handled start frame fid ct fm s = (Ok (frame, []), logged e s).
Proof.
  intros H1 H2. run_uncached. rewrite H1. simpl. rewrite H2. reflexivity.
Qed.

(** The detector raises. *)
Lemma uncached_detector_raises start frame fid ct fm (s : St) img img' e :
  store s !! frame = Some img ->
  resized img s fm = Ok img' ->
  model (detector_calls s) img' (threshold s ct) (max_detections (self s))
  = Raise e ->
  handled start frame fid ct fm s = (Ok (frame, []), logged e (called s)).
Proof.
  intros H1 H2 H3. run_uncached. rewrite H1. simpl. rewrite H2. simpl.
  rewrite H3. reflexivity.
Qed.

(** The extraction of the regions raises. *)
Lemma uncached_extraction_raises start frame fid ct fm (s : St)
    img img' rs e :
  store s !! frame = Some img ->
  resized img s fm = Ok img' ->
  model (detector_calls s) img' (threshold s ct) (max_detections (self s))
  = Ok rs ->
  _extract_blur_regions rs (shape img) (factor s fm) = Raise e ->
  handled start frame fid ct fm s = (Ok (frame, []), logged e (called s)).
Proof.
  intros H1 H2 H3 H4. run_uncached. rewrite H1. simpl. rewrite H2. simpl.
  rewrite H3. simpl. rewrite H4. reflexivity.
Qed.

(** The blur of some region raises: the regions before it are already
    written. *)
Lemma uncached_blur_raises start frame fid ct fm (s : St)
    img img' rs regions img2 e :
  store s !! frame = Some img ->
  resized img s fm = Ok img' ->
  model (detector_calls s) img' (threshold s ct) (max_detections (self s))
  = Ok rs ->
  _extract_blur_regions rs (shape img) (factor s fm) = Ok regions ->
  progress img regions = (img2, Some e) ->
  handled start frame fid ct fm s
  = (Ok (frame, []),
     logged e (with_store (<[frame := img2]> (store s)) (called s))).
Proof.
  intros H1 H2 H3 H4 H5. run_uncached. rewrite H1. simpl. rewrite H2. simpl.
  rewrite H3. simpl. rewrite H4. simpl.
  destruct regions as [|r regions]; [simpl in H5; discriminate|].
  rewrite (_apply_ultra_fast_blur_spec frame (r :: regions) _ img)
    by (simpl; exact H1).
  rewrite H5. reflexivity.
Qed.

(** Every region is blurred: the call completes. *)
Lemma uncached_completes start frame fid ct fm (s : St)
    img img' rs regions img2 :
  store s !! frame = Some img ->
  resized img s fm = Ok img' ->
  model (detector_calls s) img' (threshold s ct) (max_detections (self s))
  = Ok rs ->
  _extract_blur_regions rs (shape img) (factor s fm) = Ok regions ->
  progress img regions = (img2, None) ->
  exists s',
    handled start frame fid ct fm s
    = (Ok (frame, map detection_of regions), s') /\
    store s' = <[frame := img2]> (store s) /\
    detector_calls s' = S (detector_calls s) /\
    error_log s' = error_log s /\
    cache_ttl (self s') = cache_ttl (self s) /\
    forall id,
      truthy_id fid = Some id ->
      exists t_store t_clean,
        frame_cache (self s') !! id
        = (if expired t_clean (cache_ttl (self s))
                (CacheEntry frame (map detection_of regions) t_store)
           then None
           else Some (CacheEntry frame (map detection_of regions) t_store)).
Proof.
  intros H1 H2 H3 H4 H5. unfold threshold in H3.
  assert (HX : exists X : St,
    (match regions with
     | [] => mret frame
     | _ :: _ => blur frame regions
     end) (called s) = (Ok frame, X) /\
    store X = <[frame := img2]> (store s) /\
    detector_calls X = S (detector_calls s) /\
    error_log X = error_log s /\
    cache_ttl (self X) = cache_ttl (self s)).
  { destruct regions as [|r regions].
    - simpl in H5. injection H5 as <-. exists (called s).
      split; [reflexivity|]. simpl. rewrite (insert_id _ _ _ H1).
      repeat split.
    - rewrite (_apply_ultra_fast_blur_spec frame (r :: regions) _ img)
        by (simpl; exact H1).
      rewrite H5. eexists. split; [reflexivity|]. repeat split. }
  destruct HX as (X & HX & HstX & HdcX & HelX & HttlX).
  destruct (cache_store_spec fid frame (map detection_of regions) X)
    as (s2 & Hc & (Hst2 & Hdc2 & Hel2) & Httl2 & Hentry).
  destruct (track_performance_spec start s2)
    as (s3 & Ht & (Hst3 & Hdc3 & Hel3) & Hfc3 & Httl3).
  exists s3. split.
  - rewrite try_except_run. unfold process_uncached.
    rewrite bind_run, (load_run _ _ _ H1). cbv beta iota zeta.
    rewrite bind_run, gets_run. cbv beta iota zeta.
    rewrite bind_run, gets_run. cbv beta iota zeta.
    rewrite bind_run. unfold lift at 1. fold (factor s fm). rewrite H2.
    cbv beta iota zeta.
    rewrite bind_run, gets_run. cbv beta iota zeta.
    rewrite bind_run. unfold call_model at 1. rewrite H3.
    cbv beta iota zeta. fold (called s).
    rewrite bind_run. unfold lift at 1. rewrite H4. cbv beta iota zeta.
    rewrite bind_run, HX. cbv beta iota zeta.
    rewrite bind_run, Hc. cbv beta iota zeta.
    rewrite bind_run, Ht. cbv beta iota zeta.
    reflexivity.
  - rewrite Hst3, Hst2, Hdc3, Hdc2, Hel3, Hel2, Httl3, Httl2, Hfc3.
    split; [assumption|]. split; [assumption|]. split; [assumption|].
    split; [assumption|]. rewrite <- HttlX. exact Hentry.
Qed.

Local Abbreviation selects' := (selects cv2_resize model).

(** A call that misses the cache never raises and returns the reference
    it was given; it ends in one of the three ways, and it has invoked
    the detector exactly when the frame could be read and resized. *)
Lemma uncached_cases start frame fid ct fm (s : St) :
  exists dets s',
    handled start frame fid ct fm s = (Ok (frame, dets), s') /\
    detector_calls s'
    = (if reaches_detector cv2_resize s frame fm
       then S (detector_calls s) else detector_calls s) /\
    (failed_early s s' dets \/
     failed_in_blur GaussianBlur cv2_resize model s s' frame ct fm dets \/
     completed GaussianBlur cv2_resize model s s' frame fid ct fm dets).
Proof.
  unfold reaches_detector.
  destruct (store s !! frame) as [img|] eqn:H1.
  2:{ eexists _, _. split; [apply uncached_no_frame; exact H1|].
      split; [reflexivity|]. left. repeat split. eexists. reflexivity. }
  destruct (resized img s fm) as [img'|e] eqn:H2.
  2:{ eexists _, _. split; [eapply uncached_resize_raises; eassumption|].
      split; [reflexivity|]. left. repeat split. eexists. reflexivity. }
  destruct (model (detector_calls s) img' (threshold s ct)
              (max_detections (self s))) as [rs|e] eqn:H3.
  2:{ eexists _, _. split; [eapply uncached_detector_raises; eassumption|].
      split; [reflexivity|]. left. repeat split. eexists. reflexivity. }
  destruct (_extract_blur_regions rs (shape img) (factor s fm))
    as [regions|e] eqn:H4.
  2:{ eexists _, _. split; [eapply uncached_extraction_raises; eassumption|].
      split; [reflexivity|]. left. repeat split. eexists. reflexivity. }
  assert (Hsel : selects' s img ct fm regions).
  { exists img', rs. repeat split; assumption. }
  destruct (progress img regions) as [img2 [e|]] eqn:H5.
  - eexists _, _. split; [eapply uncached_blur_raises; eassumption|].
    split; [reflexivity|]. right. left.
    exists img, regions, img2, e.
    split; [exact H1|]. split; [exact Hsel|]. split; [exact H5|].
    repeat split.
  - destruct (uncached_completes start frame fid ct fm s img img' rs
                regions img2 H1 H2 H3 H4 H5)
      as (s' & Hrun & Hst & Hdc & Hel & _ & Hentry).
    exists (map detection_of regions), s'. split; [exact Hrun|].
    split; [exact Hdc|]. right. right.
    exists img, regions, img2.
    split; [exact H1|]. split; [exact Hsel|]. split; [exact H5|].
    split; [reflexivity|]. split; [exact Hst|]. split; [exact Hel|].
    exact Hentry.
Qed.

Local Abbreviation process :=
  (process_frame GaussianBlur cv2_resize model clock).

Lemma after_lookup_fields (s : St) fid :
  self (after_lookup s fid) = self s /\
  store (after_lookup s fid) = store s /\
  detector_calls (after_lookup s fid) = detector_calls s /\
  error_log (after_lookup s fid) = error_log s.
Proof.
  unfold after_lookup.
  destruct (truthy_id fid ≫= _); repeat split.
Qed.

(** A fresh entry is returned as it is; nothing but the clock moves. *)
Lemma process_frame_hit frame fid ct fm (s : St) e :
  fresh_entry clock s fid = Some e ->
  process frame fid ct fm s
  = (Ok (cached_result e, cached_detections e), ticked 2 s).
Proof.
  unfold fresh_entry, age, process_frame, cache_lookup. intros H.
  unfold try_except, mbind at 1 2, M_bind, time_time at 1.
  destruct (truthy_id fid) as [id|]; [|discriminate]. simpl in H.
  unfold mbind, M_bind, gets, time_time, mret, M_ret. simpl.
  destruct (frame_cache (self s) !! id) as [e0|]; [|discriminate].
  simpl in H. simpl.
  destruct (PyFloat.lt _ _); [|discriminate].
  injection H as <-. reflexivity.
Qed.

(** Without a fresh entry the call runs the pipeline. *)
Lemma process_frame_miss frame fid ct fm (s : St) :
  fresh_entry clock s fid = None ->
  process frame fid ct fm s
  = handled (clock (clock_reads s)) frame fid ct fm (after_lookup s fid).
Proof.
  unfold fresh_entry, age, process_frame, cache_lookup, after_lookup.
  intros H.
  unfold try_except, mbind at 1 2, M_bind, time_time at 1.
  destruct (truthy_id fid) as [id|]; [|reflexivity]. simpl in H.
  unfold mbind at 1 2 3 4, M_bind, gets, time_time, mret, M_ret. simpl.
  destruct (frame_cache (self s) !! id) as [e0|]; [|reflexivity].
  simpl in H. simpl.
  destruct (PyFloat.lt _ _); [discriminate|]. reflexivity.
Qed.

(** [process_frame] never raises.  Served from the cache it returns the
    entry; otherwise it returns the reference it was given and ends in
    one of the three ways of a call that misses the cache. *)
Lemma process_frame_cases frame fid ct fm (s : St) :
  exists r dets s',
    process frame fid ct fm s = (Ok (r, dets), s') /\
    match fresh_entry clock s fid with
    | Some e =>
        r = cached_result e /\ dets = cached_detections e /\
        s' = ticked 2 s
    | None =>
        r = frame /\
        detector_calls s'
        = (if reaches_detector cv2_resize s frame fm
           then S (detector_calls s) else detector_calls s) /\
        (failed_early s s' dets \/
         failed_in_blur GaussianBlur cv2_resize model s s' frame ct fm
           dets \/
         completed GaussianBlur cv2_resize model s s' frame fid ct fm dets)
    end.
Proof.
  destruct (fresh_entry clock s fid) as [e|] eqn:Hf.
  - eexists _, _, _. split; [apply process_frame_hit; exact Hf|].
    repeat split.
  - rewrite (process_frame_miss _ _ _ _ _ Hf).
    destruct (uncached_cases (clock (clock_reads s)) frame fid ct fm
                (after_lookup s fid))
      as (dets & s' & Hrun & Hdc & Hout).
    destruct (after_lookup_fields s fid) as (Hself & Hst & Hcalls & Hlog).
    exists frame, dets, s'. split; [exact Hrun|]. split; [reflexivity|].
    unfold reaches_detector, failed_early, failed_in_blur, completed,
      selects, factor, threshold in *.
    rewrite Hself, Hst, Hcalls, Hlog in *.
    split; [exact Hdc | exact Hout].
Qed.

Lemma truthy_id_nonempty (id : string) :
  id <> EmptyString -> truthy_id (Some id) = Some id.
Proof. destruct id; [congruence | reflexivity]. Qed.

Lemma log_grew_not_same (l : list exn) (e : exn) : l ++ [e] <> l.
Proof.
  intros H. apply (f_equal length) in H. rewrite length_app in H.
  simpl in H. lia.
Qed.

(** After a call that logged nothing, an entry the cache holds for the
    identifier of the call is the pair the call returned. *)
Lemma entry_is_what_was_returned frame id ct fm (s s' : St) r dets e :
  id <> EmptyString ->
  process frame (Some id) ct fm s = (Ok (r, dets), s') ->
  error_log s' = error_log s ->
  frame_cache (self s') !! id = Some e ->
  cached_result e = r /\ cached_detections e = dets.
Proof.
  intros Hid Hrun Hlog He.
  destruct (process_frame_cases frame (Some id) ct fm s)
    as (r0 & d0 & s0 & Hrun0 & Hcases).
  rewrite Hrun in Hrun0. injection Hrun0 as <- <- <-.
  destruct (fresh_entry clock s (Some id)) as [e0|] eqn:Hf.
  - destruct Hcases as (-> & -> & ->). simpl in He.
    unfold fresh_entry in Hf. rewrite (truthy_id_nonempty _ Hid) in Hf.
    simpl in Hf. rewrite He in Hf. simpl in Hf.
    destruct (PyFloat.lt _ _); [|discriminate].
    injection Hf as <-. split; reflexivity.
  - destruct Hcases as (-> & _ & [Hc|[Hc|Hc]]).
    + destruct Hc as (_ & _ & _ & x & Hx). rewrite Hx in Hlog.
      destruct (log_grew_not_same _ _ Hlog).
    + destruct Hc as (? & ? & ? & x & _ & _ & _ & _ & _ & _ & Hx).
      rewrite Hx in Hlog. destruct (log_grew_not_same _ _ Hlog).
    + destruct Hc as (img & regions & img2 & _ & _ & _ & -> & _ & _ & Hent).
      destruct (Hent id (truthy_id_nonempty _ Hid)) as (t1 & t2 & Hl).
      rewrite He in Hl. destruct (expired _ _ _); [discriminate|].
      injection Hl as ->. split; reflexivity.
Qed.

(** C4: after a first call for [id] that completed and left an entry,
    the entry is the pair that call returned; a second call for [id]
    returns that pair without invoking the detector exactly when the age
    of the entry is strictly less than the time-to-live, and otherwise
    runs the pipeline again, invoking the detector once (provided the
    frame can be read and resized for inference). *)
Theorem cache_serves_fresh_entries
    (s0 s1 : St) (frame frame' : ref) (id : string)
    (ct ct' : option float) (fm fm' : bool)
    (f1 : ref) (d1 : list detection) (e : cache_entry) :
  id <> EmptyString ->
  process frame (Some id) ct fm s0 = (Ok (f1, d1), s1) ->
  error_log s1 = error_log s0 ->
  frame_cache (self s1) !! id = Some e ->
  (cached_result e, cached_detections e) = (f1, d1) /\
  (if PyFloat.lt (age clock s1 e) (cache_ttl (self s1))
   then (process frame' (Some id) ct' fm' s1).1 = Ok (f1, d1) /\
        detector_calls (process frame' (Some id) ct' fm' s1).2
        = detector_calls s1
   else detector_calls (process frame' (Some id) ct' fm' s1).2
        = (if reaches_detector cv2_resize s1 frame' fm'
           then S (detector_calls s1) else detector_calls s1)).
Proof.
  intros Hid Hrun Hlog He.
  destruct (entry_is_what_was_returned _ _ _ _ _ _ _ _ _ Hid Hrun Hlog He)
    as [Hr Hd].
  split; [congruence|].
  destruct (process_frame_cases frame' (Some id) ct' fm' s1)
    as (r & d & s2 & Hrun2 & Hcases).
  rewrite Hrun2. simpl.
  unfold fresh_entry in Hcases. rewrite (truthy_id_nonempty _ Hid) in Hcases.
  simpl in Hcases. rewrite He in Hcases. simpl in Hcases.
  destruct (PyFloat.lt (age clock s1 e) (cache_ttl (self s1))).
  - destruct Hcases as (-> & -> & ->). split; [congruence | reflexivity].
  - destruct Hcases as (_ & Hdc & _). exact Hdc.
Qed.

(** C9: after a first call for [id] that completed and left an entry
    whose age is less than the time-to-live, a second call for [id]
    returns the pair of the first call and only advances the clock,
    whatever frame, [confidence_threshold] and [fast_mode] it is
    given. *)
Theorem cached_result_ignores_arguments
    (s0 s1 : St) (frame frame' : ref) (id : string)
    (ct ct' : option float) (fm fm' : bool)
    (f1 : ref) (d1 : list detection) (e : cache_entry) :
  id <> EmptyString ->
  process frame (Some id) ct fm s0 = (Ok (f1, d1), s1) ->
  error_log s1 = error_log s0 ->
  frame_cache (self s1) !! id = Some e ->
  PyFloat.lt (age clock s1 e) (cache_ttl (self s1)) = true ->
  process frame' (Some id) ct' fm' s1 = (Ok (f1, d1), ticked 2 s1).
Proof.
  intros Hid Hrun Hlog He Hfresh.
  destruct (entry_is_what_was_returned _ _ _ _ _ _ _ _ _ Hid Hrun Hlog He)
    as [<- <-].
  apply process_frame_hit.
  unfold fresh_entry. rewrite (truthy_id_nonempty _ Hid). simpl.
  rewrite He. simpl. rewrite Hfresh. reflexivity.
Qed.


(** What holds of C1 in general: [process_frame] never raises; when it
    logs an exception it returns the reference it was given and an empty
    detection list; and the buffer is as it was unless the exception was
    raised by the blur of some region. *)
Lemma process_frame_contains_exceptions
    (s : St) (frame : ref) (fid : option string) (ct : option float)
    (fm : bool) :
  exists r dets s',
    process frame fid ct fm s = (Ok (r, dets), s') /\
    (error_log s' <> error_log s ->
     r = frame /\ dets = [] /\
     (store s' = store s \/
      failed_in_blur GaussianBlur cv2_resize model s s' frame ct fm dets)).
Proof.
  destruct (process_frame_cases frame fid ct fm s)
    as (r & d & s' & Hrun & Hcases).
  exists r, d, s'. split; [exact Hrun|]. intros Hlog.
  destruct (fresh_entry clock s fid) as [e|].
  - destruct Hcases as (_ & _ & ->). simpl in Hlog. congruence.
  - destruct Hcases as (-> & _ & [Hc|[Hc|Hc]]).
    + destruct Hc as (-> & Hst & _). repeat split. left. exact Hst.
    + pose proof Hc as (? & ? & ? & ? & _ & _ & _ & -> & _).
      repeat split. right. exact Hc.
    + destruct Hc as (? & ? & ? & _ & _ & _ & _ & _ & Hel & _). congruence.
Qed.

End FlaskSteps.

(** ** The frame that the stream processor keeps *)

(** A successful run of a sequence is a successful run of its first step
    followed by one of the rest. *)
Lemma M_bind_Ok_inv {Self A B} (m : M Self A) (k : A -> M Self B)
    (s s' : state Self) (b : B) :
  (m ≫= k) s = (Ok b, s') ->
  exists a s1, m s = (Ok a, s1) /\ k a s1 = (Ok b, s').
Proof.
  rewrite bind_run. destruct (m s) as [[a|e] s1]; [eauto | discriminate].
Qed.

Section RealtimePrepare.

Variable GaussianBlur : image -> Z * Z -> Z -> result image.
Variable cv2_resize : image -> Z * Z -> interpolation -> result image.
Variable model : nat -> image -> result results.
Variable clock : nat -> float.

Local Abbreviation St := (state VideoStreamProcessor.t).

(** The frame that is kept for blurring holds the pixels of the frame that
    was passed in, and the frame that was passed in is not written. *)
Lemma prepare_spec (frame orig : ref) (rf : float) (small : image)
    (s s' : St) :
  VideoStreamProcessor.prepare cv2_resize frame rf s = (Ok (orig, small), s') ->
  store s' !! orig = store s !! frame /\
  store s' !! frame = store s !! frame /\
  detector_calls s' = detector_calls s.
Proof.
  unfold VideoStreamProcessor.prepare.
  destruct (PyFloat.ne rf PyFloat.one).
  - intros H. apply M_bind_Ok_inv in H. destruct H as (r' & s1 & Hc & H).
    unfold copy in Hc.
    destruct (store s !! frame) as [img|] eqn:Hf; [|discriminate].
    injection Hc as <- <-.
    apply M_bind_Ok_inv in H. destruct H as (img1 & s2 & Hl & H).
    unfold load in Hl. simpl in Hl.
    destruct (<[fresh (dom (store s)):=img]> (store s) !! frame);
      [|discriminate].
    injection Hl as <- <-.
    destruct (shape _) as [h w].
    apply M_bind_Ok_inv in H. destruct H as (nw & s3 & Hw & H).
    unfold lift in Hw. injection Hw as _ <-.
    apply M_bind_Ok_inv in H. destruct H as (nh & s4 & Hh & H).
    unfold lift in Hh. injection Hh as _ <-.
    apply M_bind_Ok_inv in H. destruct H as (rz & s5 & Hz & H).
    unfold lift in Hz. injection Hz as _ <-.
    injection H as <- _ <-. simpl.
    assert (Hne : fresh (dom (store s)) <> frame).
    { intros Heq. apply (is_fresh (dom (store s))). rewrite Heq.
      apply elem_of_dom. rewrite Hf. eauto. }
    rewrite lookup_insert_eq, lookup_insert_ne by exact Hne.
    repeat split; try reflexivity; exact Hf.
  - intros H. apply M_bind_Ok_inv in H. destruct H as (img1 & s2 & Hl & H).
    unfold load in Hl. destruct (store s !! frame) eqn:Hf; [|discriminate].
    injection Hl as <- <-. injection H as <- _ <-.
    repeat split; try reflexivity; exact Hf.
Qed.

End RealtimePrepare.

(** ** The pipeline on concrete frames *)

Lemma cache_serves_fresh_entries_witness :
  ((cached_result Examples.entry, cached_detections Examples.entry)
   = (0%nat, Examples.one_detection) /\
   (if PyFloat.lt (age Stub.clock (Examples.first_call Stub.clock).2
                     Examples.entry)
         (cache_ttl (self (Examples.first_call Stub.clock).2))
    then (process_frame Stub.GaussianBlur Stub.cv2_resize
            (Stub.model Examples.one_box) Stub.clock 0%nat
            (Some "f1"%string) (Some Examples.nine_tenths) true
            (Examples.first_call Stub.clock).2).1
         = Ok (0%nat, Examples.one_detection) /\
         detector_calls
           (process_frame Stub.GaussianBlur Stub.cv2_resize
              (Stub.model Examples.one_box) Stub.clock 0%nat
              (Some "f1"%string) (Some Examples.nine_tenths) true
              (Examples.first_call Stub.clock).2).2
         = detector_calls (Examples.first_call Stub.clock).2
    else detector_calls
           (process_frame Stub.GaussianBlur Stub.cv2_resize
              (Stub.model Examples.one_box) Stub.clock 0%nat
              (Some "f1"%string) (Some Examples.nine_tenths) true
              (Examples.first_call Stub.clock).2).2
         = (if reaches_detector Stub.cv2_resize
                 (Examples.first_call Stub.clock).2 0%nat true
            then S (detector_calls (Examples.first_call Stub.clock).2)
            else detector_calls (Examples.first_call Stub.clock).2))) /\
  PyFloat.lt (age Stub.clock (Examples.first_call Stub.clock).2
                Examples.entry)
    (cache_ttl (self (Examples.first_call Stub.clock).2)) = true /\
  PyFloat.lt (age (Stub.paused_clock 4)
                (Examples.first_call (Stub.paused_clock 4)).2 Examples.entry)
    (cache_ttl (self (Examples.first_call (Stub.paused_clock 4)).2)) = false /\
  detector_calls
    (process_frame Stub.GaussianBlur Stub.cv2_resize
       (Stub.model Examples.one_box) (Stub.paused_clock 4) 0%nat
       (Some "f1"%string) None false
       (Examples.first_call (Stub.paused_clock 4)).2).2 = 2%nat.
Proof.
  split; [|split; [|split]].
  - apply (cache_serves_fresh_entries Stub.GaussianBlur Stub.cv2_resize
             (Stub.model Examples.one_box) Stub.clock
             Examples.s0 (Examples.first_call Stub.clock).2 0%nat 0%nat
             "f1"%string None (Some Examples.nine_tenths) false true
             0%nat Examples.one_detection Examples.entry).
    + discriminate.
    + vm_compute. reflexivity.
    + vm_compute. reflexivity.
    + vm_compute. reflexivity.
  - vm_compute. reflexivity.
  - vm_compute. reflexivity.
  - pose proof (cache_serves_fresh_entries Stub.GaussianBlur Stub.cv2_resize
             (Stub.model Examples.one_box) (Stub.paused_clock 4)
             Examples.s0 (Examples.first_call (Stub.paused_clock 4)).2
             0%nat 0%nat "f1"%string None None false false
             0%nat Examples.one_detection Examples.entry) as H.
    destruct H as [_ H].
    + discriminate.
    + vm_compute. reflexivity.
    + vm_compute. reflexivity.
    + vm_compute. reflexivity.
    + vm_compute in H. vm_compute. exact H.
Defined.

Lemma cached_result_ignores_arguments_witness :
  process_frame Stub.GaussianBlur Stub.cv2_resize
    (Stub.model Examples.one_box) Stub.clock 0%nat (Some "f1"%string)
    (Some Examples.nine_tenths) true (Examples.first_call Stub.clock).2
  = (Ok (0%nat, Examples.one_detection),
     ticked 2 (Examples.first_call Stub.clock).2).
Proof.
  apply (cached_result_ignores_arguments Stub.GaussianBlur Stub.cv2_resize
           (Stub.model Examples.one_box) Stub.clock
           Examples.s0 (Examples.first_call Stub.clock).2 0%nat 0%nat
           "f1"%string None (Some Examples.nine_tenths) false true
           0%nat Examples.one_detection Examples.entry).
  - discriminate.
  - vm_compute. reflexivity.
  - vm_compute. reflexivity.
  - vm_compute. reflexivity.
  - vm_compute. reflexivity.
Defined.



(** C1 fails on the code.  The resize factor is 1.0 and the detector finds
    an 8 by 8 region and a region one pixel wide.  The first region is
    blurred in place; the blur of the second raises, because [cv2.resize]
    is asked for an empty size.  [process_frame] logs the exception and
    returns the caller's buffer with an empty detection list, but the
    buffer is no longer the original frame: the pixel at row 3, column 3
    has changed. *)
Theorem partially_blurred_frame_is_returned :
  Examples.failing_call.1 = Ok (0%nat, []) /\
  error_log Examples.failing_call.2 = [cv2_error] /\
  at2 Examples.frame20 3 3 = Some ("003"%byte, "003"%byte, "000"%byte) /\
  (store Examples.failing_call.2 !! 0%nat ≫= fun img => at2 img 3 3)
  = Some ("000"%byte, "000"%byte, "000"%byte).
Proof. vm_compute. repeat split. Qed.

(** ** The edge mask *)

Lemma map_fmap {A B} (f : A -> B) (l : list A) : map f l = f <$> l.
Proof. reflexivity. Qed.

Lemma at2_tab {A} (h w : nat) (f : nat -> nat -> A) (r c : nat) :
  (r < h)%nat -> (c < w)%nat -> at2 (tab h w f) r c = Some (f r c).
Proof.
  intros Hr Hc. unfold at2, tab, array2.
  rewrite ?map_fmap.
  rewrite list_lookup_fmap, (lookup_seq_lt _ _ _ Hr). simpl.
  rewrite ?map_fmap.
  rewrite list_lookup_fmap, (lookup_seq_lt _ _ _ Hc). reflexivity.
Qed.

Lemma full_mask_tab (h w : nat) (v : Z) :
  full_mask (Z.of_nat h) (Z.of_nat w) v = Ok (tab h w (fun _ _ => v)).
Proof.
  unfold full_mask, tab, mask, array2.
  destruct (Z.ltb_spec (Z.of_nat h) 0); [lia|].
  destruct (Z.ltb_spec (Z.of_nat w) 0); [lia|]. simpl. f_equal.
  rewrite !Nat2Z.id.
  apply list_eq. intros i.
  rewrite ?map_fmap.
  rewrite list_lookup_fmap.
  destruct (decide (i < h)%nat) as [Hi|Hi].
  - rewrite lookup_replicate_2 by lia. rewrite (lookup_seq_lt _ _ _ Hi). simpl.
    f_equal. apply list_eq. intros j.
    rewrite ?map_fmap.
    rewrite list_lookup_fmap.
    destruct (decide (j < w)%nat) as [Hj|Hj].
    + rewrite lookup_replicate_2 by lia. rewrite (lookup_seq_lt _ _ _ Hj). reflexivity.
    + rewrite (proj1 (lookup_replicate_None _ _ _)) by lia. rewrite lookup_seq_ge by lia. reflexivity.
  - rewrite (proj1 (lookup_replicate_None _ _ _)) by lia. rewrite lookup_seq_ge by lia. reflexivity.
Qed.

Lemma set_row_tab (h w : nat) (f : nat -> nat -> Z) (i v : Z) :
  0 <= i ->
  set_row i v (tab h w f)
  = tab h w (fun r c => if Nat.eqb r (Z.to_nat i) then uint8 v else f r c).
Proof.
  intros Hi. unfold set_row, tab, mask, array2. apply list_eq. intros k.
  rewrite ?map_fmap.
  destruct (decide (k = Z.to_nat i)) as [->|Hk].
  - rewrite list_lookup_alter_eq, !list_lookup_fmap.
    destruct (seq 0 h !! Z.to_nat i) as [r|] eqn:E; simpl; [|reflexivity].
    apply lookup_seq in E. destruct E as [-> _]. simpl.
    f_equal. rewrite Nat.eqb_refl.
    rewrite ?map_fmap.
    rewrite <- list_fmap_compose. reflexivity.
  - rewrite list_lookup_alter_ne by congruence. rewrite !list_lookup_fmap.
    destruct (seq 0 h !! k) as [r|] eqn:E; simpl; [|reflexivity].
    apply lookup_seq in E. destruct E as [-> _]. simpl.
    destruct (Nat.eqb_spec k (Z.to_nat i)); [congruence|]. reflexivity.
Qed.

Lemma min_col_tab (h w : nat) (f : nat -> nat -> Z) (i v : Z) :
  0 <= i ->
  min_col i v (tab h w f)
  = tab h w (fun r c => if Nat.eqb c (Z.to_nat i) then uint8 (Z.min (f r c) v) else f r c).
Proof.
  intros Hi. unfold min_col, tab, mask, array2.
  rewrite ?map_fmap.
  rewrite <- list_fmap_compose. apply list_fmap_ext. intros _ r _. simpl.
  apply list_eq. intros k.
  rewrite ?map_fmap.
  destruct (decide (k = Z.to_nat i)) as [->|Hk].
  - rewrite list_lookup_alter_eq, !list_lookup_fmap.
    destruct (seq 0 w !! Z.to_nat i) as [c|] eqn:E; simpl; [|reflexivity].
    apply lookup_seq in E. destruct E as [-> _]. simpl.
    rewrite Nat.eqb_refl. reflexivity.
  - rewrite list_lookup_alter_ne by congruence. rewrite !list_lookup_fmap.
    destruct (seq 0 w !! k) as [c|] eqn:E; simpl; [|reflexivity].
    apply lookup_seq in E. destruct E as [-> _]. simpl.
    destruct (Nat.eqb_spec k (Z.to_nat i)); [congruence|]. reflexivity.
Qed.

Lemma smooth_step_tab (H W : nat) (f : nat -> nat -> Z) (i v : Z) :
  0 <= i -> i < Z.of_nat H -> i < Z.of_nat W ->
  intensity 5 i = Ok v ->
  smooth_step (Z.of_nat W) (Z.of_nat H) 5 i (tab H W f)
  = Ok (tab H W (step_fn H W i v f)).
Proof.
  intros Hi HH HW Hv. unfold smooth_step. rewrite Hv. simpl.
  destruct (Z.ltb_spec i (Z.of_nat H)); [|lia].
  destruct (Z.geb_spec (Z.of_nat H - 1 - i) 0); [|lia].
  destruct (Z.ltb_spec i (Z.of_nat W)); [|lia].
  destruct (Z.geb_spec (Z.of_nat W - 1 - i) 0); [|lia].
  rewrite set_row_tab by lia. rewrite set_row_tab by lia.
  rewrite min_col_tab by lia. rewrite min_col_tab by lia.
  reflexivity.
Qed.

Lemma step_fn_bands (H W r c : nat) (k : Z) (f : nat -> nat -> Z) :
  0 <= k < 5 -> 2 * (k + 1) <= Z.of_nat H -> 2 * (k + 1) <= Z.of_nat W ->
  (r < H)%nat -> (c < W)%nat ->
  f r c = bands k H W r c ->
  step_fn H W k (ramp k) f r c = bands (k + 1) H W r c.
Proof.
  intros Hk HH HW Hr Hc Hf. unfold step_fn. rewrite Hf.
  unfold bands, dist, ramp, uint8.
  assert (Hm : (51 * (k + 1)) mod 256 = 51 * (k + 1)) by (apply Z.mod_small; lia).
  destruct (Nat.eqb_spec r (Z.to_nat k));
  destruct (Nat.eqb_spec r (Z.to_nat (Z.of_nat H - 1 - k)));
  destruct (Nat.eqb_spec c (Z.to_nat k));
  destruct (Nat.eqb_spec c (Z.to_nat (Z.of_nat W - 1 - k)));
  repeat match goal with
  | |- context [?a <? ?b] => destruct (Z.ltb_spec a b); try (exfalso; lia)
  end;
  rewrite ?Hm; rewrite ?Z.mod_small by lia; lia.
Qed.

Lemma tab_ext {A} (H W : nat) (f g : nat -> nat -> A) :
  (forall r c, (r < H)%nat -> (c < W)%nat -> f r c = g r c) ->
  tab H W f = tab H W g.
Proof.
  intros Hfg. unfold tab. rewrite !map_fmap.
  apply list_fmap_ext. intros i r Hr. apply lookup_seq in Hr.
  destruct Hr as [-> Hr]. simpl. rewrite !map_fmap.
  apply list_fmap_ext. intros j c Hc. apply lookup_seq in Hc.
  destruct Hc as [-> Hc]. simpl. apply Hfg; lia.
Qed.

Lemma intensity_ramp (k : Z) : 0 <= k < 5 -> intensity 5 k = Ok (ramp k).
Proof.
  intros Hk.
  assert (Hc : k = 0 \/ k = 1 \/ k = 2 \/ k = 3 \/ k = 4) by lia.
  destruct Hc as [->|[->|[->|[->| ->]]]]; vm_compute; reflexivity.
Qed.

Lemma smooth_step_bands (H W : nat) (k : Z) :
  0 <= k < 5 -> (10 <= H)%nat -> (10 <= W)%nat ->
  smooth_step (Z.of_nat W) (Z.of_nat H) 5 k (tab H W (bands k H W))
  = Ok (tab H W (bands (k + 1) H W)).
Proof.
  intros Hk HH HW.
  rewrite (smooth_step_tab H W _ k (ramp k)) by (try lia; apply intensity_ramp; lia).
  f_equal. apply tab_ext. intros r c Hr Hc.
  apply step_fn_bands; try lia; reflexivity.
Qed.

Lemma result_bind_Ok {A B} (a : A) (k : A -> result B) : (Ok a ≫= k) = k a.
Proof. reflexivity. Qed.

Lemma smooth_loop_cons w h p i rest m :
  smooth_loop w h p (i :: rest) m
  = (smooth_step w h p i m ≫= smooth_loop w h p rest).
Proof. reflexivity. Qed.

Lemma create_smooth_mask_bands (H W : nat) :
  (10 <= H)%nat -> (10 <= W)%nat ->
  create_smooth_mask (Z.of_nat W) (Z.of_nat H) padding
  = Ok (tab H W (bands 5 H W)).
Proof.
  intros HH HW. unfold create_smooth_mask, padding.
  rewrite full_mask_tab, result_bind_Ok.
  change (5 >? 0) with true. cbv iota.
  change (range 5) with [0; 1; 2; 3; 4].
  rewrite (tab_ext H W (fun _ _ => 255) (bands 0 H W)).
  2:{ intros r c Hr Hc. unfold bands, dist.
      repeat match goal with
      | |- context [?a <? ?b] => destruct (Z.ltb_spec a b); try (exfalso; lia)
      end. reflexivity. }
  rewrite smooth_loop_cons, (smooth_step_bands H W 0), result_bind_Ok by lia.
  change (0 + 1) with 1.
  rewrite smooth_loop_cons, (smooth_step_bands H W 1), result_bind_Ok by lia.
  change (1 + 1) with 2.
  rewrite smooth_loop_cons, (smooth_step_bands H W 2), result_bind_Ok by lia.
  change (2 + 1) with 3.
  rewrite smooth_loop_cons, (smooth_step_bands H W 3), result_bind_Ok by lia.
  change (3 + 1) with 4.
  rewrite smooth_loop_cons, (smooth_step_bands H W 4), result_bind_Ok by lia.
  change (4 + 1) with 5.
  reflexivity.
Qed.

(** C8, as stated, fails: on a padded box of 20 by 20 the outermost ring
    has weight 51 in the middle of the top row, not zero, and the pixel of
    the leftmost column in row 4 has the full weight 255. *)
Lemma outermost_ring_is_not_zero :
  exists m,
    create_smooth_mask 20 20 padding = Ok m /\
    at2 m 0 10 = Some 51 /\
    at2 m 4 0 = Some 255.
Proof. eexists. vm_compute. repeat split. Qed.

(** C8, amended: on a padded box at least 10 wide and 10 high the mask is
    255 at every pixel at least [padding] away from all four edges, and at
    a pixel at distance [d < padding] from the nearest edge it is
    [int(255 * (d + 1) / padding) = 51 * (d + 1)], hence 51 and not zero on
    the outermost ring; this is stated for the pixels that are not nearer
    to the left or right edge than to the top or bottom edge while less
    than [padding] away from the top or bottom edge. *)
Theorem edge_mask_ramp (w h : Z) (r c : nat) :
  10 <= w -> 10 <= h -> Z.of_nat r < h -> Z.of_nat c < w ->
  ~ (Z.min (Z.of_nat c) (w - 1 - Z.of_nat c)
     < Z.min (Z.of_nat r) (h - 1 - Z.of_nat r) < padding) ->
  exists m d,
    create_smooth_mask w h padding = Ok m /\
    d = Z.min (Z.min (Z.of_nat r) (h - 1 - Z.of_nat r))
              (Z.min (Z.of_nat c) (w - 1 - Z.of_nat c)) /\
    at2 m r c = Some (if d <? padding then ramp d else 255) /\
    (d < padding -> intensity padding d = Ok (ramp d)).
Proof.
  intros Hw Hh Hr Hc Hz.
  exists (tab (Z.to_nat h) (Z.to_nat w) (bands 5 (Z.to_nat h) (Z.to_nat w))).
  eexists. split; [|split; [reflexivity|split]].
  - rewrite <- (Z2Nat.id w) at 1 by lia. rewrite <- (Z2Nat.id h) at 1 by lia.
    apply create_smooth_mask_bands; lia.
  - rewrite at2_tab by lia. f_equal.
    unfold bands, dist, padding in *. rewrite !Z2Nat.id by lia.
    repeat match goal with
    | |- context [?a <? ?b] => destruct (Z.ltb_spec a b); try (exfalso; lia)
    end; try reflexivity; unfold ramp; lia.
  - intros Hd. apply intensity_ramp. unfold padding in *. lia.
Qed.

Lemma edge_mask_ramp_witness :
  exists m d,
    create_smooth_mask 20 12 padding = Ok m /\
    d = Z.min (Z.min (Z.of_nat 1) (12 - 1 - Z.of_nat 1))
              (Z.min (Z.of_nat 17) (20 - 1 - Z.of_nat 17)) /\
    at2 m 1 17 = Some (if d <? padding then ramp d else 255) /\
    (d < padding -> intensity padding d = Ok (ramp d)).
Proof.
  apply (edge_mask_ramp 20 12 1 17).
  - lia.
  - lia.
  - simpl. lia.
  - simpl. lia.
  - simpl. unfold padding. lia.
Defined.

(** ** Assignment to a slice *)

Lemma slice_range_nonneg (a b : Z) (n : nat) :
  0 <= a <= b ->
  exists lo hi : nat,
    slice_range a b (Z.of_nat n) = (lo, hi) /\
    (lo <= hi <= n)%nat /\
    Z.of_nat lo = Z.min a (Z.of_nat n) /\
    Z.of_nat hi = Z.min b (Z.of_nat n).
Proof.
  intros Hab. unfold slice_range, slice_bound.
  destruct (Z.ltb_spec a 0); [lia|]. destruct (Z.ltb_spec b 0); [lia|].
  eexists _, _. split; [reflexivity|]. lia.
Qed.

Lemma broadcast_length {A} (l l' : list A) (n : nat) :
  broadcast l n = Ok l' -> length l' = n.
Proof.
  unfold broadcast. destruct (Nat.eqb_spec (length l) n) as [Hn|Hn].
  - intros [= <-]. exact Hn.
  - destruct l as [|x [|y l]]; try discriminate.
    intros [= <-]. apply length_replicate.
Qed.

Lemma assign_row_spec {A} (row new row' : list A) (x1 x2 : Z) :
  0 <= x1 <= x2 ->
  assign_row row x1 x2 new = Ok row' ->
  row_agrees x1 x2 row row'.
Proof.
  intros Hx. unfold assign_row, len.
  destruct (slice_range_nonneg x1 x2 (length row) Hx)
    as (lo & hi & -> & Hle & Hlo & Hhi).
  intros H. apply bind_Ok in H. destruct H as (new' & Hb & [= <-]).
  apply broadcast_length in Hb.
  split.
  - rewrite !length_app, length_take, length_drop, Hb. lia.
  - intros c Hc.
    destruct (decide (c < lo)%nat) as [Hlt|Hge].
    + rewrite lookup_app_l by (rewrite length_take; lia).
      apply lookup_take_lt. lia.
    + destruct (decide (c < length row)%nat) as [Hin|Hout].
      * rewrite lookup_app_r by (rewrite length_take; lia).
        rewrite lookup_app_r by (rewrite length_take, Hb; lia).
        rewrite lookup_drop. f_equal. rewrite length_take, Hb. lia.
      * rewrite (lookup_ge_None_2 row) by lia.
        apply lookup_ge_None_2.
        rewrite !length_app, length_take, length_drop, Hb. lia.
Qed.

Lemma assign_rows_spec {A} (x1 x2 : Z) (rows : array2 A) :
  0 <= x1 <= x2 ->
  forall patch rows',
    length patch = length rows ->
    assign_rows rows x1 x2 patch = Ok rows' ->
    Forall2 (row_agrees x1 x2) rows rows'.
Proof.
  intros Hx. induction rows as [|row rows IH]; intros patch rows' Hl H.
  - destruct patch; simpl in H; injection H as <-; constructor.
  - destruct patch as [|prow patch]; [discriminate|]. simpl in H.
    apply bind_Ok in H. destruct H as (row' & Hr & H).
    apply bind_Ok in H. destruct H as (rest & Hrest & [= <-]).
    constructor.
    + eapply assign_row_spec; eassumption.
    + eapply IH; [|eassumption]. simpl in Hl. lia.
Qed.

Lemma at2_app_l {A} (a b : array2 A) (r c : nat) :
  (r < length a)%nat -> at2 (a ++ b) r c = at2 a r c.
Proof.
  intros H. unfold at2, array2 in *. rewrite lookup_app_l by lia. reflexivity.
Qed.

Lemma at2_app_r {A} (a b : array2 A) (r c : nat) :
  (length a <= r)%nat -> at2 (a ++ b) r c = at2 b (r - length a) c.
Proof.
  intros H. unfold at2, array2 in *. rewrite lookup_app_r by lia. reflexivity.
Qed.

Lemma assign_slice2_spec {A} (arr patch arr' : array2 A) (y1 y2 x1 x2 : Z) :
  0 <= y1 <= y2 -> 0 <= x1 <= x2 ->
  assign_slice2 arr y1 y2 x1 x2 patch = Ok arr' ->
  agrees_outside y1 y2 x1 x2 arr arr'.
Proof.
  intros Hy Hx. unfold assign_slice2, len.
  destruct (slice_range_nonneg y1 y2 (length arr) Hy)
    as (lo & hi & -> & Hle & Hlo & Hhi).
  intros H. apply bind_Ok in H. destruct H as (patch' & Hb & H).
  apply bind_Ok in H. destruct H as (mid & Hm & [= <-]).
  apply broadcast_length in Hb.
  assert (Hlen : length (take (hi - lo) (drop lo arr)) = (hi - lo)%nat).
  { rewrite length_take, length_drop. lia. }
  apply assign_rows_spec in Hm; [|lia|congruence].
  assert (Hmid : length mid = (hi - lo)%nat).
  { apply Forall2_length in Hm. congruence. }
  split.
  - assert (Hdec : take lo arr ++ take (hi - lo) (drop lo arr) ++ drop hi arr
                   = arr).
    { rewrite <- (take_drop lo arr) at 4. f_equal.
      rewrite <- (take_drop (hi - lo) (drop lo arr)) at 2. f_equal.
      rewrite drop_drop. f_equal. lia. }
    enough (map length (take lo arr ++ mid ++ drop hi arr)
            = map length (take lo arr ++ take (hi - lo) (drop lo arr)
                            ++ drop hi arr)) as Hen
      by (rewrite Hen; f_equal; exact Hdec).
    rewrite !map_app. f_equal. f_equal.
    clear -Hm. induction Hm as [|row row' rows rows' [Hr _] _ IH]; simpl;
      [reflexivity | congruence].
  - intros r c Hout.
    destruct (decide (r < lo)%nat) as [Hr|Hr].
    + rewrite at2_app_l by (rewrite length_take; lia).
      unfold at2, array2. rewrite lookup_take_lt by lia. reflexivity.
    + rewrite at2_app_r by (rewrite length_take; lia).
      rewrite length_take.
      replace (Nat.min lo (length arr)) with lo by lia.
      destruct (decide (r < hi)%nat) as [Hr2|Hr2].
      * rewrite at2_app_l by lia.
        unfold at2, array2 in *.
        destruct (mid !! (r - lo)%nat) as [row'|] eqn:Hrow'.
        2:{ apply lookup_ge_None_1 in Hrow'. lia. }
        destruct (Forall2_lookup_r _ _ _ _ _ Hm Hrow')
          as (row & Hrow & [_ Hagree]).
        rewrite lookup_take_lt in Hrow by lia. rewrite lookup_drop in Hrow.
        replace (lo + (r - lo))%nat with r in Hrow by lia.
        rewrite Hrow. simpl. apply Hagree. lia.
      * rewrite at2_app_r by lia. rewrite Hmid.
        unfold at2, array2. rewrite lookup_drop.
        replace (hi + (r - lo - (hi - lo)))%nat with r by lia. reflexivity.
Qed.

Lemma agrees_outside_refl {A} (y1 y2 x1 x2 : Z) (arr : array2 A) :
  agrees_outside y1 y2 x1 x2 arr arr.
Proof. split; reflexivity. Qed.

Section FlaskCompositor.
Variable GaussianBlur : image -> Z * Z -> Z -> result image.
Variable cv2_resize : image -> Z * Z -> interpolation -> result image.

Lemma ultra_fast_blur_region_spec (img img' : image) (reg : region) :
  origin_nonneg reg ->
  ultra_fast_blur_region GaussianBlur cv2_resize img reg = Ok img' ->
  agrees_outside (ry1 reg) (ry2 reg) (rx1 reg) (rx2 reg) img img'.
Proof.
  intros [Hx Hy]. unfold ultra_fast_blur_region.
  destruct (Z.gtb_spec (rx2 reg) (rx1 reg)); simpl;
    [|intros [= <-]; apply agrees_outside_refl].
  destruct (Z.gtb_spec (ry2 reg) (ry1 reg)); simpl;
    [|intros [= <-]; apply agrees_outside_refl].
  destruct (size3 _ >? 0); [|intros [= <-]; apply agrees_outside_refl].
  destruct (shape (slice2 img (ry1 reg) (ry2 reg) (rx1 reg) (rx2 reg)))
    as [h w].
  intros Hrun. apply bind_Ok in Hrun. destruct Hrun as (b1 & _ & Hrun).
  apply bind_Ok in Hrun. destruct Hrun as (b2 & _ & Hrun).
  apply assign_slice2_spec in Hrun; [exact Hrun | lia | lia].
Qed.

Lemma blur_progress_spec (regions : list region) :
  forall img : image,
    Forall origin_nonneg regions ->
    map length (blur_progress GaussianBlur cv2_resize img regions).1
    = map length img /\
    forall r c : nat,
      Forall (fun reg => outside reg r c) regions ->
      at2 (blur_progress GaussianBlur cv2_resize img regions).1 r c
      = at2 img r c.
Proof.
  induction regions as [|reg regions IH]; intros img Hnn; simpl.
  - split; reflexivity.
  - inversion Hnn as [|? ? Hreg Hrest]; subst.
    destruct (ultra_fast_blur_region GaussianBlur cv2_resize img reg)
      as [img'|e] eqn:E; simpl; [|split; reflexivity].
    apply ultra_fast_blur_region_spec in E; [|exact Hreg].
    destruct E as [Hlen Hpix]. destruct (IH img' Hrest) as [IHlen IHpix].
    split; [congruence|].
    intros r c Hout. inversion Hout as [|? ? Ho1 Ho2]; subst.
    rewrite IHpix by exact Ho2. apply Hpix. exact Ho1.
Qed.
End FlaskCompositor.

(** ** The masked blend *)

Lemma mask_zero_is_zero : F32.div (F32.of_int 0) (F32.of_int 255) = S754_zero false.
Proof. vm_compute. reflexivity. Qed.

Lemma blurred_times_zero (q : byte) :
  F32.mul (F32.of_int (byte_val q)) (S754_zero false) = S754_zero false.
Proof. destruct q; vm_compute; reflexivity. Qed.

Lemma original_times_one (p : byte) :
  uint8_of_f32
    (F32.add
       (F32.mul (F32.of_int (byte_val p))
          (F32.sub (F32.of_int 1) (S754_zero false)))
       (S754_zero false)) = p.
Proof. destruct p; vm_compute; reflexivity. Qed.

Lemma blend_channel_zero (p q : byte) : blend_channel p q 0 = p.
Proof.
  unfold blend_channel. cbv zeta. rewrite mask_zero_is_zero.
  rewrite blurred_times_zero. apply original_times_one.
Qed.

Lemma blend_pixel_zero (p q : pixel) : blend_pixel p q 0 = p.
Proof.
  destruct p as [[b1 g1] r1], q as [[b2 g2] r2]. unfold blend_pixel.
  rewrite !blend_channel_zero. reflexivity.
Qed.

Lemma blend_row_spec (o b : list pixel) (mrow : list Z) :
  length b = length o -> length mrow = length o ->
  length (zip_with (fun '(po, pb) mv => blend_pixel po pb mv) (zip o b) mrow)
  = length o /\
  forall c : nat,
    (forall v, mrow !! c = Some v -> v = 0) ->
    zip_with (fun '(po, pb) mv => blend_pixel po pb mv) (zip o b) mrow !! c
    = o !! c.
Proof.
  intros Hb Hm. split.
  - rewrite length_zip_with, length_zip. lia.
  - intros c Hz. rewrite lookup_zip_with.
    rewrite (lookup_zip_with pair o b c).
    destruct (o !! c) as [po|] eqn:Ho; simpl; [|reflexivity].
    apply lookup_lt_Some in Ho.
    destruct (lookup_lt_is_Some_2 b c) as [pb Hpb]; [lia|].
    destruct (lookup_lt_is_Some_2 mrow c) as [mv Hmv]; [lia|].
    rewrite Hpb, Hmv. simpl. rewrite (Hz mv Hmv), blend_pixel_zero.
    reflexivity.
Qed.

Lemma blend_rows_spec (orig : image) :
  forall (blurred : image) (m : mask),
    map length blurred = map length orig ->
    map length m = map length orig ->
    let out :=
      zip_with (fun '(o, b) mrow =>
                  zip_with (fun '(po, pb) mv => blend_pixel po pb mv)
                    (zip o b) mrow)
        (zip orig blurred) m in
    map length out = map length orig /\
    forall r c : nat,
      (forall v, at2 m r c = Some v -> v = 0) ->
      at2 out r c = at2 orig r c.
Proof.
  induction orig as [|o orig IH]; intros blurred m Hb Hm; simpl.
  - split; [reflexivity|]. intros r c _. destruct r; reflexivity.
  - destruct blurred as [|b blurred]; [discriminate|].
    destruct m as [|mrow m]; [discriminate|].
    simpl in Hb, Hm. injection Hb as Hb1 Hb2. injection Hm as Hm1 Hm2.
    destruct (blend_row_spec o b mrow Hb1 Hm1) as [Hl Hp].
    destruct (IH blurred m Hb2 Hm2) as [IHl IHp]. simpl.
    split; [f_equal; assumption|].
    intros [|r] c Hz.
    + unfold at2. simpl. apply Hp. intros v Hv. apply (Hz v Hv).
    + apply (IHp r c). intros v Hv. apply (Hz v Hv).
Qed.

Lemma blend_spec (orig blurred : image) (m : mask) (out : image) :
  blend orig blurred m = Ok out ->
  map length out = map length orig /\
  forall r c : nat,
    (forall v, at2 m r c = Some v -> v = 0) ->
    at2 out r c = at2 orig r c.
Proof.
  unfold blend.
  case_bool_decide as Hb; [|discriminate].
  case_bool_decide as Hm; [|discriminate]. simpl.
  intros [= <-]. apply blend_rows_spec; assumption.
Qed.

(** ** The combined mask *)

Lemma create_smooth_mask_dims (w h p : Z) (m : mask) :
  create_smooth_mask w h p = Ok m -> 0 <= h /\ 0 <= w.
Proof.
  unfold create_smooth_mask, full_mask.
  destruct (Z.ltb_spec h 0); [discriminate|].
  destruct (Z.ltb_spec w 0); [discriminate|]. intros _. lia.
Qed.

Lemma mark_region_spec (sh : Z * Z) (m m' : mask) (reg : region) :
  mark_region sh m reg = Ok m' ->
  map length m' = map length m /\
  forall r c : nat, outside_padded sh reg r c -> at2 m' r c = at2 m r c.
Proof.
  unfold mark_region, outside_padded.
  destruct (padded_box sh reg) as [[[x1 y1] x2] y2] eqn:Hp.
  intros H. apply bind_Ok in H. destruct H as (roi & Hc & H).
  apply bind_Ok in H. destruct H as (merged & _ & H).
  apply create_smooth_mask_dims in Hc.
  assert (0 <= x1 /\ 0 <= y1) as [Hx Hy].
  { unfold padded_box in Hp. destruct sh as [h w]. simpl in Hp.
    injection Hp; intros; lia. }
  apply assign_slice2_spec in H; [exact H | lia | lia].
Qed.

Lemma mark_regions_spec (sh : Z * Z) (regions : list region) :
  forall m m' : mask,
    mark_regions sh m regions = Ok m' ->
    map length m' = map length m /\
    forall r c : nat,
      Forall (fun reg => outside_padded sh reg r c) regions ->
      at2 m' r c = at2 m r c.
Proof.
  induction regions as [|reg regions IH]; intros m m' H; simpl in H.
  - injection H as <-. split; reflexivity.
  - apply bind_Ok in H. destruct H as (m1 & H1 & H).
    apply mark_region_spec in H1. destruct H1 as [Hl1 Hp1].
    apply IH in H. destruct H as [Hl Hp].
    split; [congruence|].
    intros r c Hout. inversion Hout; subst.
    rewrite Hp by assumption. apply Hp1. assumption.
Qed.

Lemma full_mask_zero (h w : Z) (m : mask) (r c : nat) (v : Z) :
  full_mask h w 0 = Ok m -> at2 m r c = Some v -> v = 0.
Proof.
  unfold full_mask. destruct (_ || _); [discriminate|]. intros [= <-].
  unfold at2, mask, array2. intros H.
  destruct (replicate (Z.to_nat h) (replicate (Z.to_nat w) 0) !! r)
    as [row|] eqn:E; [|simpl in H; discriminate].
  apply lookup_replicate in E. destruct E as [-> _]. simpl in H.
  apply lookup_replicate in H. tauto.
Qed.

Section Optimized.
Variable GaussianBlur : image -> Z * Z -> Z -> result image.
Variable cv2_resize : image -> Z * Z -> interpolation -> result image.
Variable filter2D : image -> Z -> array2 float -> result image.

Lemma apply_optimized_blur_spec (img out : image) (regions : list region) :
  apply_optimized_blur GaussianBlur cv2_resize filter2D img regions = Ok out ->
  map length out = map length img /\
  forall r c : nat,
    Forall (fun reg => outside_padded (shape img) reg r c) regions ->
    at2 out r c = at2 img r c.
Proof.
  unfold apply_optimized_blur. intros H.
  apply bind_Ok in H. destruct H as (m0 & H0 & H).
  apply bind_Ok in H. destruct H as (m & Hm & H).
  apply bind_Ok in H. destruct H as (blurred & _ & H).
  apply blend_spec in H. destruct H as [Hl Hp].
  apply mark_regions_spec in Hm. destruct Hm as [_ Hmp].
  split; [exact Hl|].
  intros r c Hout. apply Hp. intros v Hv.
  rewrite (Hmp r c Hout) in Hv.
  eapply full_mask_zero; eassumption.
Qed.
End Optimized.

(** C5: compositing leaves the dimensions of the frame unchanged and every
    pixel outside every redaction region as it was.  For
    [_apply_ultra_fast_blur], which writes into the caller's buffer, this
    holds of the buffer after the call, whether or not the blur of some
    region raised, outside the boxes themselves (regions are rectified, so
    their top-left corner is not negative); for [apply_optimized_blur] it
    holds of the returned array outside the padded boxes. *)
Theorem compositing_is_local
    (GaussianBlur : image -> Z * Z -> Z -> result image)
    (cv2_resize : image -> Z * Z -> interpolation -> result image)
    (filter2D : image -> Z -> array2 float -> result image)
    (s : state UltraFastNSFWProcessor) (frame : ref) (img : image)
    (regions regions' : list region) (r c : nat) :
  store s !! frame = Some img ->
  Forall origin_nonneg regions ->
  (exists img',
      store (_apply_ultra_fast_blur GaussianBlur cv2_resize frame regions s).2
        !! frame = Some img' /\
      map length img' = map length img /\
      (Forall (fun reg => outside reg r c) regions ->
       at2 img' r c = at2 img r c)) /\
  match apply_optimized_blur GaussianBlur cv2_resize filter2D img regions' with
  | Ok out =>
      map length out = map length img /\
      (Forall (fun reg => outside_padded (shape img) reg r c) regions' ->
       at2 out r c = at2 img r c)
  | Raise _ => True
  end.
Proof.
  intros Hs Hnn. split.
  - rewrite (_apply_ultra_fast_blur_spec _ _ frame regions s img Hs). simpl.
    rewrite lookup_insert_eq. eexists. split; [reflexivity|].
    destruct (blur_progress_spec GaussianBlur cv2_resize regions img Hnn)
      as [Hl Hp].
    split; [exact Hl | apply Hp].
  - destruct (apply_optimized_blur _ _ _ img regions') as [out|e] eqn:E;
      [|exact I].
    apply apply_optimized_blur_spec in E. destruct E as [Hl Hp].
    split; [exact Hl | apply Hp].
Qed.

Lemma compositing_is_local_witness :
  (exists img',
      store (_apply_ultra_fast_blur Stub.GaussianBlur Stub.cv2_resize 0%nat
               [Region 4 4 16 16 "BUTTOCKS_EXPOSED" Examples.nine_tenths]
               Examples.s0).2 !! 0%nat = Some img' /\
      map length img' = map length Examples.frame20 /\
      (Forall (fun reg => outside reg 2 17)
         [Region 4 4 16 16 "BUTTOCKS_EXPOSED" Examples.nine_tenths] ->
       at2 img' 2 17 = at2 Examples.frame20 2 17)) /\
  match apply_optimized_blur Stub.GaussianBlur Stub.cv2_resize Stub.filter2D
          Examples.frame20
          [Region 9 9 11 11 "BUTTOCKS_EXPOSED" Examples.nine_tenths] with
  | Ok out =>
      map length out = map length Examples.frame20 /\
      (Forall (fun reg => outside_padded (shape Examples.frame20) reg 2 17)
         [Region 9 9 11 11 "BUTTOCKS_EXPOSED" Examples.nine_tenths] ->
       at2 out 2 17 = at2 Examples.frame20 2 17)
  | Raise _ => True
  end.
Proof.
  apply (compositing_is_local Stub.GaussianBlur Stub.cv2_resize Stub.filter2D
           Examples.s0 0%nat Examples.frame20
           [Region 4 4 16 16 "BUTTOCKS_EXPOSED" Examples.nine_tenths]
           [Region 9 9 11 11 "BUTTOCKS_EXPOSED" Examples.nine_tenths]
           2%nat 17%nat).
  - reflexivity.
  - constructor; [split; simpl; lia | constructor].
Defined.

(** * Properties of the further parts *)

(** ** The class index of a box *)

Lemma to_int_not_IndexError (x : float) : PyFloat.to_int x <> Raise IndexError.
Proof. destruct x; discriminate. Qed.

Lemma of_int_not_IndexError (n : Z) : PyFloat.of_int n <> Raise IndexError.
Proof.
  unfold PyFloat.of_int. destruct (binary_normalize _ _ _ _ _); discriminate.
Qed.

Lemma int_of_scaled_not_IndexError (n : Z) (x : float) :
  PyFloat.int_of_scaled n x <> Raise IndexError.
Proof.
  unfold PyFloat.int_of_scaled, PyFloat.int_mul.
  pose proof (of_int_not_IndexError n) as H.
  destruct (PyFloat.of_int n) as [f|e]; simpl; [|congruence].
  apply to_int_not_IndexError.
Qed.

Lemma int_coords_not_IndexError c : int_coords c <> Raise IndexError.
Proof.
  destruct c as [[[c1 c2] c3] c4]. unfold int_coords.
  pose proof (to_int_not_IndexError c1). pose proof (to_int_not_IndexError c2).
  pose proof (to_int_not_IndexError c3). pose proof (to_int_not_IndexError c4).
  destruct (PyFloat.to_int c1); simpl; [|congruence].
  destruct (PyFloat.to_int c2); simpl; [|congruence].
  destruct (PyFloat.to_int c3); simpl; [|congruence].
  destruct (PyFloat.to_int c4); simpl; [discriminate|congruence].
Qed.

Lemma scale_back_not_IndexError rf c : scale_back rf c <> Raise IndexError.
Proof.
  destruct c as [[[x1 y1] x2] y2]. unfold scale_back.
  destruct (PyFloat.ne rf PyFloat.one); [|discriminate].
  destruct (PyFloat.div PyFloat.one rf) as [sc|e] eqn:Hd; simpl.
  - pose proof (int_of_scaled_not_IndexError x1 sc).
    pose proof (int_of_scaled_not_IndexError y1 sc).
    pose proof (int_of_scaled_not_IndexError x2 sc).
    pose proof (int_of_scaled_not_IndexError y2 sc).
    destruct (PyFloat.int_of_scaled x1 sc); simpl; [|congruence].
    destruct (PyFloat.int_of_scaled y1 sc); simpl; [|congruence].
    destruct (PyFloat.int_of_scaled x2 sc); simpl; [|congruence].
    destruct (PyFloat.int_of_scaled y2 sc); simpl; [discriminate|congruence].
  - unfold PyFloat.div in Hd. destruct rf; congruence.
Qed.

Lemma py_index_in_range {A} (l : list A) (i : Z) :
  - len l <= i < len l ->
  exists a, py_index l i = Ok a /\
            l !! Z.to_nat (if i <? 0 then i + len l else i) = Some a.
Proof.
  intros Hi. unfold py_index. fold (len l).
  set (j := if i <? 0 then i + len l else i).
  assert (Hj : 0 <= j < len l).
  { unfold j. destruct (Z.ltb_spec i 0); lia. }
  destruct (Z.leb_spec 0 j); [|lia]. destruct (Z.ltb_spec j (len l)); [|lia].
  simpl. destruct (lookup_lt_is_Some_2 l (Z.to_nat j)) as [a Ha].
  { unfold len in Hj. lia. }
  rewrite Ha. eauto.
Qed.

Lemma py_index_below {A} (l : list A) (i : Z) :
  i < - len l -> py_index l i = Raise IndexError.
Proof.
  intros Hi. unfold py_index. fold (len l).
  assert (0 <= len l) by (unfold len; lia).
  destruct (Z.ltb_spec i 0); [|lia].
  destruct (Z.leb_spec 0 (i + len l)); [lia|]. reflexivity.
Qed.

(** X1: the class index of a box addresses the label table as a Python
    list: an index from [-len(labels)] to [-1] counts from the end of the
    table, and the loop body of [_extract_blur_regions] raises IndexError
    exactly when the index is below [-len(labels)]. *)
Theorem class_index_counts_from_the_end
    (labels : list string) (sh : Z * Z) (rf : float) (b : box) (k : Z) :
  PyFloat.to_int (cls b) = Ok k ->
  (extract_box labels sh rf b = Raise IndexError <-> k < - len labels) /\
  (- len labels <= k < 0 ->
   class_selected labels b
   = match labels !! Z.to_nat (k + len labels) with
     | Some name => bool_decide (name ∈ nsfw_classes)
     | None => false
     end).
Proof.
  intros Hk. split; [split|].
  - unfold extract_box. rewrite Hk. simpl.
    destruct (Z.ltb_spec k (len labels)) as [Hlt|Hge]; [|discriminate].
    destruct (Z.lt_ge_cases k (- len labels)) as [Hlow|Hin]; [auto|].
    destruct (py_index_in_range labels k) as (name & Hn & _); [lia|].
    rewrite Hn. simpl. case_bool_decide; [|discriminate].
    pose proof (int_coords_not_IndexError (xyxy b)) as Hc.
    destruct (int_coords (xyxy b)) as [c|e]; simpl; [|congruence].
    pose proof (scale_back_not_IndexError rf c) as Hs.
    destruct (scale_back rf c) as [c'|e]; simpl; [|congruence].
    destruct sh. discriminate.
  - intros Hlow. unfold extract_box. rewrite Hk. simpl.
    assert (0 <= len labels) by (unfold len; lia).
    destruct (Z.ltb_spec k (len labels)); [|lia].
    rewrite py_index_below by exact Hlow. reflexivity.
  - intros Hneg. unfold class_selected. rewrite Hk.
    destruct (Z.ltb_spec k (len labels)); [|lia]. simpl.
    destruct (py_index_in_range labels k) as (name & Hn & Hl); [lia|].
    rewrite Hn. destruct (Z.ltb_spec k 0); [|lia]. rewrite Hl. reflexivity.
Qed.

Lemma class_index_counts_from_the_end_witness :
  (extract_box get_labels (20, 20) Examples.half
     (Stub.box_of 2 2 8 8 (-16) 9 10) = Raise IndexError
   <-> -16 < - len get_labels) /\
  (- len get_labels <= -16 < 0 ->
   class_selected get_labels (Stub.box_of 2 2 8 8 (-16) 9 10)
   = match get_labels !! Z.to_nat (-16 + len get_labels) with
     | Some name => bool_decide (name ∈ nsfw_classes)
     | None => false
     end).
Proof.
  apply (class_index_counts_from_the_end get_labels (20, 20) Examples.half
           (Stub.box_of 2 2 8 8 (-16) 9 10) (-16)).
  vm_compute. reflexivity.
Defined.

(** ** One box that cannot be converted *)

Lemma extract_boxes_raises labels sh rf boxes b e :
  b ∈ boxes ->
  extract_box labels sh rf b = Raise e ->
  forall acc, exists e', extract_boxes labels sh rf boxes acc = Raise e'.
Proof.
  induction boxes as [|b0 boxes IH]; intros Hin Hb acc.
  - inversion Hin.
  - simpl. apply elem_of_cons in Hin. destruct Hin as [<-|Hin].
    + rewrite Hb. eauto.
    + destruct (extract_box labels sh rf b0) as [r|e0]; simpl; [|eauto].
      apply IH; assumption.
Qed.

Lemma extract_results_raises labels sh rf rs b e :
  b ∈ all_boxes rs ->
  extract_box labels sh rf b = Raise e ->
  forall acc, exists e', extract_results labels sh rf rs acc = Raise e'.
Proof.
  unfold all_boxes.
  induction rs as [|[boxes|] rs IH]; simpl; intros Hin Hb acc.
  - inversion Hin.
  - apply elem_of_app in Hin. destruct Hin as [Hin|Hin].
    + destruct (extract_boxes_raises _ _ _ _ _ _ Hin Hb acc) as [e' ->].
      eauto.
    + destruct (extract_boxes labels sh rf boxes acc) as [acc'|e0]; simpl;
        [|eauto].
      apply IH; assumption.
  - apply IH; assumption.
Qed.

Section FlaskOutcomes.

Variable GaussianBlur : image -> Z * Z -> Z -> result image.
Variable cv2_resize : image -> Z * Z -> interpolation -> result image.
Variable model : nat -> image -> float -> Z -> result results.
Variable clock : nat -> float.

Local Abbreviation St := (state UltraFastNSFWProcessor).
Local Abbreviation process :=
  (process_frame GaussianBlur cv2_resize model clock).

(** X2: the extraction is all or nothing.  When the loop body of
    [_extract_blur_regions] raises for one of the boxes the detector
    reported, a call that misses the cache returns the frame with an
    empty detection list, whatever the other boxes are, writes to no
    buffer and logs one exception. *)
Theorem one_bad_box_voids_the_frame
    (s : St) (frame : ref) (fid : option string) (ct : option float)
    (fm : bool) (img img' : image) (rs : results) (b : box) (e : exn) :
  fresh_entry clock s fid = None ->
  store s !! frame = Some img ->
  resize_for_inference cv2_resize img (factor s fm) = Ok img' ->
  model (detector_calls s) img' (threshold s ct) (max_detections (self s))
  = Ok rs ->
  b ∈ all_boxes rs ->
  extract_box get_labels (shape img) (factor s fm) b = Raise e ->
  exists e' s',
    process frame fid ct fm s = (Ok (frame, []), s') /\
    store s' = store s /\
    error_log s' = error_log s ++ [e'].
Proof.
  intros Hmiss Hl Hres Hm Hin Hb.
  destruct (extract_results_raises _ _ _ _ _ _ Hin Hb []) as [e' He'].
  rewrite (process_frame_miss _ _ _ _ _ _ _ _ _ Hmiss).
  destruct (after_lookup_fields s fid) as (Hself & Hst & Hcalls & Hlog).
  exists e'. eexists. split.
  - eapply (uncached_extraction_raises _ _ _ _ _ _ _ _ _ _ img img' rs e').
    + rewrite Hst. exact Hl.
    + unfold factor. rewrite Hself. exact Hres.
    + unfold threshold. rewrite Hself, Hcalls. exact Hm.
    + unfold factor. rewrite Hself. exact He'.
  - simpl. rewrite Hst, Hlog. split; reflexivity.
Qed.

End FlaskOutcomes.

Lemma one_bad_box_voids_the_frame_witness :
  exists e' s',
    process_frame Stub.GaussianBlur Stub.cv2_resize
      (Stub.model [Stub.box_of 2 2 8 8 2 9 10;
                   Box (S754_nan, PyFloat.lit 2 1, PyFloat.lit 8 1,
                        PyFloat.lit 8 1) Examples.nine_tenths
                       (PyFloat.lit 3 1)])
      Stub.clock 0%nat None None false Examples.s0
    = (Ok (0%nat, []), s') /\
    store s' = store Examples.s0 /\
    error_log s' = error_log Examples.s0 ++ [e'].
Proof.
  apply (one_bad_box_voids_the_frame Stub.GaussianBlur Stub.cv2_resize
           (Stub.model [Stub.box_of 2 2 8 8 2 9 10;
                        Box (S754_nan, PyFloat.lit 2 1, PyFloat.lit 8 1,
                             PyFloat.lit 8 1) Examples.nine_tenths
                            (PyFloat.lit 3 1)])
           Stub.clock Examples.s0 0%nat None None false Examples.frame20
           (match resize_for_inference Stub.cv2_resize Examples.frame20
                    Examples.half with
            | Ok small => small
            | Raise _ => []
            end)
           [Some [Stub.box_of 2 2 8 8 2 9 10;
                  Box (S754_nan, PyFloat.lit 2 1, PyFloat.lit 8 1,
                       PyFloat.lit 8 1) Examples.nine_tenths
                      (PyFloat.lit 3 1)]]
           (Box (S754_nan, PyFloat.lit 2 1, PyFloat.lit 8 1,
                 PyFloat.lit 8 1) Examples.nine_tenths (PyFloat.lit 3 1))
           ValueError).
  - reflexivity.
  - reflexivity.
  - vm_compute. reflexivity.
  - reflexivity.
  - apply list_elem_of_further, list_elem_of_here.
  - vm_compute. reflexivity.
Defined.

(** ** What a call reports and what it writes *)

Lemma produced_detection labels h w rf b r :
  0 <= h -> 0 <= w ->
  produced labels (h, w) rf b r ->
  det_class (detection_of r) ∈ nsfw_classes /\
  bbox_in_frame h w (detection_of r).
Proof.
  intros Hh Hw H. apply extract_box_Some in H.
  destruct H as (_ & k & name & c & c' & _ & _ & Hn & _ & _ & ->).
  pose proof (clamp_box_in_frame h w c' name (conf b) Hh Hw) as Hin.
  destruct (region_of_fields (clamp_box h w c') name (conf b)) as (Hcl & _ & _).
  simpl. split.
  - unfold detection_of. simpl. rewrite Hcl. exact Hn.
  - unfold bbox_in_frame, detection_of. simpl.
    destruct Hin as [(? & ? & ?) (? & ? & ?)].
    eexists _, _, _, _. split; [reflexivity|]. lia.
Qed.

Section FlaskReports.

Variable GaussianBlur : image -> Z * Z -> Z -> result image.
Variable cv2_resize : image -> Z * Z -> interpolation -> result image.
Variable model : nat -> image -> float -> Z -> result results.
Variable clock : nat -> float.

Local Abbreviation St := (state UltraFastNSFWProcessor).
Local Abbreviation process :=
  (process_frame GaussianBlur cv2_resize model clock).

(** X3: every detection that a call not served from the cache returns
    carries a class of [nsfw_classes] and a bounding box
    [[x1, y1, x2, y2]] with [0 <= x1 <= x2 <= width] and
    [0 <= y1 <= y2 <= height] of the frame that was passed in. *)
Theorem detections_lie_within_the_frame
    (s s' : St) (frame r : ref) (fid : option string) (ct : option float)
    (fm : bool) (img : image) (dets : list detection) :
  fresh_entry clock s fid = None ->
  store s !! frame = Some img ->
  process frame fid ct fm s = (Ok (r, dets), s') ->
  Forall (fun d => det_class d ∈ nsfw_classes /\
                   bbox_in_frame (height img) (width img) d) dets.
Proof.
  intros Hmiss Hl Hrun.
  destruct (process_frame_cases GaussianBlur cv2_resize model clock
              frame fid ct fm s) as (r0 & d0 & s0 & Hrun0 & Hcases).
  rewrite Hrun in Hrun0. injection Hrun0 as <- <- <-.
  rewrite Hmiss in Hcases.
  destruct Hcases as (_ & _ & [Hc|[Hc|Hc]]).
  - destruct Hc as (-> & _). constructor.
  - destruct Hc as (? & ? & ? & ? & _ & _ & _ & -> & _). constructor.
  - destruct Hc as (img0 & regions & img2 & Hl0 & Hsel & _ & -> & _).
    rewrite Hl in Hl0. injection Hl0 as <-.
    destruct Hsel as (img' & rs & _ & _ & Hx).
    apply _extract_blur_regions_spec in Hx.
    apply Forall_forall. intros d Hd.
    apply list_elem_of_In, in_map_iff in Hd.
    destruct Hd as (reg & <- & Hreg). apply list_elem_of_In in Hreg.
    destruct (Forall2_elem_of_right _ _ _ _ Hx Hreg) as (b & _ & Hb).
    eapply produced_detection; [apply height_nonneg | apply width_nonneg|].
    exact Hb.
Qed.

(** X4: [process_frame] allocates no buffer and writes to no buffer other
    than the one it was given. *)
Theorem only_the_given_buffer_is_written
    (s : St) (frame : ref) (fid : option string) (ct : option float)
    (fm : bool) :
  dom (store (process frame fid ct fm s).2) = dom (store s) /\
  forall other : ref,
    other <> frame ->
    store (process frame fid ct fm s).2 !! other = store s !! other.
Proof.
  destruct (process_frame_cases GaussianBlur cv2_resize model clock
              frame fid ct fm s) as (r & d & s' & Hrun & Hcases).
  rewrite Hrun. simpl.
  assert (Hins : forall img img2,
            store s !! frame = Some img ->
            store s' = <[frame := img2]> (store s) ->
            dom (store s') = dom (store s) /\
            forall other, other <> frame ->
                          store s' !! other = store s !! other).
  { intros img img2 Hl ->. split.
    - rewrite dom_insert_L. apply subseteq_union_1_L.
      apply singleton_subseteq_l. apply (elem_of_dom_2 (D := gset ref)) in Hl.
      exact Hl.
    - intros other Hne. apply lookup_insert_ne. congruence. }
  destruct (fresh_entry clock s fid) as [e|].
  - destruct Hcases as (_ & _ & ->). simpl. split; reflexivity.
  - destruct Hcases as (_ & _ & [Hc|[Hc|Hc]]).
    + destruct Hc as (_ & -> & _). split; reflexivity.
    + destruct Hc as (img & ? & img2 & ? & Hl & _ & _ & _ & Hst & _).
      eapply Hins; eassumption.
    + destruct Hc as (img & ? & img2 & Hl & _ & _ & _ & Hst & _).
      eapply Hins; eassumption.
Qed.

End FlaskReports.

Lemma detections_lie_within_the_frame_witness :
  Forall (fun d => det_class d ∈ nsfw_classes /\
                   bbox_in_frame (height Examples.frame20)
                     (width Examples.frame20) d)
    Examples.one_detection.
Proof.
  apply (detections_lie_within_the_frame Stub.GaussianBlur Stub.cv2_resize
           (Stub.model Examples.one_box) Stub.clock
           Examples.s0 (Examples.first_call Stub.clock).2 0%nat 0%nat
           (Some "f1"%string) None false Examples.frame20
           Examples.one_detection).
  - reflexivity.
  - reflexivity.
  - vm_compute. reflexivity.
Defined.

(** ** Cache traffic and statistics of [process_frame] *)

Lemma recorded_length (t : float) (times : list float) :
  (length times <= 100 -> length (recorded t times) <= 100)%nat.
Proof.
  intros H. unfold recorded, len. cbv zeta.
  rewrite length_app. simpl.
  destruct (Z.gtb_spec (Z.of_nat (length times + 1)) 100).
  - rewrite length_drop, length_app. simpl. lia.
  - rewrite length_app. simpl. lia.
Qed.

Lemma processor_eta (p : UltraFastNSFWProcessor) :
  set_frame_cache (frame_cache p) p = p.
Proof. destruct p; reflexivity. Qed.

Section FlaskBookkeeping.

Variable GaussianBlur : image -> Z * Z -> Z -> result image.
Variable cv2_resize : image -> Z * Z -> interpolation -> result image.
Variable model : nat -> image -> float -> Z -> result results.
Variable clock : nat -> float.

Local Abbreviation St := (state UltraFastNSFWProcessor).
Local Abbreviation process :=
  (process_frame GaussianBlur cv2_resize model clock).
Local Abbreviation blur := (_apply_ultra_fast_blur GaussianBlur cv2_resize).
Local Abbreviation progress := (blur_progress GaussianBlur cv2_resize).
Local Abbreviation handled start frame fid ct fm :=
  (try_except
     (process_uncached GaussianBlur cv2_resize model clock start frame fid
        ct fm)
     (fun e => logger_error e;; mret (frame, []))).

(** What [cache_store] makes of the processor object. *)
Lemma cache_store_self (fid : option string) (frame : ref)
    (dets : list detection) (s : St) :
  exists s' cache',
    cache_store clock fid frame dets s = (Ok tt, s') /\
    same_world s s' /\
    self s' = set_frame_cache cache' (self s) /\
    (truthy_id fid = None -> cache' = frame_cache (self s)).
Proof.
  unfold cache_store. destruct (truthy_id fid) as [id|].
  - destruct s as [p st cr dc el]. destruct p.
    eexists _, _. split; [reflexivity|]. simpl.
    split; [repeat split|]. split; [reflexivity | discriminate].
  - exists s, (frame_cache (self s)). split; [reflexivity|].
    split; [apply same_world_refl|]. split; [|reflexivity].
    symmetry. apply processor_eta.
Qed.

(** What [track_performance] makes of the processor object. *)
Lemma track_performance_self (start_time : float) (s : St) :
  exists s',
    track_performance clock start_time s = (Ok tt, s') /\
    same_world s s' /\
    self s'
    = set_request_count (request_count (self s) + 1)
        (set_processing_times
           (recorded (elapsed_ms clock start_time (clock_reads s))
              (processing_times (self s)))
           (self s)).
Proof.
  unfold track_performance, mbind, M_bind, time_time, modify.
  eexists. split; [reflexivity|]. simpl.
  split; [repeat split|]. reflexivity.
Qed.

(** A call that misses the cache and completes: the processor object it
    leaves. *)
Lemma uncached_completes_self start frame fid ct fm (s : St)
    img img' rs regions img2 :
  store s !! frame = Some img ->
  resize_for_inference cv2_resize img (factor s fm) = Ok img' ->
  model (detector_calls s) img' (threshold s ct) (max_detections (self s))
  = Ok rs ->
  _extract_blur_regions rs (shape img) (factor s fm) = Ok regions ->
  progress img regions = (img2, None) ->
  exists s' cache' k,
    handled start frame fid ct fm s
    = (Ok (frame, map detection_of regions), s') /\
    error_log s' = error_log s /\
    self s'
    = set_request_count (request_count (self s) + 1)
        (set_processing_times
           (recorded (elapsed_ms clock start k) (processing_times (self s)))
           (set_frame_cache cache' (self s))) /\
    (truthy_id fid = None -> cache' = frame_cache (self s)).
Proof.
  intros H1 H2 H3 H4 H5. unfold threshold in H3.
  assert (HX : exists X : St,
    (match regions with
     | [] => mret frame
     | _ :: _ => blur frame regions
     end) (called s) = (Ok frame, X) /\
    error_log X = error_log s /\
    self X = self s).
  { destruct regions as [|r regions].
    - exists (called s). repeat split.
    - rewrite (_apply_ultra_fast_blur_spec _ _ frame (r :: regions) _ img)
        by (simpl; exact H1).
      rewrite H5. eexists. split; [reflexivity|]. repeat split. }
  destruct HX as (X & HX & HelX & HselfX).
  destruct (cache_store_self fid frame (map detection_of regions) X)
    as (s2 & cache' & Hc & (_ & _ & Hel2) & Hself2 & Hnone).
  destruct (track_performance_self start s2)
    as (s3 & Ht & (_ & _ & Hel3) & Hself3).
  exists s3, cache', (clock_reads s2). split; [|split; [|split]].
  - rewrite try_except_run. unfold process_uncached.
    rewrite bind_run, (load_run _ _ _ H1). cbv beta iota zeta.
    rewrite bind_run, gets_run. cbv beta iota zeta.
    rewrite bind_run, gets_run. cbv beta iota zeta.
    rewrite bind_run. unfold lift at 1. fold (factor s fm). rewrite H2.
    cbv beta iota zeta.
    rewrite bind_run, gets_run. cbv beta iota zeta.
    rewrite bind_run. unfold call_model at 1. rewrite H3.
    cbv beta iota zeta. fold (called s).
    rewrite bind_run. unfold lift at 1. rewrite H4. cbv beta iota zeta.
    rewrite bind_run, HX. cbv beta iota zeta.
    rewrite bind_run, Hc. cbv beta iota zeta.
    rewrite bind_run, Ht. cbv beta iota zeta.
    reflexivity.
  - congruence.
  - rewrite Hself3, Hself2, HselfX. reflexivity.
  - intros Hn. rewrite (Hnone Hn), HselfX. reflexivity.
Qed.

(** How a call that misses the cache leaves the processor object: as it
    was when an exception was logged, and otherwise with one more
    request, one more processing time and the cache as [cache_store]
    left it. *)
Lemma uncached_self start frame fid ct fm (s : St) :
  exists dets s',
    handled start frame fid ct fm s = (Ok (frame, dets), s') /\
    ((error_log s' <> error_log s /\ self s' = self s) \/
     (error_log s' = error_log s /\
      exists cache' k,
        self s'
        = set_request_count (request_count (self s) + 1)
            (set_processing_times
               (recorded (elapsed_ms clock start k)
                  (processing_times (self s)))
               (set_frame_cache cache' (self s))) /\
        (truthy_id fid = None -> cache' = frame_cache (self s)))).
Proof.
  destruct (store s !! frame) as [img|] eqn:H1.
  2:{ eexists _, _. split; [apply uncached_no_frame; exact H1|].
      left. split; [apply log_grew_not_same | reflexivity]. }
  destruct (resize_for_inference cv2_resize img (factor s fm))
    as [img'|e] eqn:H2.
  2:{ eexists _, _. split; [eapply uncached_resize_raises; eassumption|].
      left. split; [apply log_grew_not_same | reflexivity]. }
  destruct (model (detector_calls s) img' (threshold s ct)
              (max_detections (self s))) as [rs|e] eqn:H3.
  2:{ eexists _, _. split; [eapply uncached_detector_raises; eassumption|].
      left. split; [apply log_grew_not_same | reflexivity]. }
  destruct (_extract_blur_regions rs (shape img) (factor s fm))
    as [regions|e] eqn:H4.
  2:{ eexists _, _. split; [eapply uncached_extraction_raises; eassumption|].
      left. split; [apply log_grew_not_same | reflexivity]. }
  destruct (progress img regions) as [img2 [e|]] eqn:H5.
  - eexists _, _. split; [eapply uncached_blur_raises; eassumption|].
    left. split; [apply log_grew_not_same | reflexivity].
  - destruct (uncached_completes_self start frame fid ct fm s img img' rs
                regions img2 H1 H2 H3 H4 H5)
      as (s' & cache' & k & Hrun & Hel & Hself & Hnone).
    eexists _, s'. split; [exact Hrun|]. right.
    split; [exact Hel|]. exists cache', k. split; assumption.
Qed.

(** The same for [process_frame], a cache hit leaving the processor
    object as it was. *)
Lemma process_frame_self frame fid ct fm (s : St) :
  exists r dets s',
    process frame fid ct fm s = (Ok (r, dets), s') /\
    match fresh_entry clock s fid with
    | Some _ => error_log s' = error_log s /\ self s' = self s
    | None =>
        (error_log s' <> error_log s /\ self s' = self s) \/
        (error_log s' = error_log s /\
         exists cache' k,
           self s'
           = set_request_count (request_count (self s) + 1)
               (set_processing_times
                  (recorded (elapsed_ms clock (clock (clock_reads s)) k)
                     (processing_times (self s)))
                  (set_frame_cache cache' (self s))) /\
           (truthy_id fid = None -> cache' = frame_cache (self s)))
    end.
Proof.
  destruct (fresh_entry clock s fid) as [e|] eqn:Hf.
  - eexists _, _, _. split; [apply process_frame_hit; exact Hf|].
    split; reflexivity.
  - rewrite (process_frame_miss _ _ _ _ _ _ _ _ _ Hf).
    destruct (uncached_self (clock (clock_reads s)) frame fid ct fm
                (after_lookup s fid)) as (dets & s' & Hrun & Hout).
    destruct (after_lookup_fields s fid) as (Hself & _ & _ & Hlog).
    exists frame, dets, s'. split; [exact Hrun|].
    rewrite Hself, Hlog in Hout. exact Hout.
Qed.

(** X5: a call without an identifier that counts as true ([None] or the
    empty string) leaves the cache as it was, however the call ends. *)
Theorem no_identifier_no_cache_traffic
    (s : St) (frame : ref) (fid : option string) (ct : option float)
    (fm : bool) :
  truthy_id fid = None ->
  frame_cache (self (process frame fid ct fm s).2) = frame_cache (self s).
Proof.
  intros Hid.
  destruct (process_frame_self frame fid ct fm s)
    as (r & d & s' & Hrun & Hcases).
  rewrite Hrun. simpl.
  destruct (fresh_entry clock s fid).
  - destruct Hcases as [_ ->]. reflexivity.
  - destruct Hcases as [[_ ->]|(_ & cache' & k & -> & Hc)]; [reflexivity|].
    simpl. apply Hc. exact Hid.
Qed.

(** X6: [request_count] and [processing_times] record exactly the calls
    that miss the cache and log no exception: such a call adds one to the
    count and appends its processing time in milliseconds, dropping the
    oldest when there are more than 100; a call served from the cache and
    a call that logged an exception leave both as they were.  The list
    never grows beyond 100 elements. *)
Theorem statistics_count_completed_misses
    (s : St) (frame : ref) (fid : option string) (ct : option float)
    (fm : bool) :
  (fresh_entry clock s fid <> None \/
   error_log (process frame fid ct fm s).2 <> error_log s ->
   request_count (self (process frame fid ct fm s).2)
   = request_count (self s) /\
   processing_times (self (process frame fid ct fm s).2)
   = processing_times (self s)) /\
  (fresh_entry clock s fid = None ->
   error_log (process frame fid ct fm s).2 = error_log s ->
   request_count (self (process frame fid ct fm s).2)
   = request_count (self s) + 1 /\
   exists k,
     processing_times (self (process frame fid ct fm s).2)
     = recorded (elapsed_ms clock (clock (clock_reads s)) k)
         (processing_times (self s))) /\
  (length (processing_times (self s)) <= 100 ->
   length (processing_times (self (process frame fid ct fm s).2)) <= 100)%nat.
Proof.
  destruct (process_frame_self frame fid ct fm s)
    as (r & d & s' & Hrun & Hcases).
  rewrite Hrun. simpl.
  destruct (fresh_entry clock s fid) as [e|].
  - destruct Hcases as [Hel ->]. split; [|split].
    + intros _. split; reflexivity.
    + discriminate.
    + trivial.
  - destruct Hcases as [[Hel ->]|(Hel & cache' & k & -> & _)].
    + split; [|split].
      * intros _. split; reflexivity.
      * intros _ H. contradiction.
      * trivial.
    + split; [|split].
      * intros [H|H]; [congruence | contradiction].
      * intros _ _. simpl. split; [reflexivity|]. exists k. reflexivity.
      * simpl. apply recorded_length.
Qed.

End FlaskBookkeeping.

Lemma no_identifier_no_cache_traffic_witness :
  frame_cache
    (self (process_frame Stub.GaussianBlur Stub.cv2_resize
             (Stub.model Examples.one_box) Stub.clock 0%nat
             (Some ""%string) None false
             (Examples.first_call Stub.clock).2).2)
  = frame_cache (self (Examples.first_call Stub.clock).2).
Proof.
  apply (no_identifier_no_cache_traffic Stub.GaussianBlur Stub.cv2_resize
           (Stub.model Examples.one_box) Stub.clock
           (Examples.first_call Stub.clock).2 0%nat (Some ""%string) None
           false).
  reflexivity.
Defined.

(** ** [_clean_cache] *)

Section CacheCleaning.

Variable clock : nat -> float.

Local Abbreviation St := (state UltraFastNSFWProcessor).

(** X7: [_clean_cache] deletes exactly the entries that are older than
    the time-to-live at the time it reads, and changes no entry it keeps.
    An entry whose age equals the time-to-live is therefore kept, although
    the cache check of [process_frame], which asks for an age strictly
    less than the time-to-live, no longer serves it. *)
Theorem cleaning_deletes_what_is_older
    (s : St) (id : string) (e : cache_entry) :
  (frame_cache (self (_clean_cache clock s).2) !! id = Some e <->
   frame_cache (self s) !! id = Some e /\
   PyFloat.gt (PyFloat.sub (clock (clock_reads s)) (timestamp e))
     (cache_ttl (self s)) = false) /\
  (frame_cache (self s) !! id = Some e ->
   PyFloat.eq (PyFloat.sub (clock (clock_reads s)) (timestamp e))
     (cache_ttl (self s)) = true ->
   frame_cache (self (_clean_cache clock s).2) !! id = Some e) /\
  (frame_cache (self s) !! id = Some e ->
   PyFloat.eq (age clock s e) (cache_ttl (self s)) = true ->
   fresh_entry clock s (Some id) = None).
Proof.
  assert (Hiff :
    frame_cache (self (_clean_cache clock s).2) !! id = Some e <->
    frame_cache (self s) !! id = Some e /\
    PyFloat.gt (PyFloat.sub (clock (clock_reads s)) (timestamp e))
      (cache_ttl (self s)) = false).
  { unfold _clean_cache, mbind, M_bind, time_time, modify. simpl.
    destruct s as [p st cr dc el]. destruct p. simpl.
    rewrite map_lookup_filter_Some. reflexivity. }
  split; [exact Hiff|]. split.
  - intros He Heq. apply Hiff. split; [exact He|].
    apply eq_not_gt. exact Heq.
  - intros He Heq. unfold fresh_entry.
    destruct (truthy_id (Some id)) as [id'|] eqn:Hid; [|reflexivity].
    assert (id' = id) as ->.
    { destruct id; simpl in Hid; congruence. }
    simpl. rewrite He. simpl. rewrite (eq_not_lt _ _ Heq). reflexivity.
Qed.

End CacheCleaning.

(** ** The stream processor as CPython runs it *)

Section RealtimeImport.

Variable GaussianBlur : image -> Z * Z -> Z -> result image.
Variable cv2_resize : image -> Z * Z -> interpolation -> result image.
Variable model : nat -> image -> result results.
Variable clock : nat -> float.
Variable e0 : exn.

Local Abbreviation St := (state VideoStreamProcessor.t).
(** The frame that was passed in is not written by [prepare], however it
    ends. *)
Lemma prepare_keeps_frame (frame : ref) (rf : float) (s : St) :
  store (VideoStreamProcessor.prepare cv2_resize frame rf s).2 !! frame
  = store s !! frame /\
  detector_calls (VideoStreamProcessor.prepare cv2_resize frame rf s).2
  = detector_calls s /\
  self (VideoStreamProcessor.prepare cv2_resize frame rf s).2 = self s.
Proof.
  unfold VideoStreamProcessor.prepare.
  destruct (PyFloat.ne rf PyFloat.one).
  - rewrite bind_run. unfold copy.
    destruct (store s !! frame) as [img|] eqn:Hf; [|repeat split; exact Hf].
    assert (Hne : fresh (dom (store s)) <> frame).
    { intros Heq. apply (is_fresh (dom (store s))). rewrite Heq.
      apply elem_of_dom. rewrite Hf. eauto. }
    set (s1 := State (self s) (<[fresh (dom (store s)) := img]> (store s))
                 (clock_reads s) (detector_calls s) (error_log s)).
    assert (Hl : store s1 !! frame = Some img).
    { unfold s1. cbn [store]. rewrite lookup_insert_ne by exact Hne.
      exact Hf. }
    rewrite bind_run, (load_run frame s1 img Hl).
    destruct (shape img) as [h w].
    unfold lift, mret, M_ret, mbind, M_bind. cbv beta iota zeta.
    destruct (PyFloat.int_of_scaled w rf) as [nw|];
      [|repeat split; exact Hl].
    destruct (PyFloat.int_of_scaled h rf) as [nh|];
      [|repeat split; exact Hl].
    destruct (cv2_resize img (nw, nh) INTER_LINEAR);
      repeat split; exact Hl.
  - rewrite bind_run. unfold load, mret, M_ret.
    destruct (store s !! frame) eqn:Hf; repeat split; exact Hf.
Qed.

Local Abbreviation run :=
  (VideoStreamProcessor.process_single_frame GaussianBlur cv2_resize model
     clock (Raise e0)).

(** With [import_labels] failing, a run of [process_single_frame] that
    returns found no box, blurred nothing and returns a buffer holding
    the pixels that were passed in; and no run writes the caller's
    buffer. *)
Lemma process_single_frame_without_labels (frame : ref) (thr : float)
    (s s' : St) (res : result ref) :
  run frame thr s = (res, s') ->
  store s' !! frame = store s !! frame /\
  forall r, res = Ok r -> store s' !! r = store s !! frame.
Proof.
  unfold VideoStreamProcessor.process_single_frame.
  rewrite bind_run. unfold time_time at 1. cbv beta iota zeta.
  rewrite bind_run, gets_run. cbv beta iota zeta.
  rewrite bind_run.
  set (s1 := State (self s) (store s) (S (clock_reads s)) (detector_calls s)
               (error_log s)).
  destruct (prepare_keeps_frame frame
              (VideoStreamProcessor.resize_factor (self s1)) s1)
    as (Hkeep & _ & _).
  pose proof (fun orig small s2 H =>
                prepare_spec cv2_resize frame orig
                  (VideoStreamProcessor.resize_factor (self s1)) small s1 s2 H)
    as Hspec.
  destruct (VideoStreamProcessor.prepare cv2_resize frame
              (VideoStreamProcessor.resize_factor (self s1)) s1)
    as [[[orig small]|e] s2] eqn:Hp; simpl in Hkeep.
  2:{ intros [= <- <-]. split; [exact Hkeep | discriminate]. }
  destruct (Hspec orig small s2 eq_refl) as (Horig & _ & _). simpl in Horig.
  cbv beta iota zeta.
  rewrite bind_run. unfold VideoStreamProcessor.call_detector at 1.
  destruct (model (detector_calls s2) small) as [rs|e]; cbv beta iota zeta.
  2:{ intros [= <- <-]. split; [exact Hkeep | discriminate]. }
  rewrite bind_run. unfold lift at 1.
  destruct (VideoStreamProcessor.select_results (Raise e0)
              (VideoStreamProcessor.resize_factor (self s1)) thr rs [])
    as [regions|e] eqn:Hsel; cbv beta iota zeta.
  2:{ intros [= <- <-]. split; [exact Hkeep | discriminate]. }
  apply select_results_without_labels in Hsel. destruct Hsel as [_ ->].
  intros [= <- <-]. split; [exact Hkeep|]. intros r [= <-]. exact Horig.
Qed.

End RealtimeImport.

Section RealtimeAsRun.

Variable GaussianBlur : image -> Z * Z -> Z -> result image.
Variable cv2_resize : image -> Z * Z -> interpolation -> result image.
Variable model : nat -> image -> result results.
Variable clock : nat -> float.

Local Abbreviation St := (state VideoStreamProcessor.t).
Local Abbreviation run :=
  (VideoStreamProcessor.process_single_frame GaussianBlur cv2_resize model
     clock (Raise ImportError)).

(** X8: [process_single_frame] as CPython runs it, the import of
    [__labels] inside the class raising ImportError.  No call blurs
    anything: the caller's buffer is never written, a call that returns
    returns a buffer holding the pixels it was given, and when the first
    box that the detector reports has a class index that converts to an
    integer, the call raises ImportError, without recording a processing
    time. *)
Theorem stream_processor_never_blurs
    (s : St) (frame : ref) (thr : float) :
  store (run frame thr s).2 !! frame = store s !! frame /\
  (forall r, (run frame thr s).1 = Ok r ->
             store (run frame thr s).2 !! r = store s !! frame) /\
  (forall orig small s1 rs b rest k,
      VideoStreamProcessor.prepare cv2_resize frame
        (VideoStreamProcessor.resize_factor (self s)) (ticked 1 s)
      = (Ok (orig, small), s1) ->
      model (detector_calls s) small = Ok rs ->
      all_boxes rs = b :: rest ->
      PyFloat.to_int (cls b) = Ok k ->
      (run frame thr s).1 = Raise ImportError /\
      self (run frame thr s).2 = self s).
Proof.
  destruct (process_single_frame_without_labels GaussianBlur cv2_resize
              model clock ImportError frame thr s (run frame thr s).2
              (run frame thr s).1) as [H1 H2].
  { destruct (run frame thr s); reflexivity. }
  split; [exact H1|]. split; [exact H2|].
  intros orig small s1 rs b rest k Hp Hm Hb Hk.
  destruct (prepare_keeps_frame cv2_resize frame
              (VideoStreamProcessor.resize_factor (self s)) (ticked 1 s))
    as (_ & Hdc & Hself).
  rewrite Hp in Hdc, Hself. simpl in Hdc, Hself.
  rewrite <- Hdc in Hm.
  assert (Hrun : run frame thr s = (Raise ImportError, called s1)).
  { unfold VideoStreamProcessor.process_single_frame.
    rewrite bind_run. unfold time_time at 1. cbv beta iota zeta.
    rewrite bind_run, gets_run. cbv beta iota zeta. simpl self.
    rewrite bind_run.
    change (State (self s) (store s) (S (clock_reads s)) (detector_calls s)
              (error_log s)) with (ticked 1 s).
    rewrite Hp. cbv beta iota zeta.
    rewrite bind_run. unfold VideoStreamProcessor.call_detector at 1.
    rewrite Hm. cbv beta iota zeta.
    rewrite bind_run. unfold lift at 1.
    rewrite (select_results_first_box ImportError _ _ rs b rest k Hb Hk).
    reflexivity. }
  rewrite Hrun. split; [reflexivity | exact Hself].
Qed.

End RealtimeAsRun.

Lemma stream_processor_never_blurs_witness :
  (VideoStreamProcessor.process_single_frame Stub.GaussianBlur
     Stub.cv2_resize (fun n img => Ok [Some Examples.one_box]) Stub.clock
     (Raise ImportError) 0%nat Examples.half
     (State (VideoStreamProcessor.Make PyFloat.one [])
        {[ 0%nat := Examples.frame20 ]} 0 0 [])).1 = Raise ImportError /\
  self (VideoStreamProcessor.process_single_frame Stub.GaussianBlur
          Stub.cv2_resize (fun n img => Ok [Some Examples.one_box])
          Stub.clock (Raise ImportError) 0%nat Examples.half
          (State (VideoStreamProcessor.Make PyFloat.one [])
             {[ 0%nat := Examples.frame20 ]} 0 0 [])).2
  = VideoStreamProcessor.Make PyFloat.one [].
Proof.
  destruct (stream_processor_never_blurs Stub.GaussianBlur Stub.cv2_resize
              (fun n img => Ok [Some Examples.one_box]) Stub.clock
              (State (VideoStreamProcessor.Make PyFloat.one [])
                 {[ 0%nat := Examples.frame20 ]} 0 0 [])
              0%nat Examples.half) as (_ & _ & H).
  apply (H 0%nat Examples.frame20
           (ticked 1 (State (VideoStreamProcessor.Make PyFloat.one [])
                        {[ 0%nat := Examples.frame20 ]} 0 0 []))
           [Some Examples.one_box] (Stub.box_of 2 2 8 8 2 9 10) [] 2).
  - reflexivity.
  - reflexivity.
  - reflexivity.
  - vm_compute. reflexivity.
Defined.

(** ** What [_apply_ultra_fast_blur] asks of OpenCV *)

Lemma py_slice_length {A} (l : list A) (a b : Z) :
  0 <= a <= b -> b <= len l ->
  length (py_slice l a b) = Z.to_nat (b - a).
Proof.
  intros Hab Hb. unfold py_slice, len in *.
  destruct (slice_range_nonneg a b (length l) Hab)
    as (lo & hi & -> & Hle & Hlo & Hhi).
  rewrite length_take, length_drop. lia.
Qed.

Lemma py_slice_rows {A} (l : list A) (a b : Z) (x : A) :
  x ∈ py_slice l a b -> x ∈ l.
Proof.
  unfold py_slice. destruct (slice_range a b (len l)) as [lo hi].
  intros H. apply (subseteq_drop lo l), (subseteq_take (hi - lo) _). exact H.
Qed.

Lemma rectangular_elem {A} (arr : array2 A) (w : Z) (row : list A) :
  rectangular arr w -> row ∈ arr -> len row = w.
Proof.
  unfold rectangular. rewrite Forall_forall. intros H Hin.
  apply H. exact Hin.
Qed.

(** The shape of a slice that lies within a rectangular array. *)
Lemma slice2_shape {A} (arr : array2 A) (w y1 y2 x1 x2 : Z) :
  rectangular arr w ->
  0 <= y1 < y2 -> y2 <= height arr ->
  0 <= x1 <= x2 -> x2 <= w ->
  shape (slice2 arr y1 y2 x1 x2) = (y2 - y1, x2 - x1).
Proof.
  intros Hrect Hy Hy2 Hx Hx2. unfold shape, height, width, slice2.
  assert (Hlen : length (py_slice arr y1 y2) = Z.to_nat (y2 - y1)).
  { apply py_slice_length; [lia | exact Hy2]. }
  f_equal.
  - unfold len. rewrite length_map, Hlen. lia.
  - destruct (py_slice arr y1 y2) as [|row rows] eqn:E.
    + simpl in Hlen. lia.
    + simpl. unfold len. rewrite py_slice_length; [lia | lia |].
      assert (Hin : row ∈ arr).
      { apply (py_slice_rows arr y1 y2). rewrite E. apply list_elem_of_here. }
      rewrite (rectangular_elem _ _ _ Hrect Hin). exact Hx2.
Qed.

Lemma same_lengths_rectangular {A} (arr arr' : array2 A) (w : Z) :
  map length arr' = map length arr ->
  rectangular arr w ->
  rectangular arr' w /\ height arr' = height arr /\ width arr' = width arr.
Proof.
  intros Hl Hrect. split; [|split].
  - unfold rectangular in *. revert arr' Hl.
    induction Hrect as [|row arr Hrow _ IH]; intros [|row' arr'] Hl;
      try discriminate; constructor.
    + simpl in Hl. injection Hl as Hl _. unfold len in *. congruence.
    + apply IH. simpl in Hl. injection Hl as _ Hl. exact Hl.
  - unfold height, len. apply (f_equal length) in Hl.
    rewrite !length_map in Hl. congruence.
  - unfold width, len. destruct arr, arr'; try discriminate; [reflexivity|].
    simpl in Hl. injection Hl as Hl _. congruence.
Qed.

Lemma valid_ksize_adaptive (m : Z) :
  let k := Z.min 15 (Z.max 5 m) in
  valid_ksize (if k mod 2 =? 0 then k + 1 else k,
               if k mod 2 =? 0 then k + 1 else k) = true.
Proof.
  cbv zeta.
  assert (H : 5 <= Z.min 15 (Z.max 5 m) <= 15) by lia.
  generalize dependent (Z.min 15 (Z.max 5 m)). intros k Hk.
  assert (Hc : k = 5 \/ k = 6 \/ k = 7 \/ k = 8 \/ k = 9 \/ k = 10 \/
               k = 11 \/ k = 12 \/ k = 13 \/ k = 14 \/ k = 15) by lia.
  repeat (destruct Hc as [->|Hc]; [reflexivity|]). subst. reflexivity.
Qed.

Section FlaskRegion.

Variable GaussianBlur : image -> Z * Z -> Z -> result image.
Variable cv2_resize : image -> Z * Z -> interpolation -> result image.

(** X9: the kernel that [_apply_ultra_fast_blur] hands to
    [cv2.GaussianBlur] is always square, of odd side, between 5 and 15:
    the blur of a region is the same against an OpenCV that refuses any
    other kernel. *)
Theorem gaussian_kernel_is_odd (frame : image) (r : region) :
  ultra_fast_blur_region (checked_blur GaussianBlur) cv2_resize frame r
  = ultra_fast_blur_region GaussianBlur cv2_resize frame r.
Proof.
  unfold ultra_fast_blur_region.
  destruct ((rx2 r >? rx1 r) && (ry2 r >? ry1 r)); [|reflexivity].
  destruct (size3 _ >? 0); [|reflexivity].
  destruct (shape _) as [h w]. unfold checked_blur.
  rewrite (valid_ksize_adaptive (Z.min (w / 4) (h / 4))). reflexivity.
Qed.

(** The blur of a thin region that lies within the frame raises. *)
Lemma thin_region_raises (img : image) (r : region) :
  rejects_empty_size cv2_resize ->
  rectangular img (width img) ->
  in_frame (height img) (width img) r ->
  thin r ->
  exists e, ultra_fast_blur_region GaussianBlur cv2_resize img r = Raise e.
Proof.
  intros Hrej Hrect [(Hx1 & Hx12 & Hx2) (Hy1 & Hy12 & Hy2)] Hthin.
  assert (Hne : rx1 r < rx2 r /\ ry1 r < ry2 r) by (destruct Hthin; lia).
  unfold ultra_fast_blur_region.
  destruct (Z.gtb_spec (rx2 r) (rx1 r)); [|lia].
  destruct (Z.gtb_spec (ry2 r) (ry1 r)); [|lia]. cbn [andb].
  assert (Hsh : shape (slice2 img (ry1 r) (ry2 r) (rx1 r) (rx2 r))
                = (ry2 r - ry1 r, rx2 r - rx1 r)).
  { apply (slice2_shape img (width img)); try assumption; lia. }
  unfold size3. unfold shape in Hsh. injection Hsh as Hh Hw.
  rewrite Hh, Hw.
  destruct (Z.gtb_spec ((ry2 r - ry1 r) * (rx2 r - rx1 r) * 3) 0); [|nia].
  unfold shape. rewrite Hh, Hw.
  destruct (GaussianBlur _ _ 0) as [blurred|e]; [|simpl; eauto].
  rewrite result_bind_Ok.
  set (h := ry2 r - ry1 r) in *. set (w := rx2 r - rx1 r) in *.
  assert (Hps : Z.max 2 (Z.min (w / 12) (h / 12)) = 2).
  { destruct Hthin as [[Hw1 _]|[Hh1 _]].
    - fold w in Hw1. rewrite Hw1. change (1 / 12) with 0.
      assert (0 <= h / 12) by (apply Z.div_pos; lia). lia.
    - fold h in Hh1. rewrite Hh1. change (1 / 12) with 0.
      assert (0 <= w / 12) by (apply Z.div_pos; lia). lia. }
  rewrite Hps. change (2 >? 1) with true. cbv iota.
  destruct (Hrej blurred (w / 2) (h / 2) INTER_LINEAR) as [e He].
  { destruct Hthin as [[Hw1 _]|[Hh1 _]].
    - left. fold w in Hw1. rewrite Hw1. change (1 / 2) with 0. lia.
    - right. fold h in Hh1. rewrite Hh1. change (1 / 2) with 0. lia. }
  rewrite He. simpl. eauto.
Qed.

(** Blurring the regions one after the other stops with an exception
    when one of them is thin. *)
Lemma blur_progress_thin (regions : list region) (r : region) :
  rejects_empty_size cv2_resize ->
  r ∈ regions -> thin r ->
  forall img : image,
    rectangular img (width img) ->
    Forall (in_frame (height img) (width img)) regions ->
    (blur_progress GaussianBlur cv2_resize img regions).2 <> None.
Proof.
  intros Hrej Hin Hthin.
  induction regions as [|r0 regions IH]; intros img Hrect Hall.
  - inversion Hin.
  - inversion Hall as [|? ? Hr0 Hrest]; subst. simpl.
    destruct (ultra_fast_blur_region GaussianBlur cv2_resize img r0)
      as [img'|e] eqn:E; [|discriminate].
    apply elem_of_cons in Hin. destruct Hin as [->|Hin].
    + destruct (thin_region_raises img r0 Hrej Hrect Hr0 Hthin) as [e He].
      congruence.
    + apply ultra_fast_blur_region_spec in E.
      2:{ destruct Hr0 as [(? & _) (? & _)]. split; assumption. }
      destruct E as [Hlen _].
      destruct (same_lengths_rectangular img img' (width img) Hlen Hrect)
        as (Hrect' & Hh & Hw).
      apply IH; [exact Hin | rewrite Hw; exact Hrect'|].
      rewrite Hh, Hw. exact Hrest.
Qed.

End FlaskRegion.

Lemma extracted_regions_in_frame rs (img : image) rf regions :
  _extract_blur_regions rs (shape img) rf = Ok regions ->
  Forall (in_frame (height img) (width img)) regions.
Proof.
  intros H. apply _extract_blur_regions_spec in H.
  apply Forall_forall. intros r Hr.
  destruct (Forall2_elem_of_right _ _ _ _ H Hr) as (b & _ & Hb).
  apply extract_box_Some in Hb.
  destruct Hb as (_ & k & name & c & c' & _ & _ & _ & _ & _ & ->).
  apply clamp_box_in_frame; [apply height_nonneg | apply width_nonneg].
Qed.

Section FlaskThin.

Variable GaussianBlur : image -> Z * Z -> Z -> result image.
Variable cv2_resize : image -> Z * Z -> interpolation -> result image.
Variable model : nat -> image -> float -> Z -> result results.
Variable clock : nat -> float.

Local Abbreviation St := (state UltraFastNSFWProcessor).
Local Abbreviation process :=
  (process_frame GaussianBlur cv2_resize model clock).

(** X10: a region one pixel wide or one pixel high makes the blur ask
    [cv2.resize] for an empty size.  When [cv2.resize] raises on an empty
    size, a call that misses the cache and selects such a region returns
    an empty detection list, whatever else it selected, and logs an
    exception. *)
Theorem thin_region_voids_the_frame
    (s : St) (frame : ref) (fid : option string) (ct : option float)
    (fm : bool) (img : image) (regions : list region) (r : region) :
  rejects_empty_size cv2_resize ->
  fresh_entry clock s fid = None ->
  store s !! frame = Some img ->
  rectangular img (width img) ->
  selects cv2_resize model s img ct fm regions ->
  r ∈ regions ->
  thin r ->
  (process frame fid ct fm s).1 = Ok (frame, []) /\
  exists e, error_log (process frame fid ct fm s).2 = error_log s ++ [e].
Proof.
  intros Hrej Hmiss Hl Hrect (img' & rs & Hres & Hm & Hx) Hin Hthin.
  pose proof (extracted_regions_in_frame _ _ _ _ Hx) as Hall.
  pose proof (blur_progress_thin GaussianBlur cv2_resize regions r Hrej Hin
                Hthin img Hrect Hall) as Hp.
  destruct (blur_progress GaussianBlur cv2_resize img regions)
    as [img2 [e|]] eqn:Hprog; [|simpl in Hp; congruence].
  rewrite (process_frame_miss _ _ _ _ _ _ _ _ _ Hmiss).
  destruct (after_lookup_fields s fid) as (Hself & Hst & Hcalls & Hlog).
  rewrite (uncached_blur_raises GaussianBlur cv2_resize model clock _ frame
             fid ct fm (after_lookup s fid) img img' rs regions img2 e).
  - simpl. rewrite Hlog. split; [reflexivity | eauto].
  - rewrite Hst. exact Hl.
  - unfold factor. rewrite Hself. exact Hres.
  - unfold threshold. rewrite Hself, Hcalls. exact Hm.
  - unfold factor. rewrite Hself. exact Hx.
  - exact Hprog.
Qed.

End FlaskThin.

Lemma stub_resize_rejects_empty_size : rejects_empty_size Stub.cv2_resize.
Proof.
  intros src w h i Hwh. exists cv2_error. unfold Stub.cv2_resize.
  destruct src as [|[|p row] src]; try reflexivity.
  destruct (Z.ltb_spec 0 w); destruct (Z.ltb_spec 0 h); try reflexivity. lia.
Qed.

Lemma thin_region_voids_the_frame_witness :
  Examples.failing_call.1 = Ok (0%nat, []) /\
  exists e, error_log Examples.failing_call.2
            = error_log Examples.s_unscaled ++ [e].
Proof.
  apply (thin_region_voids_the_frame Stub.GaussianBlur Stub.cv2_resize
           (Stub.model Examples.thin_boxes) Stub.clock Examples.s_unscaled
           0%nat None None false Examples.frame20
           [Region 0 0 8 8 "BUTTOCKS_EXPOSED" Examples.nine_tenths;
            Region 10 10 11 18 "BUTTOCKS_EXPOSED" Examples.nine_tenths]
           (Region 10 10 11 18 "BUTTOCKS_EXPOSED" Examples.nine_tenths)).
  - exact stub_resize_rejects_empty_size.
  - reflexivity.
  - reflexivity.
  - vm_compute. repeat constructor.
  - exists Examples.frame20, [Some Examples.thin_boxes].
    vm_compute. repeat split.
  - apply list_elem_of_further, list_elem_of_here.
  - left. simpl. lia.
Defined.

(** ** What [apply_fast_blur] asks of OpenCV *)

Section RealtimeRegion.

Variable GaussianBlur : image -> Z * Z -> Z -> result image.
Variable cv2_resize : image -> Z * Z -> interpolation -> result image.

Local Abbreviation fast_blur_region :=
  (VideoStreamProcessor.fast_blur_region GaussianBlur cv2_resize).

(** X11: [apply_fast_blur] never asks [cv2.resize] for an empty size: it
    pixelates a region only when the region is wider and higher than the
    pixel size, which is at least 4.  The blur of a region is the same
    against a [cv2.resize] that refuses every size with a side that is
    not positive. *)
Theorem fast_blur_never_resizes_to_nothing (frame : image) (r : region) :
  VideoStreamProcessor.fast_blur_region GaussianBlur
    (checked_resize cv2_resize) frame r
  = fast_blur_region frame r.
Proof.
  unfold VideoStreamProcessor.fast_blur_region.
  destruct (VideoStreamProcessor.clamped frame r) as [[[x1 y1] x2] y2].
  destruct ((x2 >? x1) && (y2 >? y1)); [|reflexivity].
  destruct (size3 _ >? 0); [|reflexivity].
  destruct (GaussianBlur _ _ 5) as [blurred|e]; [|reflexivity].
  rewrite !result_bind_Ok.
  destruct (shape _) as [h w].
  set (ps := Z.max 4 (Z.min (w / 8) (h / 8))).
  destruct (Z.gtb_spec w ps) as [Hw|]; [|reflexivity].
  destruct (Z.gtb_spec h ps) as [Hh|]; [|reflexivity]. cbn [andb].
  assert (Hps : 4 <= ps) by (unfold ps; lia).
  assert (0 < w / ps) by (apply Z.div_str_pos; lia).
  assert (0 < h / ps) by (apply Z.div_str_pos; lia).
  unfold checked_resize.
  destruct (Z.ltb_spec 0 (w / ps)); [|lia].
  destruct (Z.ltb_spec 0 (h / ps)); [|lia]. cbn [andb].
  destruct (cv2_resize blurred _ INTER_LINEAR) as [small|e]; [|reflexivity].
  rewrite !result_bind_Ok.
  destruct (Z.ltb_spec 0 w); [|lia]. destruct (Z.ltb_spec 0 h); [|lia].
  reflexivity.
Qed.

(** X12: a region that [apply_fast_blur] finds at most four pixels wide
    or at most four pixels high after clamping is not blurred: the frame
    comes back as it was, unless [cv2.GaussianBlur] itself raises. *)
Theorem small_regions_stay_sharp (frame : image) (r : region)
    (x1 y1 x2 y2 : Z) :
  rectangular frame (width frame) ->
  VideoStreamProcessor.clamped frame r = (x1, y1, x2, y2) ->
  x2 - x1 <= 4 \/ y2 - y1 <= 4 ->
  match fast_blur_region frame r with
  | Ok frame' => frame' = frame
  | Raise e => exists roi, GaussianBlur roi (15, 15) 5 = Raise e
  end.
Proof.
  intros Hrect Hc Hsmall.
  assert (Hin : in_frame (height frame) (width frame)
                  (region_of (VideoStreamProcessor.clamped frame r)
                     (rclass r) (rconf r))).
  { apply clamp_box_in_frame; [apply height_nonneg | apply width_nonneg]. }
  rewrite Hc in Hin.
  destruct Hin as [(Hx1 & Hx12 & Hx2) (Hy1 & Hy12 & Hy2)].
  cbn [region_of rx1 rx2 ry1 ry2] in *.
  unfold VideoStreamProcessor.fast_blur_region. rewrite Hc.
  destruct (Z.gtb_spec x2 x1); [|reflexivity].
  destruct (Z.gtb_spec y2 y1); [|reflexivity]. cbn [andb].
  destruct (size3 _ >? 0); [|reflexivity].
  destruct (GaussianBlur _ _ 5) as [blurred|e] eqn:Hg; [|simpl; eauto].
  rewrite result_bind_Ok.
  rewrite (slice2_shape frame (width frame)) by (try assumption; lia).
  set (ps := Z.max 4 (Z.min ((x2 - x1) / 8) ((y2 - y1) / 8))).
  assert (Hps : 4 <= ps) by (unfold ps; lia).
  destruct (Z.gtb_spec (x2 - x1) ps); destruct (Z.gtb_spec (y2 - y1) ps);
    try reflexivity.
  lia.
Qed.

End RealtimeRegion.

Lemma small_regions_stay_sharp_witness :
  match VideoStreamProcessor.fast_blur_region Stub.GaussianBlur
          Stub.cv2_resize Examples.frame20
          (Region 3 3 7 15 "ANUS_EXPOSED" Examples.nine_tenths) with
  | Ok frame' => frame' = Examples.frame20
  | Raise e => exists roi, Stub.GaussianBlur roi (15, 15) 5 = Raise e
  end.
Proof.
  apply (small_regions_stay_sharp Stub.GaussianBlur Stub.cv2_resize
           Examples.frame20
           (Region 3 3 7 15 "ANUS_EXPOSED" Examples.nine_tenths) 3 3 7 15).
  - vm_compute. repeat constructor.
  - reflexivity.
  - left. lia.
Defined.

(** ** The [/config] endpoint *)

Lemma SFltb_SFleb (x y : float) : SFltb x y = true -> SFleb x y = true.
Proof.
  unfold SFltb, SFleb. destruct (SFcompare x y) as [[]|]; congruence.
Qed.

(** What [max(lo, min(hi, v))] returns when it returns. *)
Lemma clamp_cases (lo hi : number) (v x : value) :
  clamp lo hi v = Some x ->
  exists n,
    as_number v = Some n /\
    ((num_lt n hi = true /\ num_lt lo n = true /\ x = v) \/
     (num_lt n hi = true /\ num_lt lo n = false /\ x = of_number lo) \/
     (num_lt n hi = false /\ num_lt lo hi = true /\ x = of_number hi) \/
     (num_lt n hi = false /\ num_lt lo hi = false /\ x = of_number lo)).
Proof.
  unfold clamp, py_min, py_max, less_than, greater_than.
  destruct (as_number v) as [n|] eqn:Hn; [|discriminate]. simpl.
  intros H. exists n. split; [reflexivity|].
  destruct (num_lt n hi) eqn:H1; simpl in H.
  - rewrite Hn in H. simpl in H. destruct (num_lt lo n) eqn:H2;
      injection H as <-; auto.
  - assert (Hhi : as_number (of_number hi) = Some hi) by (destruct hi; reflexivity).
    rewrite Hhi in H. simpl in H.
    destruct (num_lt lo hi) eqn:H2; injection H as <-; auto 6.
Qed.

(** [max(lo, min(hi, v))] raises exactly when [v] is not a number. *)
Lemma clamp_raises (lo hi : number) (v : value) :
  clamp lo hi v = None <-> as_number v = None.
Proof.
  unfold clamp, py_min, py_max, less_than, greater_than.
  destruct (as_number v) as [n|] eqn:Hn; simpl; [|tauto].
  split; [|discriminate].
  destruct (num_lt n hi); simpl.
  - rewrite Hn. discriminate.
  - destruct hi; discriminate.
Qed.

Lemma to_int_not_ZeroDivisionError (x : float) :
  PyFloat.to_int x <> Raise ZeroDivisionError.
Proof. destruct x; discriminate. Qed.

Lemma int_of_scaled_not_ZeroDivisionError (n : Z) (x : float) :
  PyFloat.int_of_scaled n x <> Raise ZeroDivisionError.
Proof.
  unfold PyFloat.int_of_scaled, PyFloat.int_mul, PyFloat.of_int.
  destruct (binary_normalize _ _ n 0 false); simpl; try discriminate;
    apply to_int_not_ZeroDivisionError.
Qed.

(** The scale-back raises ZeroDivisionError only for a resize factor that
    is a zero. *)
Lemma scale_back_ZeroDivisionError (rf : float) (c : coords) :
  scale_back rf c = Raise ZeroDivisionError -> exists s, rf = S754_zero s.
Proof.
  destruct c as [[[x1 y1] x2] y2]. unfold scale_back.
  destruct (PyFloat.ne rf PyFloat.one); [|discriminate].
  destruct (PyFloat.div PyFloat.one rf) as [sc|e] eqn:Hd; simpl.
  - pose proof (int_of_scaled_not_ZeroDivisionError x1 sc).
    pose proof (int_of_scaled_not_ZeroDivisionError y1 sc).
    pose proof (int_of_scaled_not_ZeroDivisionError x2 sc).
    pose proof (int_of_scaled_not_ZeroDivisionError y2 sc).
    destruct (PyFloat.int_of_scaled x1 sc); simpl; [|congruence].
    destruct (PyFloat.int_of_scaled y1 sc); simpl; [|congruence].
    destruct (PyFloat.int_of_scaled x2 sc); simpl; [|congruence].
    destruct (PyFloat.int_of_scaled y2 sc); simpl; [discriminate|congruence].
  - intros _. unfold PyFloat.div in Hd. destruct rf; try discriminate. eauto.
Qed.

Lemma float_between_not_zero (lo hi x : float) :
  SFltb (S754_zero false) lo = true ->
  float_between lo hi x = true -> forall s, x <> S754_zero s.
Proof.
  unfold float_between. intros Hlo H s ->.
  apply andb_true_iff in H. destruct H as [H _].
  destruct lo as [| | |s' m e]; try discriminate.
  - destruct s0; discriminate.
  - destruct s'; discriminate.
Qed.

(** [max(lo, min(hi, v))] between two floats with no integer strictly
    between them is a float between them. *)
Lemma clamp_float (lo hi : float) (v x : value) :
  float_between lo hi lo = true ->
  float_between lo hi hi = true ->
  (forall n, float_lt_int lo n = true -> int_lt_float n hi = true -> False) ->
  clamp (NFloat lo) (NFloat hi) v = Some x ->
  float_setting lo hi x.
Proof.
  intros Hlo Hhi Hint H. apply clamp_cases in H.
  destruct H as (n & Hn & [H|[H|[H|H]]]).
  - destruct H as (H1 & H2 & ->).
    destruct v as [|b|k|f| |]; try discriminate; injection Hn as <-.
    + destruct (Hint _ H2 H1).
    + destruct (Hint _ H2 H1).
    + simpl in H1, H2. exists f. split; [reflexivity|].
      unfold float_between, PyFloat.lt in *.
      rewrite (SFltb_SFleb _ _ H1), (SFltb_SFleb _ _ H2). reflexivity.
  - destruct H as (_ & _ & ->). exists lo. split; [reflexivity | exact Hlo].
  - destruct H as (_ & _ & ->). exists hi. split; [reflexivity | exact Hhi].
  - destruct H as (_ & _ & ->). exists lo. split; [reflexivity | exact Hlo].
Qed.


Lemma tenth_is : PyFloat.lit 1 10 = S754_finite false 7205759403792794 (-56).
Proof. vm_compute. reflexivity. Qed.

Lemma no_integer_in_tenth_one (n : Z) :
  float_lt_int (PyFloat.lit 1 10) n = true ->
  int_lt_float n PyFloat.one = true -> False.
Proof.
  rewrite tenth_is. unfold PyFloat.one, float_lt_int, int_lt_float.
  cbn [Z.leb Z.compare cond_Zopp Z.opp].
  intros H1 H2. apply Z.ltb_lt in H1, H2.
  change (2 ^ 56) with 72057594037927936 in H1.
  change (2 ^ 52) with 4503599627370496 in H2. lia.
Qed.

Lemma nine_tenths_is :
  PyFloat.lit 9 10 = S754_finite false 8106479329266893 (-53).
Proof. vm_compute. reflexivity. Qed.

Lemma hundredth_is :
  PyFloat.lit 1 100 = S754_finite false 5764607523034235 (-59).
Proof. vm_compute. reflexivity. Qed.

Lemma no_integer_in_tenth_nine_tenths (n : Z) :
  float_lt_int (PyFloat.lit 1 10) n = true ->
  int_lt_float n (PyFloat.lit 9 10) = true -> False.
Proof.
  rewrite tenth_is, nine_tenths_is. unfold float_lt_int, int_lt_float.
  cbn [Z.leb Z.compare cond_Zopp Z.opp].
  intros H1 H2. apply Z.ltb_lt in H1, H2.
  change (2 ^ 56) with 72057594037927936 in H1.
  change (2 ^ 53) with 9007199254740992 in H2. lia.
Qed.

Lemma no_integer_in_hundredth_one (n : Z) :
  float_lt_int (PyFloat.lit 1 100) n = true ->
  int_lt_float n PyFloat.one = true -> False.
Proof.
  rewrite hundredth_is. unfold PyFloat.one, float_lt_int, int_lt_float.
  cbn [Z.leb Z.compare cond_Zopp Z.opp].
  intros H1 H2. apply Z.ltb_lt in H1, H2.
  change (2 ^ 59) with 576460752303423488 in H1.
  change (2 ^ 52) with 4503599627370496 in H2. lia.
Qed.

Lemma clamp_count (v x : value) :
  clamp (NInt 1) (NInt 100) v = Some x -> count_setting 1 100 x.
Proof.
  intros H. apply clamp_cases in H.
  destruct H as (n & Hn & [H|[H|[H|H]]]).
  - destruct H as (H1 & H2 & ->).
    destruct v as [|b|k|f| |]; try discriminate; injection Hn as <-.
    + destruct b; discriminate.
    + simpl in H1, H2. apply Z.ltb_lt in H1, H2.
      left. exists k. split; [reflexivity | lia].
    + simpl in H1, H2. right. exists f. auto.
  - destruct H as (_ & _ & ->). left. exists 1. split; [reflexivity | lia].
  - destruct H as (_ & _ & ->). left. exists 100. split; [reflexivity | lia].
  - destruct H as (_ & H & _). discriminate.
Qed.

Lemma clamp_resize_factor (v x : value) :
  clamp (NFloat (PyFloat.lit 1 10)) (NFloat PyFloat.one) v = Some x ->
  float_setting (PyFloat.lit 1 10) PyFloat.one x.
Proof.
  apply clamp_float;
    [vm_compute; reflexivity | vm_compute; reflexivity |
     apply no_integer_in_tenth_one].
Qed.

Lemma clamp_confidence_threshold (v x : value) :
  clamp (NFloat (PyFloat.lit 1 10)) (NFloat (PyFloat.lit 9 10)) v = Some x ->
  float_setting (PyFloat.lit 1 10) (PyFloat.lit 9 10) x.
Proof.
  apply clamp_float;
    [vm_compute; reflexivity | vm_compute; reflexivity |
     apply no_integer_in_tenth_nine_tenths].
Qed.

Lemma clamp_cache_ttl (v x : value) :
  clamp (NFloat (PyFloat.lit 1 100)) (NFloat PyFloat.one) v = Some x ->
  float_setting (PyFloat.lit 1 100) PyFloat.one x.
Proof.
  apply clamp_float;
    [vm_compute; reflexivity | vm_compute; reflexivity |
     apply no_integer_in_hundredth_one].
Qed.

(** What one [if key in data: ...] statement does to the settings. *)
Lemma update_cases key lo hi assign data p p' :
  ConfigEndpoint.update key lo hi assign data p = Some p' ->
  match data !! key with
  | Some v => exists x, clamp lo hi v = Some x /\ p' = assign x p
  | None => p' = p
  end.
Proof.
  unfold ConfigEndpoint.update. destruct (data !! key) as [v|].
  - destruct (clamp lo hi v) as [x|]; [|discriminate].
    intros [= <-]. eauto.
  - intros [= <-]. reflexivity.
Qed.

(** An acknowledged [POST] has run the four statements in turn. *)
Lemma config_updated data p p' :
  ConfigEndpoint.config ConfigEndpoint.POST (Some data) p = (ConfigEndpoint.Updated, p') ->
  exists p1 p2 p3,
    ConfigEndpoint.update "resize_factor" (NFloat (PyFloat.lit 1 10))
      (NFloat PyFloat.one) ConfigEndpoint.set_resize_factor data p = Some p1 /\
    ConfigEndpoint.update "confidence_threshold" (NFloat (PyFloat.lit 1 10))
      (NFloat (PyFloat.lit 9 10)) ConfigEndpoint.set_confidence_threshold data p1
    = Some p2 /\
    ConfigEndpoint.update "max_detections" (NInt 1) (NInt 100)
      ConfigEndpoint.set_max_detections data p2 = Some p3 /\
    ConfigEndpoint.update "cache_ttl" (NFloat (PyFloat.lit 1 100))
      (NFloat PyFloat.one) ConfigEndpoint.set_cache_ttl data p3 = Some p'.
Proof.
  unfold ConfigEndpoint.config.
  destruct (ConfigEndpoint.update "resize_factor" _ _ _ data p) as [p1|] eqn:E1;
    [|discriminate].
  destruct (ConfigEndpoint.update "confidence_threshold" _ _ _ data p1) as [p2|]
    eqn:E2; [|discriminate].
  destruct (ConfigEndpoint.update "max_detections" _ _ _ data p2) as [p3|] eqn:E3;
    [|discriminate].
  destruct (ConfigEndpoint.update "cache_ttl" _ _ _ data p3) as [p4|] eqn:E4;
    [|discriminate].
  intros [= <-]. exists p1, p2, p3. repeat split; assumption.
Qed.

(** X13: a [POST /config] that is acknowledged leaves every setting it was
    given within its bounds, whatever number was sent, [NaN] and the
    infinities included: [resize_factor] is a float in [0.1, 1.0],
    [confidence_threshold] a float in [0.1, 0.9], [cache_ttl] a float in
    [0.01, 1.0], and [max_detections] an integer in [1, 100] or, when a
    fractional number was sent, that float strictly between 1 and 100; a
    setting that was not sent is left as it was. *)
Theorem config_keeps_settings_in_range
    (data : gmap string value) (p p' : ConfigEndpoint.settings) :
  ConfigEndpoint.config ConfigEndpoint.POST (Some data) p = (ConfigEndpoint.Updated, p') ->
  match data !! "resize_factor"%string with
  | Some _ =>
      float_setting (PyFloat.lit 1 10) PyFloat.one (ConfigEndpoint.resize_factor p')
  | None => ConfigEndpoint.resize_factor p' = ConfigEndpoint.resize_factor p
  end /\
  match data !! "confidence_threshold"%string with
  | Some _ =>
      float_setting (PyFloat.lit 1 10) (PyFloat.lit 9 10)
        (ConfigEndpoint.confidence_threshold p')
  | None => ConfigEndpoint.confidence_threshold p' = ConfigEndpoint.confidence_threshold p
  end /\
  match data !! "max_detections"%string with
  | Some _ => count_setting 1 100 (ConfigEndpoint.max_detections p')
  | None => ConfigEndpoint.max_detections p' = ConfigEndpoint.max_detections p
  end /\
  match data !! "cache_ttl"%string with
  | Some _ =>
      float_setting (PyFloat.lit 1 100) PyFloat.one (ConfigEndpoint.cache_ttl p')
  | None => ConfigEndpoint.cache_ttl p' = ConfigEndpoint.cache_ttl p
  end.
Proof.
  intros H. apply config_updated in H.
  destruct H as (p1 & p2 & p3 & H1 & H2 & H3 & H4).
  apply update_cases in H1, H2, H3, H4.
  destruct (data !! "resize_factor"%string) as [v1|];
    [destruct H1 as (x1 & E1 & ->); apply clamp_resize_factor in E1
    |subst p1];
  (destruct (data !! "confidence_threshold"%string) as [v2|];
    [destruct H2 as (x2 & E2 & ->); apply clamp_confidence_threshold in E2
    |subst p2]);
  (destruct (data !! "max_detections"%string) as [v3|];
    [destruct H3 as (x3 & E3 & ->); apply clamp_count in E3
    |subst p3]);
  (destruct (data !! "cache_ttl"%string) as [v4|];
    [destruct H4 as (x4 & E4 & ->); apply clamp_cache_ttl in E4
    |subst p']);
  cbn [ConfigEndpoint.resize_factor ConfigEndpoint.confidence_threshold
       ConfigEndpoint.max_detections ConfigEndpoint.cache_ttl ConfigEndpoint.set_resize_factor
       ConfigEndpoint.set_confidence_threshold ConfigEndpoint.set_max_detections
       ConfigEndpoint.set_cache_ttl];
  repeat split; assumption || reflexivity.
Qed.

Lemma update_raises key lo hi assign data p :
  ConfigEndpoint.update key lo hi assign data p = None <->
  exists v, data !! key = Some v /\ as_number v = None.
Proof.
  unfold ConfigEndpoint.update. destruct (data !! key) as [v|].
  - destruct (clamp lo hi v) as [x|] eqn:E.
    + split; [discriminate|]. intros (v' & [= <-] & Hv).
      apply (proj2 (clamp_raises lo hi v)) in Hv. congruence.
    + split; [|reflexivity]. intros _. exists v. split; [reflexivity|].
      apply clamp_raises in E. exact E.
  - split; [discriminate|]. intros (v & Hv & _). discriminate.
Qed.

(** X14: a [POST /config] is refused exactly when one of the four settings
    it carries is not a number; the assignments are made one after the
    other, so a request refused for its [confidence_threshold] has
    already changed [resize_factor]. *)
Theorem config_update_is_not_atomic
    (data : gmap string value) (p : ConfigEndpoint.settings) :
  ((ConfigEndpoint.config ConfigEndpoint.POST (Some data) p).1 = ConfigEndpoint.Internal_server_error
   <->
   exists key v,
     key ∈ ["resize_factor"; "confidence_threshold"; "max_detections";
            "cache_ttl"]%string /\
     data !! key = Some v /\ as_number v = None) /\
  (forall v1 x v2,
      data !! "resize_factor"%string = Some v1 ->
      clamp (NFloat (PyFloat.lit 1 10)) (NFloat PyFloat.one) v1 = Some x ->
      data !! "confidence_threshold"%string = Some v2 ->
      as_number v2 = None ->
      ConfigEndpoint.config ConfigEndpoint.POST (Some data) p
      = (ConfigEndpoint.Internal_server_error, ConfigEndpoint.set_resize_factor x p)).
Proof.
  split.
  - unfold ConfigEndpoint.config.
    destruct (ConfigEndpoint.update "resize_factor" _ _ _ data p) as [p1|] eqn:E1.
    2:{ simpl. split; [intros _|reflexivity].
        apply update_raises in E1. destruct E1 as (v & Hv & Hn).
        exists "resize_factor"%string, v. repeat split; try assumption.
        apply list_elem_of_here. }
    destruct (ConfigEndpoint.update "confidence_threshold" _ _ _ data p1) as [p2|]
      eqn:E2.
    2:{ simpl. split; [intros _|reflexivity].
        apply update_raises in E2. destruct E2 as (v & Hv & Hn).
        exists "confidence_threshold"%string, v. repeat split; try assumption.
        apply list_elem_of_further, list_elem_of_here. }
    destruct (ConfigEndpoint.update "max_detections" _ _ _ data p2) as [p3|] eqn:E3.
    2:{ simpl. split; [intros _|reflexivity].
        apply update_raises in E3. destruct E3 as (v & Hv & Hn).
        exists "max_detections"%string, v. repeat split; try assumption.
        do 2 apply list_elem_of_further. apply list_elem_of_here. }
    destruct (ConfigEndpoint.update "cache_ttl" _ _ _ data p3) as [p4|] eqn:E4.
    2:{ simpl. split; [intros _|reflexivity].
        apply update_raises in E4. destruct E4 as (v & Hv & Hn).
        exists "cache_ttl"%string, v. repeat split; try assumption.
        do 3 apply list_elem_of_further. apply list_elem_of_here. }
    simpl. split; [discriminate|].
    intros (key & v & Hkey & Hv & Hn). exfalso.
    assert (Hno : forall lo hi assign q,
              ConfigEndpoint.update key lo hi assign data q <> None ->
              False).
    { intros lo hi assign q Hq. apply Hq. apply update_raises. eauto. }
    repeat (apply elem_of_cons in Hkey; destruct Hkey as [->|Hkey]);
      [eapply Hno; rewrite E1; discriminate
      |eapply Hno; rewrite E2; discriminate
      |eapply Hno; rewrite E3; discriminate
      |eapply Hno; rewrite E4; discriminate
      |inversion Hkey].
  - intros v1 x v2 H1 Hx H2 Hn. unfold ConfigEndpoint.config, ConfigEndpoint.update.
    rewrite H1, Hx, H2.
    assert (Hc : clamp (NFloat (PyFloat.lit 1 10)) (NFloat (PyFloat.lit 9 10))
                   v2 = None) by (apply clamp_raises; exact Hn).
    rewrite Hc. reflexivity.
Qed.

Lemma update_keeps_resize_factor key lo hi assign data p p' :
  (forall x q, ConfigEndpoint.resize_factor (assign x q) = ConfigEndpoint.resize_factor q) ->
  ConfigEndpoint.update key lo hi assign data p = Some p' ->
  ConfigEndpoint.resize_factor p' = ConfigEndpoint.resize_factor p.
Proof.
  intros Ha H. apply update_cases in H.
  destruct (data !! key); [destruct H as (x & _ & ->); apply Ha | congruence].
Qed.

(** X15: whatever number a [POST /config] carries for [resize_factor], and
    whether or not the request is refused for a later setting, the
    resize factor it leaves is a float between 0.1 and 1.0, so that the
    division [1.0 / resize_factor] of the scale-back is defined and the
    scale-back never raises ZeroDivisionError. *)
Theorem configured_resize_factor_divides
    (data : gmap string value) (p : ConfigEndpoint.settings) (v : value) (n : number) :
  data !! "resize_factor"%string = Some v ->
  as_number v = Some n ->
  exists rf,
    ConfigEndpoint.resize_factor (ConfigEndpoint.config ConfigEndpoint.POST (Some data) p).2
    = VFloat rf /\
    float_between (PyFloat.lit 1 10) PyFloat.one rf = true /\
    (exists scale, PyFloat.div PyFloat.one rf = Ok scale) /\
    forall c, scale_back rf c <> Raise ZeroDivisionError.
Proof.
  intros Hv Hn.
  destruct (clamp (NFloat (PyFloat.lit 1 10)) (NFloat PyFloat.one) v)
    as [x|] eqn:Hx.
  2:{ apply clamp_raises in Hx. congruence. }
  pose proof (clamp_resize_factor _ _ Hx) as (rf & -> & Hrf).
  assert (Hnz : forall s, rf <> S754_zero s).
  { apply (float_between_not_zero (PyFloat.lit 1 10) PyFloat.one);
      [vm_compute; reflexivity | exact Hrf]. }
  exists rf. split; [|split; [exact Hrf|split]].
  - unfold ConfigEndpoint.config. unfold ConfigEndpoint.update at 1. rewrite Hv, Hx.
    set (p1 := ConfigEndpoint.set_resize_factor (VFloat rf) p).
    assert (H1 : ConfigEndpoint.resize_factor p1 = VFloat rf) by reflexivity.
    destruct (ConfigEndpoint.update "confidence_threshold" _ _ _ data p1) as [p2|]
      eqn:E2; [|reflexivity].
    apply update_keeps_resize_factor in E2; [|reflexivity].
    destruct (ConfigEndpoint.update "max_detections" _ _ _ data p2) as [p3|] eqn:E3;
      [|exact E2].
    apply update_keeps_resize_factor in E3; [|reflexivity].
    destruct (ConfigEndpoint.update "cache_ttl" _ _ _ data p3) as [p4|] eqn:E4;
      [|simpl; congruence].
    apply update_keeps_resize_factor in E4; [|reflexivity].
    simpl. congruence.
  - unfold PyFloat.div. destruct rf; eauto. destruct (Hnz s eq_refl).
  - intros c Hc. apply scale_back_ZeroDivisionError in Hc.
    destruct Hc as [s Hs]. exact (Hnz s Hs).
Qed.

Lemma config_keeps_settings_in_range_witness :
  match ConfigExamples.clamped_request !! "resize_factor"%string with
  | Some _ =>
      float_setting (PyFloat.lit 1 10) PyFloat.one
        (ConfigEndpoint.resize_factor ConfigExamples.clamped_settings)
  | None =>
      ConfigEndpoint.resize_factor ConfigExamples.clamped_settings
      = ConfigEndpoint.resize_factor ConfigExamples.defaults
  end /\
  match ConfigExamples.clamped_request !! "confidence_threshold"%string with
  | Some _ =>
      float_setting (PyFloat.lit 1 10) (PyFloat.lit 9 10)
        (ConfigEndpoint.confidence_threshold ConfigExamples.clamped_settings)
  | None =>
      ConfigEndpoint.confidence_threshold ConfigExamples.clamped_settings
      = ConfigEndpoint.confidence_threshold ConfigExamples.defaults
  end /\
  match ConfigExamples.clamped_request !! "max_detections"%string with
  | Some _ =>
      count_setting 1 100
        (ConfigEndpoint.max_detections ConfigExamples.clamped_settings)
  | None =>
      ConfigEndpoint.max_detections ConfigExamples.clamped_settings
      = ConfigEndpoint.max_detections ConfigExamples.defaults
  end /\
  match ConfigExamples.clamped_request !! "cache_ttl"%string with
  | Some _ =>
      float_setting (PyFloat.lit 1 100) PyFloat.one
        (ConfigEndpoint.cache_ttl ConfigExamples.clamped_settings)
  | None =>
      ConfigEndpoint.cache_ttl ConfigExamples.clamped_settings
      = ConfigEndpoint.cache_ttl ConfigExamples.defaults
  end.
Proof.
  apply (config_keeps_settings_in_range ConfigExamples.clamped_request
           ConfigExamples.defaults ConfigExamples.clamped_settings).
  vm_compute. reflexivity.
Defined.

Lemma configured_resize_factor_divides_witness :
  exists rf,
    ConfigEndpoint.resize_factor
      (ConfigEndpoint.config ConfigEndpoint.POST (Some ConfigExamples.refused_request)
         ConfigExamples.defaults).2
    = VFloat rf /\
    float_between (PyFloat.lit 1 10) PyFloat.one rf = true /\
    (exists scale, PyFloat.div PyFloat.one rf = Ok scale) /\
    forall c, scale_back rf c <> Raise ZeroDivisionError.
Proof.
  apply (configured_resize_factor_divides ConfigExamples.refused_request
           ConfigExamples.defaults (VInt 0) (NInt 0)).
  - vm_compute. reflexivity.
  - reflexivity.
Defined.

(** ** The endpoints of [flask_api.py] *)

Lemma same_configuration_refl p : same_configuration p p.
Proof. repeat split. Qed.

Section PipelineConfiguration.

Variable GaussianBlur : image -> Z * Z -> Z -> result image.
Variable cv2_resize : image -> Z * Z -> interpolation -> result image.
Variable model : nat -> image -> float -> Z -> result results.
Variable clock : nat -> float.

Local Abbreviation St := (state UltraFastNSFWProcessor).

(** [process_frame] never raises and never changes the configuration. *)
Lemma process_frame_configuration frame fid ct fm (s : St) :
  exists r dets s',
    process_frame GaussianBlur cv2_resize model clock frame fid ct fm s
    = (Ok (r, dets), s') /\
    same_configuration (self s) (self s').
Proof.
  destruct (process_frame_self GaussianBlur cv2_resize model clock
              frame fid ct fm s) as (r & d & s' & Hrun & Hcases).
  exists r, d, s'. split; [exact Hrun|].
  destruct (fresh_entry clock s fid).
  - destruct Hcases as [_ ->]. apply same_configuration_refl.
  - destruct Hcases as [[_ ->]|(_ & cache' & k & -> & _)].
    + apply same_configuration_refl.
    + repeat split.
Qed.

End PipelineConfiguration.

Section FrameRoute.

Variable GaussianBlur : image -> Z * Z -> Z -> result image.
Variable cv2_resize : image -> Z * Z -> interpolation -> result image.
Variable model : nat -> image -> float -> Z -> result results.
Variable clock : nat -> float.
Variable decode : string -> result (option image).
Variable encode : image -> Z -> result string.
Variable round : float -> Z -> float.

Local Abbreviation St := (state UltraFastNSFWProcessor).
Local Abbreviation route :=
  (Routes.process_frame GaussianBlur cv2_resize model clock decode encode
     round).

Ltac step :=
  cbv beta iota zeta;
  cbn [self store clock_reads detector_calls error_log].

Ltac configuration_kept :=
  simpl; unfold same_configuration in *; simpl in *; intuition congruence.

(** X16: [/process-frame] puts the confidence threshold of the request
    into the processor for the duration of the call and puts the
    original back: however the request ends (no frame, a frame that
    cannot be decoded, an exception in the pipeline or in the encoding),
    the processor's configuration after the request is what it was
    before. *)
Theorem request_threshold_is_restored
    (data : option Routes.frame_request) (s : St) :
  same_configuration (self s) (self (route data s).2).
Proof.
  unfold Routes.process_frame.
  rewrite bind_run. unfold time_time at 1. step.
  rewrite try_except_run.
  destruct (data ≫= _) as [[d text]|]; [|configuration_kept].
  rewrite bind_run. unfold Routes.try_decode.
  rewrite try_except_run, bind_run. unfold lift at 1.
  destruct (decode text) as [[img|]|e]; step;
    [|configuration_kept|configuration_kept].
  unfold mret at 1, M_ret at 1. step.
  rewrite bind_run. unfold new_buffer at 1. step.
  rewrite bind_run, gets_run. step.
  rewrite bind_run.
  match goal with
  | |- context [(if ?c then modify ?f else mret tt) ?s0] =>
      assert (Hswap : exists s1,
                (if c then modify f else mret tt) s0 = (Ok tt, s1) /\
                resize_factor (self s1) = resize_factor (self s) /\
                max_detections (self s1) = max_detections (self s) /\
                cache_ttl (self s1) = cache_ttl (self s))
        by (destruct c; eexists; (split; [reflexivity|]); repeat split)
  end.
  destruct Hswap as (s1 & -> & Hs1). step.
  rewrite bind_run.
  destruct (process_frame_configuration GaussianBlur cv2_resize model clock
              (fresh (dom (store s))) (Routes.req_frame_id d) None false s1)
    as (r & dets & s2 & -> & Hs2).
  step.
  rewrite bind_run. unfold modify at 1. step.
  rewrite bind_run. unfold load at 1. step.
  destruct (store s2 !! r) as [processed|]; [|configuration_kept].
  step. rewrite bind_run. unfold lift at 1.
  destruct (encode processed 85) as [b64|e]; [|configuration_kept].
  configuration_kept.
Qed.

End FrameRoute.

Section PipelineOutcome.

Variable GaussianBlur : image -> Z * Z -> Z -> result image.
Variable cv2_resize : image -> Z * Z -> interpolation -> result image.
Variable model : nat -> image -> float -> Z -> result results.
Variable clock : nat -> float.

Local Abbreviation St := (state UltraFastNSFWProcessor).

(** [process_frame] returns detections only when it logged nothing. *)
Lemma process_frame_clean_or_silent frame fid ct fm (s : St) :
  exists r dets s',
    process_frame GaussianBlur cv2_resize model clock frame fid ct fm s
    = (Ok (r, dets), s') /\
    (dets = [] \/ error_log s' = error_log s).
Proof.
  destruct (process_frame_cases GaussianBlur cv2_resize model clock
              frame fid ct fm s) as (r & d & s' & Hrun & Hcases).
  exists r, d, s'. split; [exact Hrun|].
  destruct (fresh_entry clock s fid).
  - destruct Hcases as (_ & _ & ->). right. reflexivity.
  - destruct Hcases as (_ & _ & [Hc|[Hc|Hc]]).
    + destruct Hc as (-> & _). left. reflexivity.
    + destruct Hc as (? & ? & ? & ? & _ & _ & _ & -> & _). left. reflexivity.
    + destruct Hc as (? & ? & ? & _ & _ & _ & _ & _ & Hel & _). right.
      exact Hel.
Qed.

End PipelineOutcome.

Section StreamRoute.

Variable GaussianBlur : image -> Z * Z -> Z -> result image.
Variable cv2_resize : image -> Z * Z -> interpolation -> result image.
Variable model : nat -> image -> float -> Z -> result results.
Variable clock : nat -> float.
Variable decode : string -> result (option image).
Variable encode : image -> Z -> result string.
Variable round : float -> Z -> float.

Local Abbreviation St := (state UltraFastNSFWProcessor).
Local Abbreviation route :=
  (Routes.process_frame_stream GaussianBlur cv2_resize model clock decode
     encode round).

Ltac step :=
  cbv beta iota zeta;
  cbn [self store clock_reads detector_calls error_log].

Ltac answered :=
  eexists _, _; (split; [reflexivity|]); step;
  cbn [Routes.status Routes.body];
  first [ intros H200; discriminate H200
        | intros _ Hlog; exfalso; apply Hlog; reflexivity
        | intros _ _; eexists; reflexivity ].

(** X17: [/process-frame-stream] never raises, and it answers a frame on
    which something failed like a frame without detections: a request
    that is answered with status 200 although an exception was logged
    while it was served is answered with [processed: False] and an empty
    detection list. *)
Theorem stream_answers_failure_as_clean
    (data : option Routes.frame_request) (s : St) :
  exists resp s',
    route data s = (Ok resp, s') /\
    (Routes.status resp = 200 ->
     error_log s' <> error_log s ->
     exists t, Routes.body resp = Routes.Stream_clean t).
Proof.
  unfold Routes.process_frame_stream.
  rewrite bind_run. unfold time_time at 1. step.
  rewrite try_except_run.
  destruct (data ≫= _) as [[d text]|]; [|answered].
  rewrite bind_run. unfold lift at 1.
  destruct (decode text) as [[img|]|e]; step; [|answered|answered].
  rewrite bind_run. unfold new_buffer at 1. step.
  rewrite bind_run.
  match goal with
  | |- context [(if ?c then ?m else mret ?f) ?s0] =>
      assert (Hprep : exists res st,
                (if c then m else mret f) s0 = (res, with_store st s0))
  end.
  { unfold with_store.
    destruct (_ && _); [|eexists _, _; reflexivity].
    rewrite bind_run. unfold lift at 1.
    destruct (true_divide _ _) as [sf|e]; [|eexists _, _; reflexivity].
    step. rewrite bind_run. unfold lift at 1.
    destruct (PyFloat.int_of_scaled (height img) sf) as [nh|e];
      [|eexists _, _; reflexivity].
    step. rewrite bind_run. unfold lift at 1.
    destruct (PyFloat.int_of_scaled (width img) sf) as [nw|e];
      [|eexists _, _; reflexivity].
    step. rewrite bind_run. unfold lift at 1.
    destruct (cv2_resize img (nw, nh) INTER_LINEAR) as [small|e];
      [|eexists _, _; reflexivity].
    step. eexists _, _. unfold new_buffer. reflexivity. }
  destruct Hprep as ([fr|e] & st & ->); step; [|answered].
  rewrite bind_run.
  match goal with
  | |- context [process_frame _ _ _ _ ?f ?i None false ?s0] =>
      destruct (process_frame_clean_or_silent GaussianBlur cv2_resize model
                  clock f i None false s0)
        as (r & dets & s2 & -> & Hout)
  end.
  step. unfold with_store in Hout. cbn [error_log] in Hout.
  destruct (Z.gtb_spec (len dets) 0) as [Hblur|Hclean].
  - destruct Hout as [->|Hlog]; [unfold len in Hblur; simpl in Hblur; lia|].
    rewrite bind_run. unfold load at 1.
    destruct (store s2 !! r) as [processed|]; step.
    2:{ eexists _, _. split; [reflexivity|]. intros H; discriminate H. }
    rewrite bind_run.
    match goal with
    | |- context [(if ?c then lift ?m else mret ?f) s2] =>
        destruct c; [unfold lift at 1; destruct m as [p2|e]|
                     unfold mret at 1, M_ret at 1]
    end; step.
    2:{ eexists _, _. split; [reflexivity|]. intros H; discriminate H. }
    + rewrite bind_run. unfold lift at 1.
      destruct (encode p2 _) as [b64|e]; step.
      2:{ eexists _, _. split; [reflexivity|]. intros H; discriminate H. }
      eexists _, _. split; [reflexivity|]. step.
      intros _ Hne. exfalso. apply Hne. exact Hlog.
    + rewrite bind_run. unfold lift at 1.
      destruct (encode processed _) as [b64|e]; step.
      2:{ eexists _, _. split; [reflexivity|]. intros H; discriminate H. }
      eexists _, _. split; [reflexivity|]. step.
      intros _ Hne. exfalso. apply Hne. exact Hlog.
  - eexists _, _. split; [reflexivity|]. intros _ _. eexists. reflexivity.
Qed.

End StreamRoute.

Section ImageRoute.

Variable GaussianBlur : image -> Z * Z -> Z -> result image.
Variable cv2_resize : image -> Z * Z -> interpolation -> result image.
Variable model : nat -> image -> float -> Z -> result results.
Variable clock : nat -> float.
Variable decode : string -> result (option image).
Variable encode : image -> Z -> result string.
Variable round : float -> Z -> float.

Local Abbreviation St := (state UltraFastNSFWProcessor).
Local Abbreviation route :=
  (Routes.process_image GaussianBlur cv2_resize model clock decode).

Ltac step :=
  cbv beta iota zeta;
  cbn [self store clock_reads detector_calls error_log].

(** X18: [/process-image] files a request without [image_id] under
    [img_] followed by the clock reading truncated to whole seconds.
    When the cache holds an entry under that name that is younger than
    the time-to-live, as a request of the same second leaves one, the
    verdict is read from that entry, whatever image was sent, and the
    detector is not invoked. *)
Theorem image_verdict_of_the_same_second
    (d : Routes.image_request) (text : string) (img : image) (s : St)
    (seconds : Z) (e : cache_entry) :
  Routes.req_image d = Some text ->
  Routes.req_image_id d = None ->
  PyFloat.to_int (clock (S (clock_reads s))) = Ok seconds ->
  decode text = Ok (Some img) ->
  frame_cache (self s) !! ("img_" +:+ pretty seconds) = Some e ->
  PyFloat.lt (PyFloat.sub (clock (3 + clock_reads s)%nat) (timestamp e))
    (cache_ttl (self s)) = true ->
  exists t s',
    route (Some d) s
    = (Ok (Routes.Response 200
             (Routes.Image_verdict (len (cached_detections e) >? 0)
                (Routes.max_confidence (cached_detections e))
                (len (cached_detections e))
                ("img_" +:+ pretty seconds) t)), s') /\
    detector_calls s' = detector_calls s.
Proof.
  intros Himg Hid Hsec Hdec He Hfresh.
  unfold Routes.process_image.

  rewrite bind_run. unfold time_time at 1. step.
  rewrite try_except_run. cbn [mbind option_bind]. rewrite Himg.
  cbn [mbind option_bind].
  rewrite bind_run. unfold time_time at 1. step.
  rewrite bind_run. unfold lift at 1. rewrite Hsec. step.
  rewrite Hid. cbn [default].
  rewrite bind_run. unfold lift at 1. rewrite Hdec. step.
  rewrite bind_run. unfold new_buffer at 1. step.
  rewrite bind_run.
  match goal with
  | |- context [process_frame _ _ _ _ ?f ?i ?c ?m ?s0] =>
      rewrite (process_frame_hit GaussianBlur cv2_resize model clock
                 f i c m s0 e)
  end.
  - step. eexists _, _. split; reflexivity.
  - unfold fresh_entry, age.
    rewrite truthy_id_nonempty by (simpl; discriminate).
    cbn [mbind option_bind]. step. rewrite He. cbn [mbind option_bind]. step.
    change (S (S (S (clock_reads s)))) with (3 + clock_reads s)%nat.
    rewrite Hfresh. reflexivity.
Qed.

End ImageRoute.

Lemma image_verdict_of_the_same_second_witness :
  exists t s',
    Routes.process_image Stub.GaussianBlur Stub.cv2_resize
      (Stub.model Examples.face_box) Stub.clock RouteExamples.decode
      (Some RouteExamples.second_image) RouteExamples.after_first_image
    = (Ok (Routes.Response 200
             (Routes.Image_verdict
                (len (cached_detections RouteExamples.first_entry) >? 0)
                (Routes.max_confidence
                   (cached_detections RouteExamples.first_entry))
                (len (cached_detections RouteExamples.first_entry))
                ("img_" +:+ pretty 0) t)), s') /\
    detector_calls s' = detector_calls RouteExamples.after_first_image.
Proof.
  apply (image_verdict_of_the_same_second Stub.GaussianBlur Stub.cv2_resize
           (Stub.model Examples.face_box) Stub.clock RouteExamples.decode
           RouteExamples.second_image "second"%string (Stub.gradient 20 20)
           RouteExamples.after_first_image 0 RouteExamples.first_entry).
  - reflexivity.
  - reflexivity.
  - vm_compute. reflexivity.
  - reflexivity.
  - vm_compute. reflexivity.
  - vm_compute. reflexivity.
Defined.

(** ** The greatest confidence *)

Lemma compare_cont_Eq_Lt (p q : positive) :
  Pos.compare_cont Eq p q = Lt <-> (p < q)%positive.
Proof. reflexivity. Qed.

(** The order of floats is transitive. *)
Lemma SFltb_trans (x y z : float) :
  SFltb x y = true -> SFltb y z = true -> SFltb x z = true.
Proof.
  unfold SFltb.
  destruct x as [sx|sx| |sx mx ex], y as [sy|sy| |sy my ey],
    z as [sz|sz| |sz mz ez]; simpl;
    try destruct sx; try destruct sy; try destruct sz; simpl;
    try congruence;
    change (Pos.compare_cont Eq mx my) with (Pos.compare mx my);
    change (Pos.compare_cont Eq my mz) with (Pos.compare my mz);
    change (Pos.compare_cont Eq mx mz) with (Pos.compare mx mz);
    destruct (Z.compare_spec ex ey); destruct (Z.compare_spec ey ez);
    destruct (Z.compare_spec ex ez); try congruence; try lia;
    destruct (Pos.compare_spec mx my); destruct (Pos.compare_spec my mz);
    destruct (Pos.compare_spec mx mz); simpl; try congruence; lia.
Qed.

Lemma py_max_floats_above (l : list float) :
  forall current x,
    PyFloat.gt x current = false ->
    PyFloat.gt x (py_max_floats current l) = false.
Proof.
  induction l as [|y l IH]; intros current x Hx; simpl; [exact Hx|].
  apply IH. destruct (PyFloat.gt y current) eqn:Hy; [|exact Hx].
  destruct (PyFloat.gt x y) eqn:Hxy; [|reflexivity].
  unfold PyFloat.gt in *. rewrite (SFltb_trans _ _ _ Hy Hxy) in Hx.
  discriminate.
Qed.

Lemma py_max_floats_spec (l : list float) :
  forall current,
    (py_max_floats current l = current \/ py_max_floats current l ∈ l) /\
    forall x, x = current \/ x ∈ l ->
              PyFloat.gt x (py_max_floats current l) = false.
Proof.
  induction l as [|y l IH]; intros current; simpl.
  - split; [left; reflexivity|]. intros x [->|Hx]; [apply gt_irrefl|].
    inversion Hx.
  - destruct (IH (if PyFloat.gt y current then y else current))
      as [Hin Hmax].
    split.
    + destruct Hin as [Heq|Hin].
      * rewrite Heq. destruct (PyFloat.gt y current);
          [right; apply list_elem_of_here | left; reflexivity].
      * right. apply list_elem_of_further. exact Hin.
    + intros x [->|Hx].
      * apply py_max_floats_above.
        destruct (PyFloat.gt y current) eqn:Hy; [|apply gt_irrefl].
        destruct (PyFloat.gt current y) eqn:Hc; [|reflexivity].
        unfold PyFloat.gt in *.
        pose proof (SFltb_trans _ _ _ Hy Hc) as Hcc.
        pose proof (gt_irrefl current) as Hirr. unfold PyFloat.gt in Hirr.
        congruence.
      * apply elem_of_cons in Hx. destruct Hx as [->|Hx].
        -- apply py_max_floats_above.
           destruct (PyFloat.gt y current) eqn:Hy; [apply gt_irrefl|exact Hy].
        -- apply Hmax. right. exact Hx.
Qed.

(** X19: the confidence that [/process-image] reports is 0.0 when there
    is no detection, and otherwise the confidence of one of the
    detections, than which no detection has a greater one. *)
Theorem reported_confidence_is_the_greatest (detections : list detection) :
  (detections = [] ->
   Routes.max_confidence detections = S754_zero false) /\
  (detections <> [] ->
   (exists d, d ∈ detections /\
              Routes.max_confidence detections = det_confidence d) /\
   forall d, d ∈ detections ->
             PyFloat.gt (det_confidence d)
               (Routes.max_confidence detections) = false).
Proof.
  split; [intros ->; reflexivity|].
  destruct detections as [|d0 rest]; [congruence|]. intros _.
  unfold Routes.max_confidence.
  destruct (py_max_floats_spec (map det_confidence rest) (det_confidence d0))
    as [Hin Hmax].
  split.
  - destruct Hin as [Heq|Hin].
    + exists d0. split; [apply list_elem_of_here | exact Heq].
    + apply list_elem_of_In, in_map_iff in Hin.
      destruct Hin as (d & Hd & Hin). exists d.
      split; [apply list_elem_of_further, list_elem_of_In; exact Hin|].
      congruence.
  - intros d Hd. apply Hmax. apply elem_of_cons in Hd.
    destruct Hd as [->|Hd]; [left; reflexivity|].
    right. apply list_elem_of_In, in_map_iff. exists d.
    split; [reflexivity | apply list_elem_of_In; exact Hd].
Qed.

(** ** [process_video_file] *)

Lemma zoom_keeps_writer {A} (m : M VideoStreamProcessor.t A)
    (s : state VideoFile.job) :
  VideoFile.writer
    (self (zoom VideoFile.processor VideoFile.set_processor m s).2)
  = VideoFile.writer (self s).
Proof.
  unfold zoom. destruct (m _) as [r s']. reflexivity.
Qed.

Lemma write_frame_inv (r : ref) (s s' : state VideoFile.job)
    (w : list image) :
  VideoFile.writer (self s) = Some w ->
  VideoFile.write_frame r s = (Ok tt, s') ->
  exists img,
    store s !! r = Some img /\
    VideoFile.writer (self s') = Some (w ++ [img]).
Proof.
  intros Hw. unfold VideoFile.write_frame.
  rewrite bind_run, gets_run. cbv beta iota zeta. rewrite Hw.
  rewrite bind_run. unfold load at 1.
  destruct (store s !! r) as [img|]; [|discriminate].
  unfold modify. intros [= <-]. exists img. split; reflexivity.
Qed.

Section VideoFileLoop.

Variable GaussianBlur : image -> Z * Z -> Z -> result image.
Variable cv2_resize : image -> Z * Z -> interpolation -> result image.
Variable model : nat -> image -> result results.
Variable clock : nat -> float.
Variable import_labels : result (list string).
Variable initialize_model : bool.
Variable frame_skip : Z.

Local Abbreviation St := (state VideoFile.job).
Local Abbreviation read_frames :=
  (VideoFile.read_frames GaussianBlur cv2_resize model clock import_labels
     frame_skip).
Local Abbreviation process_video_file :=
  (VideoFile.process_video_file GaussianBlur cv2_resize model clock
     import_labels initialize_model frame_skip).

(** A loop that ends has written one frame for every frame it read, and
    has written every frame it skipped as it was read. *)
Lemma read_frames_writes (fps total_frames : Z) (thr : float)
    (rest : list image) :
  forall (frame_count : Z) (s s' : St) (w : list image) (n : Z),
    VideoFile.writer (self s) = Some w ->
    read_frames fps total_frames thr rest frame_count s = (Ok n, s') ->
    exists w',
      VideoFile.writer (self s') = Some (w ++ w') /\
      length w' = length rest /\
      forall (i : nat) (img : image),
        rest !! i = Some img ->
        (frame_count + Z.of_nat i + 1) mod frame_skip <> 0 ->
        w' !! i = Some img.
Proof.
  induction rest as [|img rest IH]; intros fc s s' w n Hw Hrun.
  - simpl in Hrun. injection Hrun as <- <-. exists [].
    rewrite app_nil_r. split; [exact Hw|]. split; [reflexivity|].
    intros i x Hx. discriminate.
  - simpl in Hrun.
    apply M_bind_Ok_inv in Hrun. destruct Hrun as (fr & s1 & Hnew & Hrun).
    unfold new_buffer in Hnew. injection Hnew as <- <-.
    set (s1 := State (self s) (<[fresh (dom (store s)) := img]> (store s))
                 (clock_reads s) (detector_calls s) (error_log s)) in *.
    assert (Hw1 : VideoFile.writer (self s1) = Some w) by exact Hw.
    assert (Hfr : store s1 !! fresh (dom (store s)) = Some img)
      by apply lookup_insert_eq.
    apply M_bind_Ok_inv in Hrun. destruct Hrun as (turn & s2 & Hturn & Hrun).
    unfold lift in Hturn. injection Hturn as Hturn <-.
    unfold VideoFile.py_mod in Hturn.
    destruct (Z.eqb_spec frame_skip 0) as [|Hskip]; [discriminate|].
    injection Hturn as <-.
    destruct (Z.eqb_spec ((fc + 1) mod frame_skip) 0) as [Hdue|Hdue];
      cbn [negb] in Hrun.
    + apply M_bind_Ok_inv in Hrun. destruct Hrun as (r & s3 & Hpsf & Hrun).
      assert (Hz : VideoFile.writer (self s3) = Some w).
      { pose proof (zoom_keeps_writer
                      (VideoStreamProcessor.process_single_frame GaussianBlur
                         cv2_resize model clock import_labels
                         (fresh (dom (store s))) thr) s1) as Hz.
        unfold VideoFile.process_single_frame in Hpsf. rewrite Hpsf in Hz.
        exact (eq_trans Hz Hw1). }
      apply M_bind_Ok_inv in Hrun. destruct Hrun as ([] & s4 & Hwr & Hrun).
      destruct (write_frame_inv _ _ _ _ Hz Hwr) as (img' & _ & Hw4).
      apply M_bind_Ok_inv in Hrun. destruct Hrun as (due & s5 & Hd & Hrun).
      unfold lift in Hd. injection Hd as _ <-.
      apply M_bind_Ok_inv in Hrun. destruct Hrun as ([] & s6 & Hrep & Hrun).
      assert (Hw6 : VideoFile.writer (self s6) = Some (w ++ [img'])).
      { destruct (due =? 0).
        - unfold VideoFile.report_progress in Hrep.
          apply M_bind_Ok_inv in Hrep.
          destruct Hrep as (now & s7 & Ht & Hrep).
          unfold time_time in Ht. injection Ht as _ <-.
          destruct (total_frames =? 0); [discriminate|].
          injection Hrep as <-. exact Hw4.
        - injection Hrep as <-. exact Hw4. }
      destruct (IH _ _ _ _ _ Hw6 Hrun) as (w' & Hw' & Hlen & Hsk).
      exists (img' :: w'). rewrite <- app_assoc in Hw'.
      split; [exact Hw'|]. split; [simpl; congruence|].
      intros [|i] x Hx Hnot.
      * exfalso. apply Hnot. rewrite Z.add_0_r. exact Hdue.
      * simpl in Hx. simpl. apply (Hsk i x Hx).
        replace (fc + 1 + Z.of_nat i + 1) with (fc + Z.of_nat (S i) + 1)
          by lia. exact Hnot.
    + apply M_bind_Ok_inv in Hrun. destruct Hrun as ([] & s3 & Hwr & Hrun).
      destruct (write_frame_inv _ _ _ _ Hw1 Hwr) as (img' & Himg & Hw3).
      rewrite Hfr in Himg. injection Himg as <-.
      destruct (IH _ _ _ _ _ Hw3 Hrun) as (w' & Hw' & Hlen & Hsk).
      exists (img :: w'). rewrite <- app_assoc in Hw'.
      split; [exact Hw'|]. split; [simpl; congruence|].
      intros [|i] x Hx Hnot.
      * simpl in Hx. exact Hx.
      * simpl in Hx. simpl. apply (Hsk i x Hx).
        replace (fc + 1 + Z.of_nat i + 1) with (fc + Z.of_nat (S i) + 1)
          by lia. exact Hnot.
Qed.

(** X20: [process_video_file] with an output path, when it returns
    [True], has written exactly one frame for every frame of the input,
    and every frame whose number is not a multiple of [frame_skip] was
    written as it was read, without detection or blur. *)
Theorem skipped_frames_are_written_unredacted
    (cap : VideoFile.capture) (thr : float) (s s' : St) :
  process_video_file cap true thr s = (Ok true, s') ->
  exists written,
    VideoFile.writer (self s') = Some written /\
    length written = length (VideoFile.frames cap) /\
    forall (i : nat) (img : image),
      VideoFile.frames cap !! i = Some img ->
      skipped frame_skip i ->
      written !! i = Some img.
Proof.
  unfold VideoFile.process_video_file. intros Hrun.
  destruct initialize_model; cbn [negb] in Hrun; [|discriminate].
  destruct (VideoFile.isOpened cap); cbn [negb] in Hrun; [|discriminate].
  apply M_bind_Ok_inv in Hrun. destruct Hrun as (fps & s1 & H1 & Hrun).
  unfold lift in H1. injection H1 as _ <-.
  apply M_bind_Ok_inv in Hrun. destruct Hrun as (wd & s2 & H2 & Hrun).
  unfold lift in H2. injection H2 as _ <-.
  apply M_bind_Ok_inv in Hrun. destruct Hrun as (ht & s3 & H3 & Hrun).
  unfold lift in H3. injection H3 as _ <-.
  apply M_bind_Ok_inv in Hrun. destruct Hrun as (tf & s4 & H4 & Hrun).
  unfold lift in H4. injection H4 as _ <-.
  apply M_bind_Ok_inv in Hrun. destruct Hrun as ([] & s5 & H5 & Hrun).
  unfold modify in H5. injection H5 as <-.
  apply M_bind_Ok_inv in Hrun. destruct Hrun as (t0 & s6 & H6 & Hrun).
  unfold time_time in H6. injection H6 as _ <-.
  apply M_bind_Ok_inv in Hrun. destruct Hrun as (n & s7 & Hloop & Hrun).
  apply read_frames_writes with (w := []) in Hloop; [|reflexivity].
  destruct Hloop as (w' & Hw & Hlen & Hsk).
  apply M_bind_Ok_inv in Hrun. destruct Hrun as (t1 & s8 & H8 & Hrun).
  unfold time_time in H8. injection H8 as _ <-.
  apply M_bind_Ok_inv in Hrun. destruct Hrun as (c & s9 & H9 & Hrun).
  unfold lift in H9. injection H9 as _ <-.
  apply M_bind_Ok_inv in Hrun. destruct Hrun as (a & s10 & H10 & Hrun).
  unfold lift in H10. injection H10 as _ <-.
  injection Hrun as <-.
  exists w'. split; [exact Hw|]. split; [exact Hlen|].
  intros i img Hi Hnot. apply (Hsk i img Hi). exact Hnot.
Qed.

(** X21: the loop of [process_video_file] takes the frame count modulo
    [fps * 5].  Suppose that the capture reports 0 frames per second,
    that the first frame is not skipped, as with the [frame_skip] of 1
    that [__init__] sets, and that [process_single_frame] returns for it
    (as CPython runs it, it returns only when the detector reports no
    box).  Then the loop raises ZeroDivisionError as soon as that frame
    has been written; the frames after it are never read. *)
Theorem zero_fps_stops_after_one_frame
    (total_frames : Z) (thr : float) (img img' : image) (rest : list image)
    (s s2 : St) (r : ref) (w : list image) :
  frame_skip <> 0 ->
  1 mod frame_skip = 0 ->
  VideoFile.writer (self s) = Some w ->
  VideoFile.process_single_frame GaussianBlur cv2_resize model clock
    import_labels (fresh (dom (store s))) thr
    (with_store (<[fresh (dom (store s)) := img]> (store s)) s)
  = (Ok r, s2) ->
  store s2 !! r = Some img' ->
  exists s3,
    read_frames 0 total_frames thr (img :: rest) 0 s
    = (Raise ZeroDivisionError, s3) /\
    VideoFile.writer (self s3) = Some (w ++ [img']).
Proof.
  intros Hskip Hturn Hw Hpsf Himg.
  assert (Hw2 : VideoFile.writer (self s2) = Some w).
  { pose proof (zoom_keeps_writer
                  (VideoStreamProcessor.process_single_frame GaussianBlur
                     cv2_resize model clock import_labels
                     (fresh (dom (store s))) thr)
                  (with_store (<[fresh (dom (store s)) := img]> (store s)) s))
      as Hz.
    unfold VideoFile.process_single_frame in Hpsf. rewrite Hpsf in Hz.
    exact (eq_trans Hz Hw). }
  cbn [VideoFile.read_frames].
  rewrite bind_run. unfold new_buffer at 1. cbv beta iota zeta.
  fold (with_store (<[fresh (dom (store s)) := img]> (store s)) s).
  rewrite bind_run. unfold lift at 1, VideoFile.py_mod at 1.
  destruct (Z.eqb_spec frame_skip 0); [contradiction|].
  cbv beta iota zeta. change (0 + 1) with 1. rewrite Hturn.
  change (negb (0 =? 0)) with false. cbv iota.
  rewrite bind_run, Hpsf. cbv beta iota zeta.
  rewrite bind_run. unfold VideoFile.write_frame at 1.
  rewrite bind_run, gets_run. cbv beta iota zeta. rewrite Hw2.
  rewrite bind_run, (load_run r s2 img' Himg). cbv beta iota zeta.
  unfold modify at 1. cbv beta iota zeta.
  rewrite bind_run. unfold lift at 1, VideoFile.py_mod at 1.
  change (0 * 5 =? 0) with true. cbv beta iota zeta.
  eexists. split; reflexivity.
Qed.


End VideoFileLoop.

Lemma skipped_frames_are_written_unredacted_witness :
  exists written,
    VideoFile.writer (self VideoExamples.run.2) = Some written /\
    length written = length (VideoFile.frames VideoExamples.cap) /\
    forall (i : nat) (img : image),
      VideoFile.frames VideoExamples.cap !! i = Some img ->
      skipped 2 i ->
      written !! i = Some img.
Proof.
  apply (skipped_frames_are_written_unredacted Stub.GaussianBlur
           Stub.cv2_resize VideoExamples.detector Stub.clock
           (Raise ImportError) true 2 VideoExamples.cap (PyFloat.lit 4 10)
           VideoExamples.start VideoExamples.run.2).
  vm_compute. reflexivity.
Defined.

Lemma zero_fps_stops_after_one_frame_witness :
  exists s3,
    VideoFile.read_frames Stub.GaussianBlur Stub.cv2_resize
      VideoExamples.detector Stub.clock (Raise ImportError) 1 0 3
      (PyFloat.lit 4 10) (VideoFile.frames VideoExamples.still) 0
      VideoExamples.ready
    = (Raise ZeroDivisionError, s3) /\
    VideoFile.writer (self s3) = Some ([] ++ [VideoExamples.processed]).
Proof.
  apply (zero_fps_stops_after_one_frame Stub.GaussianBlur Stub.cv2_resize
           VideoExamples.detector Stub.clock (Raise ImportError) 1 3
           (PyFloat.lit 4 10) (Stub.gradient 20 20) VideoExamples.processed
           [Stub.gradient 20 20; Stub.gradient 20 20]
           VideoExamples.ready VideoExamples.first_processed.2 0%nat []).
  - lia.
  - reflexivity.
  - reflexivity.
  - vm_compute. reflexivity.
  - vm_compute. reflexivity.
Defined.

(** ** What the blur writes inside a region *)

Lemma broadcast_exact {A} (l : list A) (n : nat) :
  length l = n -> broadcast l n = Ok l.
Proof.
  intros H. unfold broadcast. rewrite (proj2 (Nat.eqb_eq _ _) H). reflexivity.
Qed.

(** Inside the assigned columns a row holds the new values. *)
Lemma assign_row_inside {A} (row new row' : list A) (x1 x2 : Z) (c : nat) :
  0 <= x1 <= x2 -> x2 <= len row ->
  len new = x2 - x1 ->
  assign_row row x1 x2 new = Ok row' ->
  x1 <= Z.of_nat c < x2 ->
  row' !! c = new !! (c - Z.to_nat x1)%nat.
Proof.
  intros Hx Hx2 Hnew. unfold assign_row, len in *.
  destruct (slice_range_nonneg x1 x2 (length row) Hx)
    as (lo & hi & -> & Hle & Hlo & Hhi).
  rewrite broadcast_exact by lia. rewrite result_bind_Ok.
  intros [= <-] Hc.
  rewrite lookup_app_r by (rewrite length_take; lia).
  rewrite length_take.
  rewrite lookup_app_l by lia. f_equal. lia.
Qed.

Lemma assign_rows_lookup {A} (x1 x2 : Z) (rows : array2 A) :
  forall (patch rows' : array2 A) (i : nat) (row prow : list A),
    assign_rows rows x1 x2 patch = Ok rows' ->
    rows !! i = Some row -> patch !! i = Some prow ->
    exists row', rows' !! i = Some row' /\
                 assign_row row x1 x2 prow = Ok row'.
Proof.
  induction rows as [|row0 rows IH]; intros patch rows' i row prow H Hr Hp.
  - discriminate.
  - destruct patch as [|prow0 patch]; [discriminate|]. simpl in H.
    apply bind_Ok in H. destruct H as (row0' & H0 & H).
    apply bind_Ok in H. destruct H as (rest & Hrest & [= <-]).
    destruct i as [|i]; simpl in *.
    + injection Hr as <-. injection Hp as <-. eauto.
    + eapply IH; eassumption.
Qed.

(** Inside the assigned box an array holds the patch. *)
Lemma assign_slice2_inside {A} (arr patch arr' : array2 A)
    (w y1 y2 x1 x2 : Z) (r c : nat) :
  rectangular arr w ->
  0 <= y1 <= y2 -> y2 <= height arr ->
  0 <= x1 <= x2 -> x2 <= w ->
  height patch = y2 - y1 -> rectangular patch (x2 - x1) ->
  assign_slice2 arr y1 y2 x1 x2 patch = Ok arr' ->
  y1 <= Z.of_nat r < y2 -> x1 <= Z.of_nat c < x2 ->
  at2 arr' r c = at2 patch (r - Z.to_nat y1) (c - Z.to_nat x1).
Proof.
  intros Hrect Hy Hy2 Hx Hx2 Hph Hpw. unfold assign_slice2, height, len in *.
  destruct (slice_range_nonneg y1 y2 (length arr) Hy)
    as (lo & hi & -> & Hle & Hlo & Hhi).
  rewrite broadcast_exact by lia. rewrite result_bind_Ok.
  intros H Hr Hc. apply bind_Ok in H. destruct H as (mid & Hm & [= <-]).
  rewrite at2_app_r by (rewrite length_take; lia).
  rewrite length_take. replace (Nat.min lo (length arr)) with lo by lia.
  assert (Hrow : exists row, arr !! r = Some row).
  { apply lookup_lt_is_Some_2. lia. }
  destruct Hrow as [row Hrow].
  assert (Hprow : exists prow, patch !! (r - lo)%nat = Some prow).
  { apply lookup_lt_is_Some_2. lia. }
  destruct Hprow as [prow Hprow].
  destruct (assign_rows_lookup x1 x2 _ patch mid (r - lo)%nat row prow Hm)
    as (row' & Hrow' & Hassign).
  { unfold array2 in *. rewrite lookup_take_lt by lia. rewrite lookup_drop.
    replace (lo + (r - lo))%nat with r by lia. exact Hrow. }
  { exact Hprow. }
  assert (Hmid : (r - lo < length mid)%nat).
  { apply lookup_lt_Some in Hrow'. exact Hrow'. }
  rewrite at2_app_l by exact Hmid.
  unfold at2, array2 in *. rewrite Hrow'. cbn [mbind option_bind].
  replace (Z.to_nat y1) with lo by lia. rewrite Hprow. cbn [mbind option_bind].
  apply (assign_row_inside row prow row' x1 x2 c); try assumption.
  - apply list_elem_of_lookup_2 in Hrow.
    rewrite (rectangular_elem _ _ _ Hrect Hrow). exact Hx2.
  - apply list_elem_of_lookup_2 in Hprow.
    apply (rectangular_elem _ _ _ Hpw Hprow).
Qed.

Section FlaskInside.

Variable GaussianBlur : image -> Z * Z -> Z -> result image.
Variable cv2_resize : image -> Z * Z -> interpolation -> result image.

(** X22: when the blur of a region returns, the region is overwritten
    entirely: every pixel of its box holds the pixel that the last
    [cv2.resize], back to the size of the region with nearest-neighbour
    interpolation, computed for it from the Gaussian blur of the
    region.  With C5, which covers the pixels outside, this determines
    the whole frame. *)
Theorem region_is_overwritten_entirely
    (img img' : image) (reg : region) :
  returns_dsize cv2_resize ->
  rectangular img (width img) ->
  in_frame (height img) (width img) reg ->
  rx1 reg < rx2 reg -> ry1 reg < ry2 reg ->
  ultra_fast_blur_region GaussianBlur cv2_resize img reg = Ok img' ->
  exists ksize blurred dsize small patch,
    GaussianBlur (slice2 img (ry1 reg) (ry2 reg) (rx1 reg) (rx2 reg))
      ksize 0 = Ok blurred /\
    cv2_resize blurred dsize INTER_LINEAR = Ok small /\
    cv2_resize small (rx2 reg - rx1 reg, ry2 reg - ry1 reg) INTER_NEAREST
    = Ok patch /\
    forall r c : nat,
      inside reg r c ->
      at2 img' r c
      = at2 patch (r - Z.to_nat (ry1 reg)) (c - Z.to_nat (rx1 reg)).
Proof.
  intros Hret Hrect [(Hx1 & Hx12 & Hx2) (Hy1 & Hy12 & Hy2)] Hx Hy.
  unfold ultra_fast_blur_region.
  destruct (Z.gtb_spec (rx2 reg) (rx1 reg)); [|lia].
  destruct (Z.gtb_spec (ry2 reg) (ry1 reg)); [|lia]. cbn [andb].
  assert (Hsh : shape (slice2 img (ry1 reg) (ry2 reg) (rx1 reg) (rx2 reg))
                = (ry2 reg - ry1 reg, rx2 reg - rx1 reg)).
  { apply (slice2_shape img (width img)); try assumption; lia. }
  unfold size3. pose proof Hsh as Hsh'. unfold shape in Hsh'.
  injection Hsh' as Hh Hw. rewrite Hh, Hw.
  destruct (Z.gtb_spec ((ry2 reg - ry1 reg) * (rx2 reg - rx1 reg) * 3) 0);
    [|nia].
  rewrite Hsh.
  destruct (GaussianBlur _ _ 0) as [blurred|e] eqn:Hg; [|discriminate].
  rewrite result_bind_Ok.
  destruct (Z.gtb_spec (Z.max 2 (Z.min ((rx2 reg - rx1 reg) / 12)
                                   ((ry2 reg - ry1 reg) / 12))) 1); [|lia].
  destruct (cv2_resize blurred _ INTER_LINEAR) as [small|e] eqn:Hs;
    [|discriminate].
  rewrite result_bind_Ok.
  destruct (cv2_resize small _ INTER_NEAREST) as [patch|e] eqn:Hp;
    [|discriminate].
  rewrite result_bind_Ok. intros Hassign.
  eexists _, blurred, _, small, patch.
  split; [exact Hg|]. split; [exact Hs|]. split; [exact Hp|].
  intros r c [Hr Hc].
  destruct (Hret _ _ _ _ _ Hp) as [Hph Hpw].
  apply (assign_slice2_inside img patch img' (width img)
           (ry1 reg) (ry2 reg) (rx1 reg) (rx2 reg)); try assumption; lia.
Qed.

End FlaskInside.

Lemma stub_resize_returns_dsize : returns_dsize Stub.cv2_resize.
Proof.
  intros src w h i out. unfold Stub.cv2_resize.
  destruct src as [|[|p row] src]; try discriminate.
  destruct (Z.ltb_spec 0 w); [|discriminate].
  destruct (Z.ltb_spec 0 h); [|discriminate]. cbn [andb].
  intros [= <-]. split.
  - unfold height, len. rewrite length_map, length_seq. lia.
  - unfold rectangular. apply Forall_forall. intros r Hr.
    apply list_elem_of_In, in_map_iff in Hr. destruct Hr as (k & <- & _).
    unfold len. rewrite length_map, length_seq. lia.
Qed.

Lemma region_is_overwritten_entirely_witness :
  exists ksize blurred dsize small patch,
    Stub.GaussianBlur (slice2 Examples.frame20 4 16 4 16) ksize 0
    = Ok blurred /\
    Stub.cv2_resize blurred dsize INTER_LINEAR = Ok small /\
    Stub.cv2_resize small (16 - 4, 16 - 4) INTER_NEAREST = Ok patch /\
    forall r c : nat,
      inside (Region 4 4 16 16 "BUTTOCKS_EXPOSED" Examples.nine_tenths) r c ->
      at2 (blur_progress Stub.GaussianBlur Stub.cv2_resize Examples.frame20
             [Region 4 4 16 16 "BUTTOCKS_EXPOSED" Examples.nine_tenths]).1
        r c
      = at2 patch (r - Z.to_nat 4) (c - Z.to_nat 4).
Proof.
  apply (region_is_overwritten_entirely Stub.GaussianBlur Stub.cv2_resize
           Examples.frame20
           (blur_progress Stub.GaussianBlur Stub.cv2_resize Examples.frame20
              [Region 4 4 16 16 "BUTTOCKS_EXPOSED" Examples.nine_tenths]).1
           (Region 4 4 16 16 "BUTTOCKS_EXPOSED" Examples.nine_tenths)).
  - exact stub_resize_returns_dsize.
  - vm_compute. repeat constructor.
  - vm_compute. repeat split; discriminate.
  - simpl. lia.
  - simpl. lia.
  - vm_compute. reflexivity.
Defined.

(** ** The core of a region *)

Lemma py_slice_lookup {A} (l : list A) (a b : Z) (i : nat) :
  0 <= a <= b -> b <= len l -> Z.of_nat i < b - a ->
  py_slice l a b !! i = l !! (Z.to_nat a + i)%nat.
Proof.
  intros Hab Hb Hi. unfold py_slice, len in *.
  destruct (slice_range_nonneg a b (length l) Hab)
    as (lo & hi & -> & Hle & Hlo & Hhi).
  rewrite lookup_take_lt by lia. rewrite lookup_drop. f_equal. lia.
Qed.

Lemma slice2_at2 {A} (arr : array2 A) (w y1 y2 x1 x2 : Z) (r c : nat) :
  rectangular arr w ->
  0 <= y1 <= y2 -> y2 <= height arr -> 0 <= x1 <= x2 -> x2 <= w ->
  Z.of_nat r < y2 - y1 -> Z.of_nat c < x2 - x1 ->
  at2 (slice2 arr y1 y2 x1 x2) r c
  = at2 arr (Z.to_nat y1 + r) (Z.to_nat x1 + c).
Proof.
  intros Hrect Hy Hy2 Hx Hx2 Hr Hc. unfold at2, slice2, array2 in *.
  rewrite map_fmap, list_lookup_fmap.
  rewrite py_slice_lookup by (assumption || lia).
  destruct (arr !! (Z.to_nat y1 + r)%nat) as [row|] eqn:E; simpl;
    [|reflexivity].
  apply py_slice_lookup; try lia.
  rewrite (rectangular_elem arr w row Hrect); [lia|].
  eapply list_elem_of_lookup_2. exact E.
Qed.

Lemma at2_zip_with {A B C} (f : A -> B -> C) (a : array2 A) (b : array2 B)
    (r c : nat) (z : C) :
  at2 (zip_with (zip_with f) a b) r c = Some z ->
  exists x y, at2 a r c = Some x /\ at2 b r c = Some y /\ z = f x y.
Proof.
  unfold at2, array2. intros H.
  destruct (zip_with (zip_with f) a b !! r) as [row|] eqn:E;
    [|discriminate].
  simpl in H. apply lookup_zip_with_Some in E.
  destruct E as (ra & rb & -> & Ea & Eb).
  apply lookup_zip_with_Some in H. destruct H as (x & y & -> & Hx & Hy).
  exists x, y. rewrite Ea, Eb. simpl. auto.
Qed.

Lemma at2_same_lengths {A B} (a : array2 A) (b : array2 B) (r c : nat) :
  map length a = map length b ->
  is_Some (at2 a r c) -> is_Some (at2 b r c).
Proof.
  unfold at2, array2 in *. intros Hl [x Hx].
  destruct (a !! r) as [ra|] eqn:Ea; simpl in Hx; [|discriminate].
  assert (Hr : map length a !! r = Some (length ra)).
  { rewrite map_fmap, list_lookup_fmap, Ea. reflexivity. }
  rewrite Hl, map_fmap, list_lookup_fmap in Hr.
  destruct (b !! r) as [rb|] eqn:Eb; simpl in Hr; [|discriminate].
  simpl. apply lookup_lt_is_Some. apply lookup_lt_Some in Hx.
  assert (length rb = length ra) by congruence. lia.
Qed.

Lemma at2_in_range {A} (arr : array2 A) (w : Z) (r c : nat) :
  rectangular arr w ->
  Z.of_nat r < height arr -> Z.of_nat c < w ->
  is_Some (at2 arr r c).
Proof.
  intros Hrect Hr Hc. unfold at2, height, len, array2 in *.
  destruct (lookup_lt_is_Some_2 arr r) as [row E]; [lia|].
  rewrite E. simpl. apply lookup_lt_is_Some.
  pose proof (rectangular_elem arr w row Hrect
                (list_elem_of_lookup_2 _ _ _ E)) as Hw.
  unfold len in Hw. lia.
Qed.

Lemma at2_bounds {A} (arr : array2 A) (w : Z) (r c : nat) (x : A) :
  rectangular arr w ->
  at2 arr r c = Some x ->
  Z.of_nat r < height arr /\ Z.of_nat c < w.
Proof.
  intros Hrect H. unfold at2, height, len, array2 in *.
  destruct (arr !! r) as [row|] eqn:E; [|discriminate]. simpl in H.
  pose proof (lookup_lt_Some _ _ _ E).
  pose proof (lookup_lt_Some _ _ _ H).
  pose proof (rectangular_elem arr w row Hrect
                (list_elem_of_lookup_2 _ _ _ E)) as Hw.
  unfold len in Hw. lia.
Qed.

Lemma np_maximum_Ok (a b m : mask) :
  np_maximum a b = Ok m ->
  map length a = map length b /\ m = zip_with (zip_with Z.max) a b.
Proof.
  unfold np_maximum. case_bool_decide as H; [|discriminate].
  intros [= <-]. auto.
Qed.

Lemma zip_with_same_lengths {A B C} (f : A -> B -> C) (a : array2 A)
    (b : array2 B) :
  map length a = map length b ->
  map length (zip_with (zip_with f) a b) = map length a.
Proof.
  revert b. induction a as [|ra a IH]; intros [|rb b] Hl;
    try discriminate; [reflexivity|].
  simpl in *. injection Hl as Hr Hl. f_equal.
  - rewrite length_zip_with. lia.
  - apply IH. exact Hl.
Qed.

(** Every value of an edge mask is a [uint8]. *)
Lemma set_row_uint8 (i v : Z) (m : mask) :
  Forall (Forall (fun x => 0 <= x <= 255)) m ->
  Forall (Forall (fun x => 0 <= x <= 255)) (set_row i v m).
Proof.
  intros H. unfold set_row. apply Forall_alter; [exact H|].
  intros row _ _. rewrite map_fmap. apply Forall_fmap, Forall_forall.
  intros x _. simpl. unfold uint8. pose proof (Z.mod_pos_bound v 256). lia.
Qed.

Lemma min_col_uint8 (i v : Z) (m : mask) :
  Forall (Forall (fun x => 0 <= x <= 255)) m ->
  Forall (Forall (fun x => 0 <= x <= 255)) (min_col i v m).
Proof.
  intros H. unfold min_col. rewrite map_fmap. apply Forall_fmap.
  eapply Forall_impl; [exact H|]. intros row Hrow. simpl.
  apply Forall_alter; [exact Hrow|].
  intros x _ _. unfold uint8.
  pose proof (Z.mod_pos_bound (Z.min x v) 256). lia.
Qed.

Lemma smooth_loop_uint8 (w h p : Z) (ixs : list Z) :
  forall m m' : mask,
    Forall (Forall (fun x => 0 <= x <= 255)) m ->
    smooth_loop w h p ixs m = Ok m' ->
    Forall (Forall (fun x => 0 <= x <= 255)) m'.
Proof.
  induction ixs as [|i ixs IH]; intros m m' Hm H.
  - injection H as <-. exact Hm.
  - rewrite smooth_loop_cons in H. apply bind_Ok in H.
    destruct H as (m1 & H1 & H). apply (IH m1 m'); [|exact H].
    unfold smooth_step in H1. apply bind_Ok in H1.
    destruct H1 as (v & _ & H1). injection H1 as <-.
    repeat match goal with
           | |- context [if ?b then _ else _] => destruct b
           end;
      repeat first [apply min_col_uint8 | apply set_row_uint8]; exact Hm.
Qed.

Lemma Forall2_at2 {A} (P : A -> Prop) (arr : array2 A) (r c : nat) (x : A) :
  Forall (Forall P) arr -> at2 arr r c = Some x -> P x.
Proof.
  unfold at2, array2 in *. intros H Hx.
  destruct (arr !! r) as [row|] eqn:E; simpl in Hx; [|discriminate].
  rewrite Forall_forall in H.
  pose proof (H row (list_elem_of_lookup_2 _ _ _ E)) as Hrow.
  rewrite Forall_forall in Hrow.
  apply Hrow. eapply list_elem_of_lookup_2. exact Hx.
Qed.

Lemma create_smooth_mask_uint8 (w h p : Z) (m : mask) (r c : nat) (v : Z) :
  create_smooth_mask w h p = Ok m ->
  at2 m r c = Some v -> 0 <= v <= 255.
Proof.
  intros H Hv.
  apply (Forall2_at2 (fun x => 0 <= x <= 255) m r c v); [|exact Hv].
  unfold create_smooth_mask in H. apply bind_Ok in H.
  destruct H as (m0 & H0 & H).
  assert (Hm0 : Forall (Forall (fun x => 0 <= x <= 255)) m0).
  { unfold full_mask in H0. destruct (_ || _); [discriminate|].
    injection H0 as <-. apply Forall_replicate, Forall_replicate. lia. }
  destruct (p >? 0).
  - eapply smooth_loop_uint8; eassumption.
  - injection H as <-. exact Hm0.
Qed.

Lemma slice2_rectangular {A} (arr : array2 A) (w y1 y2 x1 x2 : Z) :
  rectangular arr w -> 0 <= x1 <= x2 -> x2 <= w ->
  rectangular (slice2 arr y1 y2 x1 x2) (x2 - x1).
Proof.
  intros Hrect Hx Hx2. unfold rectangular, slice2.
  rewrite map_fmap. apply Forall_fmap, Forall_forall. intros row Hrow. simpl.
  apply py_slice_rows in Hrow.
  pose proof (rectangular_elem arr w row Hrect Hrow) as Hw.
  unfold len. rewrite py_slice_length by lia. lia.
Qed.

Lemma padded_box_in_frame (h w : Z) (reg : region) (x1 y1 x2 y2 : Z) :
  padded_box (h, w) reg = (x1, y1, x2, y2) ->
  0 <= x1 /\ 0 <= y1 /\ x2 <= w /\ y2 <= h.
Proof. unfold padded_box. intros [= <- <- <- <-]. lia. Qed.

(** Inside the padded box of a region the combined mask takes the
    greater of its old value and the value of the region's edge mask. *)
Lemma mark_region_inside (h w : Z) (m m' : mask) (reg : region)
    (x1 y1 x2 y2 : Z) (r c : nat) :
  uint8_mask h w m ->
  padded_box (h, w) reg = (x1, y1, x2, y2) ->
  mark_region (h, w) m reg = Ok m' ->
  y1 <= Z.of_nat r < y2 -> x1 <= Z.of_nat c < x2 ->
  exists roi old new,
    create_smooth_mask (x2 - x1) (y2 - y1) padding = Ok roi /\
    at2 m r c = Some old /\
    at2 roi (r - Z.to_nat y1) (c - Z.to_nat x1) = Some new /\
    at2 m' r c = Some (Z.max old new).
Proof.
  intros (Hh & Hrect & _) Hp H Hr Hc.
  destruct (padded_box_in_frame h w reg x1 y1 x2 y2 Hp)
    as (Hx1 & Hy1 & Hx2 & Hy2).
  unfold mark_region in H. rewrite Hp in H.
  apply bind_Ok in H. destruct H as (roi & Hroi & H).
  apply bind_Ok in H. destruct H as (merged & Hmax & H).
  apply np_maximum_Ok in Hmax. destruct Hmax as [Hl ->].
  set (sl := slice2 m y1 y2 x1 x2) in *.
  assert (Hsl : rectangular sl (x2 - x1)).
  { apply (slice2_rectangular m w); [exact Hrect | lia | lia]. }
  assert (Hslh : height sl = y2 - y1).
  { pose proof (slice2_shape m w y1 y2 x1 x2 Hrect) as Hs.
    unfold shape in Hs. fold sl in Hs.
    assert (E : (height sl, width sl) = (y2 - y1, x2 - x1))
      by (apply Hs; lia).
    injection E as E _. exact E. }
  pose proof (zip_with_same_lengths Z.max sl roi Hl) as Hml.
  destruct (same_lengths_rectangular sl _ (x2 - x1) Hml Hsl)
    as (Hmrect & Hmh & _).
  rewrite Hslh in Hmh.
  rewrite (assign_slice2_inside m (zip_with (zip_with Z.max) sl roi) m' w
             y1 y2 x1 x2 r c Hrect); try assumption; try lia.
  destruct (at2_in_range (zip_with (zip_with Z.max) sl roi) (x2 - x1)
              (r - Z.to_nat y1) (c - Z.to_nat x1) Hmrect) as [z Hz];
    [lia | lia |].
  destruct (at2_zip_with _ _ _ _ _ _ Hz) as (old & new & Ho & Hn & ->).
  exists roi, old, new. split; [exact Hroi|].
  split; [|split; [exact Hn | exact Hz]].
  rewrite <- Ho. unfold sl.
  rewrite (slice2_at2 m w) by (assumption || lia).
  f_equal; lia.
Qed.

Lemma mark_region_uint8 (h w : Z) (m m' : mask) (reg : region) :
  uint8_mask h w m ->
  mark_region (h, w) m reg = Ok m' ->
  uint8_mask h w m'.
Proof.
  intros Hm H. pose proof Hm as (Hh & Hrect & Hv).
  destruct (mark_region_spec _ _ _ _ H) as [Hl Hout].
  destruct (same_lengths_rectangular m m' w Hl Hrect) as (Hrect' & Hh' & _).
  split; [congruence|]. split; [exact Hrect'|].
  intros r c v Hat.
  destruct (padded_box (h, w) reg) as [[[x1 y1] x2] y2] eqn:Hp.
  destruct (decide (y1 <= Z.of_nat r < y2 /\ x1 <= Z.of_nat c < x2))
    as [[Hr Hc]|Hn].
  - destruct (mark_region_inside h w m m' reg x1 y1 x2 y2 r c Hm Hp H Hr Hc)
      as (roi & old & new & Hroi & Ho & Hnew & Hat').
    rewrite Hat' in Hat. injection Hat as <-.
    pose proof (Hv _ _ _ Ho).
    pose proof (create_smooth_mask_uint8 _ _ _ _ _ _ _ Hroi Hnew). lia.
  - rewrite Hout in Hat; [exact (Hv _ _ _ Hat)|].
    unfold outside_padded. rewrite Hp. exact Hn.
Qed.

Lemma mark_region_keeps_full (h w : Z) (m m' : mask) (reg : region)
    (r c : nat) :
  uint8_mask h w m ->
  mark_region (h, w) m reg = Ok m' ->
  at2 m r c = Some 255 ->
  at2 m' r c = Some 255.
Proof.
  intros Hm H Hat.
  destruct (mark_region_spec _ _ _ _ H) as [_ Hout].
  destruct (padded_box (h, w) reg) as [[[x1 y1] x2] y2] eqn:Hp.
  destruct (decide (y1 <= Z.of_nat r < y2 /\ x1 <= Z.of_nat c < x2))
    as [[Hr Hc]|Hn].
  - destruct (mark_region_inside h w m m' reg x1 y1 x2 y2 r c Hm Hp H Hr Hc)
      as (roi & old & new & Hroi & Ho & Hnew & Hat').
    rewrite Hat'. rewrite Hat in Ho. injection Ho as <-.
    pose proof (create_smooth_mask_uint8 _ _ _ _ _ _ _ Hroi Hnew).
    f_equal. lia.
  - rewrite Hout; [exact Hat|].
    unfold outside_padded. rewrite Hp. exact Hn.
Qed.

(** In the core of a region the combined mask is 255. *)
Lemma mark_region_core (h w : Z) (m m' : mask) (reg : region) (r c : nat) :
  uint8_mask h w m ->
  mark_region (h, w) m reg = Ok m' ->
  in_core (h, w) reg r c ->
  at2 m' r c = Some 255.
Proof.
  intros Hm H Hcore. unfold in_core in Hcore.
  destruct (padded_box (h, w) reg) as [[[x1 y1] x2] y2] eqn:Hp.
  unfold padding in Hcore. destruct Hcore as (HH & HW & Hr & Hc).
  destruct (mark_region_inside h w m m' reg x1 y1 x2 y2 r c Hm Hp H)
    as (roi & old & new & Hroi & Ho & Hnew & Hat'); [lia | lia |].
  destruct (padded_box_in_frame h w reg x1 y1 x2 y2 Hp)
    as (Hx1 & Hy1 & Hx2 & Hy2).
  rewrite <- (Z2Nat.id (x2 - x1)), <- (Z2Nat.id (y2 - y1)) in Hroi by lia.
  rewrite create_smooth_mask_bands in Hroi by lia.
  injection Hroi as <-.
  rewrite at2_tab in Hnew by lia. injection Hnew as <-.
  destruct Hm as (_ & _ & Hv). pose proof (Hv _ _ _ Ho).
  rewrite Hat'. f_equal.
  unfold bands, dist, ramp.
  repeat match goal with
         | |- context [?a <? ?b] => destruct (Z.ltb_spec a b)
         end; lia.
Qed.

Lemma mark_regions_core (h w : Z) (regions : list region) (r c : nat) :
  forall m m' : mask,
    uint8_mask h w m ->
    mark_regions (h, w) m regions = Ok m' ->
    at2 m r c = Some 255 \/
    (exists reg, reg ∈ regions /\ in_core (h, w) reg r c) ->
    at2 m' r c = Some 255.
Proof.
  induction regions as [|reg regions IH]; intros m m' Hm H Hcase; simpl in H.
  - injection H as <-. destruct Hcase as [Hat|(reg & Hin & _)];
      [exact Hat|]. inversion Hin.
  - apply bind_Ok in H. destruct H as (m1 & H1 & H).
    apply (IH m1 m' (mark_region_uint8 h w m m1 reg Hm H1) H).
    destruct Hcase as [Hat|(reg' & Hin & Hcore)].
    + left. exact (mark_region_keeps_full h w m m1 reg r c Hm H1 Hat).
    + apply elem_of_cons in Hin. destruct Hin as [->|Hin].
      * left. exact (mark_region_core h w m m1 reg r c Hm H1 Hcore).
      * right. exists reg'. split; assumption.
Qed.

Lemma full_mask_uint8 (h w : Z) (m : mask) :
  full_mask h w 0 = Ok m -> uint8_mask h w m.
Proof.
  unfold full_mask.
  destruct (Z.ltb_spec h 0); [discriminate|].
  destruct (Z.ltb_spec w 0); [discriminate|]. cbn [orb].
  intros [= <-]. split; [|split].
  - unfold height, len. rewrite length_replicate. lia.
  - unfold rectangular. apply Forall_replicate.
    unfold len. rewrite length_replicate. lia.
  - intros r c v Hat.
    assert (v = 0); [|lia].
    apply (full_mask_zero h w (replicate (Z.to_nat h)
                                 (replicate (Z.to_nat w) 0)) r c v);
      [|exact Hat].
    unfold full_mask.
    destruct (Z.ltb_spec h 0); [lia|]. destruct (Z.ltb_spec w 0); [lia|].
    reflexivity.
Qed.

(** ** The blend under a full mask *)

Lemma full_mask_is_one :
  F32.div (F32.of_int 255) (F32.of_int 255) = F32.of_int 1.
Proof. vm_compute. reflexivity. Qed.

Lemma one_minus_one :
  F32.sub (F32.of_int 1) (F32.of_int 1) = S754_zero false.
Proof. vm_compute. reflexivity. Qed.

Lemma blurred_times_one (q : byte) :
  uint8_of_f32
    (F32.add (S754_zero false)
       (F32.mul (F32.of_int (byte_val q)) (F32.of_int 1))) = q.
Proof. destruct q; vm_compute; reflexivity. Qed.

Lemma blend_channel_full (p q : byte) : blend_channel p q 255 = q.
Proof.
  unfold blend_channel. cbv zeta. rewrite full_mask_is_one, one_minus_one.
  rewrite blurred_times_zero. apply blurred_times_one.
Qed.

Lemma blend_pixel_full (p q : pixel) : blend_pixel p q 255 = q.
Proof.
  destruct p as [[b1 g1] r1], q as [[b2 g2] r2]. unfold blend_pixel.
  rewrite !blend_channel_full. reflexivity.
Qed.

Lemma blend_full (orig blurred : image) (m : mask) (out : image)
    (r c : nat) :
  blend orig blurred m = Ok out ->
  at2 m r c = Some 255 ->
  exists p, at2 blurred r c = Some p /\ at2 out r c = Some p.
Proof.
  unfold blend.
  case_bool_decide as Hb; [|discriminate].
  case_bool_decide as Hm; [|discriminate]. cbn [andb].
  intros [= <-] Hat.
  destruct (at2_same_lengths m orig r c Hm) as [po Hpo]; [eauto|].
  destruct (at2_same_lengths orig blurred r c (eq_sym Hb)) as [pb Hpb];
    [eauto|].
  exists pb. split; [exact Hpb|].
  unfold at2, mask, image in *. unfold array2 in *.
  destruct (orig !! r) as [o|] eqn:Eo; simpl in Hpo; [|discriminate].
  destruct (blurred !! r) as [b|] eqn:Eb; simpl in Hpb; [|discriminate].
  destruct (m !! r) as [mrow|] eqn:Em; simpl in Hat; [|discriminate].
  rewrite !lookup_zip_with, Eo, Eb, Em. simpl.
  rewrite !lookup_zip_with, Hpo, Hpb, Hat. simpl.
  rewrite blend_pixel_full. reflexivity.
Qed.

Section OptimizedCore.

Variable GaussianBlur : image -> Z * Z -> Z -> result image.
Variable cv2_resize : image -> Z * Z -> interpolation -> result image.
Variable filter2D : image -> Z -> array2 float -> result image.

(** X23: in the core of a region, that is at least four pixels inside its
    padded box, [apply_optimized_blur] returns the pixel of
    [apply_multi_stage_blur(img)] itself: the mask is 255 there,
    whatever other regions were marked before or after, and the blend
    in [float32] gives back the blurred channel exactly, so that
    nothing of the original pixel is left. *)
Theorem region_core_is_the_blur
    (img out : image) (regions : list region) (reg : region) (r c : nat) :
  apply_optimized_blur GaussianBlur cv2_resize filter2D img regions = Ok out ->
  reg ∈ regions ->
  in_core (shape img) reg r c ->
  exists blurred p,
    apply_multi_stage_blur GaussianBlur cv2_resize filter2D img = Ok blurred /\
    at2 blurred r c = Some p /\
    at2 out r c = Some p.
Proof.
  unfold apply_optimized_blur. intros H Hin Hcore.
  apply bind_Ok in H. destruct H as (m0 & H0 & H).
  apply bind_Ok in H. destruct H as (m & Hm & H).
  apply bind_Ok in H. destruct H as (blurred & Hblur & H).
  assert (Hat : at2 m r c = Some 255).
  { apply (mark_regions_core (height img) (width img) regions r c m0 m).
    - apply full_mask_uint8. exact H0.
    - exact Hm.
    - right. exists reg. split; assumption. }
  destruct (blend_full img blurred m out r c H Hat) as (p & Hp & Ho).
  exists blurred, p. auto.
Qed.

(** X24: [apply_multi_stage_blur] pixelates with blocks of 8 pixels and
    asks [cv2.resize] for [(width // 8, height // 8)].  On an image less
    than 8 pixels wide or high that size is empty, so that, when
    [cv2.resize] raises on an empty size, [apply_optimized_blur] raises
    for every list of regions. *)
Theorem narrow_image_is_not_blurred (img : image) (regions : list region) :
  rejects_empty_size cv2_resize ->
  width img < 8 \/ height img < 8 ->
  exists e,
    apply_optimized_blur GaussianBlur cv2_resize filter2D img regions
    = Raise e.
Proof.
  intros Hrej Hsmall. unfold apply_optimized_blur.
  destruct (full_mask (height img) (width img) 0) as [m0|e]; [|eauto].
  rewrite result_bind_Ok.
  destruct (mark_regions (shape img) m0 regions) as [m|e]; [|eauto].
  rewrite result_bind_Ok.
  assert (Hblur : exists e,
             apply_multi_stage_blur GaussianBlur cv2_resize filter2D img
             = Raise e).
  { unfold apply_multi_stage_blur.
    destruct (GaussianBlur img (45, 45) 15) as [heavy|e]; [|eauto].
    rewrite result_bind_Ok.
    destruct (filter2D heavy (-1) motion_kernel) as [motion|e]; [|eauto].
    rewrite result_bind_Ok. unfold shape. cbv zeta.
    pose proof (height_nonneg img). pose proof (width_nonneg img).
    destruct (Hrej motion (width img / 8) (height img / 8) INTER_LINEAR)
      as [e He].
    - destruct Hsmall; [left|right]; rewrite Z.div_small; lia.
    - rewrite He. eauto. }
  destruct Hblur as [e ->]. eauto.
Qed.

End OptimizedCore.

Lemma region_core_is_the_blur_witness :
  exists blurred p,
    apply_multi_stage_blur Stub.GaussianBlur Stub.cv2_resize Stub.filter2D
      Examples.frame20 = Ok blurred /\
    at2 blurred 10 10 = Some p /\
    at2 (match apply_optimized_blur Stub.GaussianBlur Stub.cv2_resize
                 Stub.filter2D Examples.frame20
                 [Region 9 9 11 11 "BUTTOCKS_EXPOSED" Examples.nine_tenths]
         with Ok out => out | Raise _ => [] end) 10 10 = Some p.
Proof.
  apply (region_core_is_the_blur Stub.GaussianBlur Stub.cv2_resize
           Stub.filter2D Examples.frame20 _
           [Region 9 9 11 11 "BUTTOCKS_EXPOSED" Examples.nine_tenths]
           (Region 9 9 11 11 "BUTTOCKS_EXPOSED" Examples.nine_tenths)).
  - vm_compute. reflexivity.
  - apply list_elem_of_here.
  - vm_compute. repeat split; discriminate.
Defined.

Lemma narrow_image_is_not_blurred_witness :
  exists e,
    apply_optimized_blur Stub.GaussianBlur Stub.cv2_resize Stub.filter2D
      (Stub.gradient 20 6) [] = Raise e.
Proof.
  apply (narrow_image_is_not_blurred Stub.GaussianBlur Stub.cv2_resize
           Stub.filter2D (Stub.gradient 20 6) []).
  - exact stub_resize_rejects_empty_size.
  - vm_compute. auto.
Defined.

(** ** [create_blurred_image] *)

Lemma other_class_is_no_nudity_class (s : string) :
  ("CLASS_" +:+ s)%string ∉ BlurredImage.nudity_classes.
Proof.
  unfold BlurredImage.nudity_classes. intros H.
  repeat (apply elem_of_cons in H; destruct H as [H|H];
          [simpl in H; discriminate|]).
  inversion H.
Qed.

Lemma prepare_box_Some (b : box) (r : region) :
  BlurredImage.prepare_box b = Ok (Some r) -> prepared b r.
Proof.
  unfold BlurredImage.prepare_box, prepared. intros H.
  inv_bind H. inv_bind H. inv_bind H.
  destruct (bool_decide (v1 ∈ BlurredImage.nudity_classes)) eqn:Hc;
    [|discriminate].
  destruct (PyFloat.gt (conf b) (PyFloat.lit 3 10)) eqn:Hg; [|discriminate].
  simpl in H. injection H as <-.
  apply bool_decide_eq_true in Hc.
  exists v, v1, v0. repeat split; try assumption.
  destruct (v <? len __labels); [exact E1|].
  injection E1 as <-.
  destruct (other_class_is_no_nudity_class _ Hc).
Qed.

Lemma prepare_boxes_spec (boxes : list box) :
  forall acc out,
    BlurredImage.prepare_boxes boxes acc = Ok out ->
    forall r, r ∈ out -> r ∈ acc \/ exists b, b ∈ boxes /\ prepared b r.
Proof.
  induction boxes as [|b boxes IH]; simpl; intros acc out H r Hr.
  - injection H as <-. left. exact Hr.
  - inv_bind H. destruct (IH _ _ H r Hr) as [Hacc|(b' & Hb' & Hp)].
    + destruct v as [reg|]; [|left; exact Hacc].
      apply elem_of_app in Hacc. destruct Hacc as [Hacc|Hreg];
        [left; exact Hacc|].
      apply list_elem_of_singleton in Hreg. subst r.
      right. exists b. split; [apply list_elem_of_here|].
      apply prepare_box_Some. exact E.
    + right. exists b'. split; [apply list_elem_of_further; exact Hb'|].
      exact Hp.
Qed.

Lemma prepare_results_spec (rs : results) :
  forall acc out,
    BlurredImage.prepare_results rs acc = Ok out ->
    forall r,
      r ∈ out -> r ∈ acc \/ exists b, b ∈ all_boxes rs /\ prepared b r.
Proof.
  unfold all_boxes.
  induction rs as [|[boxes|] rs IH]; simpl; intros acc out H r Hr.
  - injection H as <-. left. exact Hr.
  - inv_bind H. destruct (IH _ _ H r Hr) as [Hv|(b & Hb & Hp)].
    + destruct (prepare_boxes_spec _ _ _ E r Hv) as [Hacc|(b & Hb & Hp)];
        [left; exact Hacc|].
      right. exists b. split; [|exact Hp].
      apply elem_of_app. left. exact Hb.
    + right. exists b. split; [|exact Hp].
      apply elem_of_app. right. exact Hb.
  - exact (IH _ _ H r Hr).
Qed.

Lemma padded_or_outside (sh : Z * Z) (regions : list region) (r c : nat) :
  Forall (fun reg => outside_padded sh reg r c) regions \/
  exists reg, reg ∈ regions /\ near reg r c.
Proof.
  induction regions as [|reg regions IH].
  - left. constructor.
  - destruct IH as [IH|(reg' & Hin & Hnear)].
    + destruct sh as [h w].
      destruct (decide (near reg r c)) as [Hn|Hn].
      * right. exists reg. split; [apply list_elem_of_here | exact Hn].
      * left. constructor; [|exact IH].
        unfold outside_padded, padded_box. intros [Hr Hc].
        apply Hn. unfold near. lia.
    + right. exists reg'. split; [apply list_elem_of_further|]; assumption.
Qed.

Section BlurredImageWritten.

Variable GaussianBlur : image -> Z * Z -> Z -> result image.
Variable cv2_resize : image -> Z * Z -> interpolation -> result image.
Variable filter2D : image -> Z -> array2 float -> result image.

(** X25: what [create_blurred_image] writes has the dimensions of the
    image it read, and every pixel in which the two differ lies within
    five pixels of the box of a detection that the detector reported
    with a nudity class and a confidence above 0.3. *)
Theorem changes_lie_near_detections
    (img out : image) (rs : results) :
  BlurredImage.create_blurred_image GaussianBlur cv2_resize filter2D
    (Some img) rs = Ok out ->
  map length out = map length img /\
  forall r c : nat,
    at2 out r c <> at2 img r c ->
    exists b reg,
      b ∈ all_boxes rs /\ prepared b reg /\ near reg r c.
Proof.
  unfold BlurredImage.create_blurred_image. intros H.
  inv_bind H. inv_bind H.
  destruct v0 as [written|]; [|discriminate]. injection H as ->.
  destruct v as [|reg0 regions].
  - injection E0 as ->. split; [reflexivity|]. intros r c Hne.
    destruct Hne. reflexivity.
  - inv_bind E0. injection E0 as ->.
    apply apply_optimized_blur_spec in E1. destruct E1 as [Hl Hout].
    split; [exact Hl|]. intros r c Hne.
    destruct (padded_or_outside (shape img) (reg0 :: regions) r c)
      as [Hall|(reg & Hin & Hnear)].
    + destruct Hne. apply Hout. exact Hall.
    + destruct (prepare_results_spec _ _ _ E reg Hin) as [Hnil|(b & Hb & Hp)];
        [inversion Hnil|].
      exists b, reg. auto.
Qed.

End BlurredImageWritten.

Lemma changes_lie_near_detections_witness :
  map length
    (match BlurredImage.create_blurred_image Stub.GaussianBlur
             Stub.cv2_resize Stub.filter2D (Some Examples.frame20)
             [Some [Stub.box_of 9 9 11 11 2 9 10]]
     with Ok out => out | Raise _ => [] end)
  = map length Examples.frame20 /\
  forall r c : nat,
    at2 (match BlurredImage.create_blurred_image Stub.GaussianBlur
                 Stub.cv2_resize Stub.filter2D (Some Examples.frame20)
                 [Some [Stub.box_of 9 9 11 11 2 9 10]]
         with Ok out => out | Raise _ => [] end) r c
    <> at2 Examples.frame20 r c ->
    exists b reg,
      b ∈ all_boxes [Some [Stub.box_of 9 9 11 11 2 9 10]] /\
      prepared b reg /\ near reg r c.
Proof.
  apply (changes_lie_near_detections Stub.GaussianBlur Stub.cv2_resize
           Stub.filter2D Examples.frame20 _
           [Some [Stub.box_of 9 9 11 11 2 9 10]]).
  vm_compute. reflexivity.
Defined.

(** ** The statistics of [VideoStreamProcessor] *)

Lemma keeps_self_bind {Self A B} (m : M Self A) (k : A -> M Self B) :
  keeps_self m -> (forall a, keeps_self (k a)) -> keeps_self (m ≫= k).
Proof.
  intros Hm Hk s. rewrite bind_run. pose proof (Hm s) as H.
  destruct (m s) as [[a|e] s1]; simpl in *; [|exact H].
  rewrite Hk. exact H.
Qed.

Lemma keeps_self_ret {Self A} (a : A) : keeps_self (mret a : M Self A).
Proof. intros s. reflexivity. Qed.

Lemma keeps_self_lift {Self A} (r : result A) :
  keeps_self (lift r : M Self A).
Proof. intros s. reflexivity. Qed.

Lemma keeps_self_load {Self} (r : ref) : keeps_self (load r : M Self image).
Proof. intros s. unfold load. destruct (store s !! r); reflexivity. Qed.

Lemma keeps_self_copy {Self} (r : ref) : keeps_self (copy r : M Self ref).
Proof. intros s. unfold copy. destruct (store s !! r); reflexivity. Qed.

Lemma keeps_self_write {Self} (r : ref) (img : image) :
  keeps_self (write r img : M Self unit).
Proof. intros s. reflexivity. Qed.

Lemma records_bind {A B} (m : M VideoStreamProcessor.t A)
    (k : A -> M VideoStreamProcessor.t B) :
  keeps_self m -> (forall a, records_a_time (k a)) ->
  records_a_time (m ≫= k).
Proof.
  intros Hm Hk s. rewrite bind_run. pose proof (Hm s) as H.
  destruct (m s) as [[a|e] s1]; simpl in *; [|exact H].
  rewrite <- H. apply Hk.
Qed.

Section RealtimeStatistics.

Variable GaussianBlur : image -> Z * Z -> Z -> result image.
Variable cv2_resize : image -> Z * Z -> interpolation -> result image.
Variable model : nat -> image -> result results.
Variable clock : nat -> float.
Variable import_labels : result (list string).
Variable sum : list float -> float.

Local Abbreviation St := (state VideoStreamProcessor.t).
Local Abbreviation run :=
  (VideoStreamProcessor.process_single_frame GaussianBlur cv2_resize model
     clock import_labels).

Lemma keeps_self_apply_fast_blur (regions : list region) :
  forall frame,
    keeps_self
      (VideoStreamProcessor.apply_fast_blur GaussianBlur cv2_resize frame
         regions).
Proof.
  induction regions as [|r rest IH]; intros frame;
    cbn [VideoStreamProcessor.apply_fast_blur].
  - apply keeps_self_ret.
  - apply keeps_self_bind; [apply keeps_self_load|]. intros img.
    apply keeps_self_bind; [apply keeps_self_lift|]. intros img'.
    apply keeps_self_bind; [apply keeps_self_write|]. intros _.
    apply IH.
Qed.

Lemma keeps_self_prepare (frame : ref) (rf : float) :
  keeps_self (VideoStreamProcessor.prepare cv2_resize frame rf).
Proof.
  unfold VideoStreamProcessor.prepare. destruct (PyFloat.ne rf PyFloat.one).
  - apply keeps_self_bind; [apply keeps_self_copy|]. intros o.
    apply keeps_self_bind; [apply keeps_self_load|]. intros img.
    destruct (shape img) as [h w].
    repeat (apply keeps_self_bind; [apply keeps_self_lift|]; intros ?).
    apply keeps_self_ret.
  - apply keeps_self_bind; [apply keeps_self_load|]. intros img.
    apply keeps_self_ret.
Qed.

Lemma process_single_frame_records (frame : ref) (thr : float) :
  records_a_time (run frame thr).
Proof.
  unfold VideoStreamProcessor.process_single_frame.
  apply records_bind; [intros s; reflexivity|]. intros process_start.
  apply records_bind; [intros s; reflexivity|]. intros rf.
  apply records_bind; [apply keeps_self_prepare|]. intros [o resized].
  apply records_bind; [intros s; reflexivity|]. intros rs.
  apply records_bind; [apply keeps_self_lift|]. intros regions.
  apply records_bind.
  { destruct regions; [apply keeps_self_ret|].
    apply keeps_self_apply_fast_blur. }
  intros frame' s. cbn.
  exists (PyFloat.sub (clock (clock_reads s)) process_start).
  reflexivity.
Qed.

Lemma append_time_length (x : float) (p : VideoStreamProcessor.t) :
  len (VideoStreamProcessor.processing_times p) <= 100 ->
  len (VideoStreamProcessor.processing_times
         (VideoStreamProcessor.append_time x p))
  = Z.min 100 (len (VideoStreamProcessor.processing_times p) + 1).
Proof.
  intros H. unfold VideoStreamProcessor.append_time.
  cbn [VideoStreamProcessor.processing_times].
  unfold len in *. rewrite length_app. cbn [length].
  destruct (Z.gtb_spec
              (Z.of_nat (length (VideoStreamProcessor.processing_times p) + 1))
              100).
  - rewrite length_drop, length_app. cbn [length]. lia.
  - rewrite length_app. cbn [length]. lia.
Qed.

Lemma counts_convert_holds : counts_convert = true.
Proof. vm_compute. reflexivity. Qed.

Lemma count_converts (n : nat) :
  (1 <= n <= 100)%nat ->
  exists s m e, PyFloat.of_int (Z.of_nat n) = Ok (S754_finite s m e).
Proof.
  intros Hn. pose proof counts_convert_holds as H.
  unfold counts_convert in H. rewrite forallb_forall in H.
  specialize (H n). 
  assert (Hin : In n (seq 1 100)) by (apply in_seq; lia).
  apply H in Hin.
  destruct (PyFloat.of_int (Z.of_nat n)) as [[| | |s m e]|]; try discriminate.
  eauto.
Qed.

Lemma get_performance_stats_returns (p : VideoStreamProcessor.t) :
  (length (VideoStreamProcessor.processing_times p) <= 100)%nat ->
  exists r,
    PerformanceStats.get_performance_stats sum p = Ok r /\
    match r with
    | None => VideoStreamProcessor.processing_times p = []
    | Some st =>
        PerformanceStats.total_frames_processed st
        = len (VideoStreamProcessor.processing_times p) /\
        1 <= PerformanceStats.total_frames_processed st <= 100
    end.
Proof.
  intros Hl. unfold PerformanceStats.get_performance_stats.
  destruct (VideoStreamProcessor.processing_times p) as [|first rest] eqn:E.
  - exists None. auto.
  - assert (Hn : (1 <= length (first :: rest) <= 100)%nat)
      by (cbn [length] in *; lia).
    destruct (count_converts _ Hn) as (sg & m & e & Hc).
    cbv zeta. unfold len. rewrite Hc. rewrite result_bind_Ok.
    change (PyFloat.div (sum (first :: rest)) (S754_finite sg m e))
      with (Ok (A := float)
              (SFdiv PyFloat.prec PyFloat.emax (sum (first :: rest))
                 (S754_finite sg m e))).
    rewrite result_bind_Ok.
    set (avg := SFdiv PyFloat.prec PyFloat.emax (sum (first :: rest))
                  (S754_finite sg m e)).
    assert (Hfps : exists v,
               (if int_lt_float 0 avg
                then fps ← PyFloat.div PyFloat.one avg; Ok (VFloat fps)
                else Ok (VInt 0)) = Ok v).
    { destruct (int_lt_float 0 avg) eqn:Hpos; [|eauto].
      destruct avg as [z| | |]; [discriminate | | |];
        unfold PyFloat.div; rewrite result_bind_Ok; eauto. }
    destruct Hfps as [v ->]. rewrite result_bind_Ok.
    eexists. split; [reflexivity|]. cbn.
    split; [reflexivity|]. cbn [length] in *. lia.
Qed.

(** X26: [total_frames_processed] is the length of a queue of at most a
    hundred processing times, not a count of frames.  On a processor
    that holds at most a hundred times, after any call of
    [process_single_frame], [get_performance_stats] returns without an
    exception, the division by the number of times included, and
    reports at most 100 frames; every call that returns adds one to the
    report until it stands at 100, where it stays. *)
Theorem frames_processed_saturates
    (s : St) (frame : ref) (thr : float) :
  len (VideoStreamProcessor.processing_times (self s)) <= 100 ->
  exists r,
    PerformanceStats.get_performance_stats sum (self (run frame thr s).2)
    = Ok r /\
    (forall st, r = Some st ->
                1 <= PerformanceStats.total_frames_processed st <= 100) /\
    (forall a,
        (run frame thr s).1 = Ok a ->
        exists st,
          r = Some st /\
          PerformanceStats.total_frames_processed st
          = Z.min 100
              (len (VideoStreamProcessor.processing_times (self s)) + 1)).
Proof.
  intros Hl. pose proof (process_single_frame_records frame thr s) as Hrec.
  assert (Hl' : (length (VideoStreamProcessor.processing_times
                           (self (run frame thr s).2)) <= 100)%nat).
  { destruct ((run frame thr s).1) as [a|e].
    - destruct Hrec as [x ->].
      pose proof (append_time_length x (self s) Hl) as H.
      unfold len in *. lia.
    - rewrite Hrec. unfold len in Hl. lia. }
  destruct (get_performance_stats_returns _ Hl') as (r & Hr & Hspec).
  exists r. split; [exact Hr|]. split.
  - intros st ->. apply Hspec.
  - intros a Ha. rewrite Ha in Hrec. destruct Hrec as [x Hx].
    pose proof (append_time_length x (self s) Hl) as H.
    destruct r as [st|].
    + exists st. split; [reflexivity|].
      destruct Hspec as [-> _]. rewrite Hx. exact H.
    + exfalso. rewrite Hx in Hspec. rewrite Hspec in H.
      unfold len in H. cbn [length] in H. lia.
Qed.

End RealtimeStatistics.

Lemma frames_processed_saturates_witness :
  exists r,
    PerformanceStats.get_performance_stats
      (fun times => fold_left PyFloat.add times (S754_zero false))
      (self (VideoStreamProcessor.process_single_frame Stub.GaussianBlur
               Stub.cv2_resize (fun n img => Ok []) Stub.clock
               (Raise ImportError) 0%nat Examples.half
               (State (VideoStreamProcessor.Make PyFloat.one [])
                  {[ 0%nat := Examples.frame20 ]} 0 0 [])).2)
    = Ok r /\
    (forall st, r = Some st ->
                1 <= PerformanceStats.total_frames_processed st <= 100) /\
    (forall a,
        (VideoStreamProcessor.process_single_frame Stub.GaussianBlur
           Stub.cv2_resize (fun n img => Ok []) Stub.clock
           (Raise ImportError) 0%nat Examples.half
           (State (VideoStreamProcessor.Make PyFloat.one [])
              {[ 0%nat := Examples.frame20 ]} 0 0 [])).1 = Ok a ->
        exists st,
          r = Some st /\
          PerformanceStats.total_frames_processed st
          = Z.min 100
              (len (VideoStreamProcessor.processing_times
                      (self (State (VideoStreamProcessor.Make PyFloat.one [])
                               {[ 0%nat := Examples.frame20 ]} 0 0 []))) + 1)).
Proof.
  apply (frames_processed_saturates Stub.GaussianBlur Stub.cv2_resize
           (fun n img => Ok []) Stub.clock (Raise ImportError)
           (fun times => fold_left PyFloat.add times (S754_zero false))
           (State (VideoStreamProcessor.Make PyFloat.one [])
              {[ 0%nat := Examples.frame20 ]} 0 0 [])
           0%nat Examples.half).
  vm_compute. discriminate.
Defined.

(** ** The blurred frame and its cache entry *)

Lemma blur_progress_snoc
    (GaussianBlur : image -> Z * Z -> Z -> result image)
    (cv2_resize : image -> Z * Z -> interpolation -> result image)
    (before : list region) (reg : region) :
  forall img img2 : image,
    blur_progress GaussianBlur cv2_resize img (before ++ [reg])
    = (img2, None) ->
    exists img1,
      blur_progress GaussianBlur cv2_resize img before = (img1, None) /\
      ultra_fast_blur_region GaussianBlur cv2_resize img1 reg = Ok img2.
Proof.
  induction before as [|r0 before IH]; intros img img2 H; simpl in *.
  - exists img. split; [reflexivity|].
    destruct (ultra_fast_blur_region GaussianBlur cv2_resize img reg);
      [|discriminate].
    injection H as <-. reflexivity.
  - destruct (ultra_fast_blur_region GaussianBlur cv2_resize img r0);
      [|discriminate].
    apply IH. exact H.
Qed.

Section FlaskAliasing.

Variable GaussianBlur : image -> Z * Z -> Z -> result image.
Variable cv2_resize : image -> Z * Z -> interpolation -> result image.
Variable model : nat -> image -> float -> Z -> result results.
Variable clock : nat -> float.

Local Abbreviation St := (state UltraFastNSFWProcessor).
Local Abbreviation process :=
  (process_frame GaussianBlur cv2_resize model clock).
Local Abbreviation blur := (_apply_ultra_fast_blur GaussianBlur cv2_resize).
Local Abbreviation progress := (blur_progress GaussianBlur cv2_resize).
Local Abbreviation handled start frame fid ct fm :=
  (try_except
     (process_uncached GaussianBlur cv2_resize model clock start frame fid
        ct fm)
     (fun e => logger_error e;; mret (frame, []))).

(** The steps of the blur of a region that is not empty and lies in the
    frame: the region is blurred, shrunk, enlarged to its size again,
    and the result is assigned to the slice of the region. *)
Lemma ultra_fast_blur_region_steps (img img' : image) (reg : region) :
  rectangular img (width img) ->
  in_frame (height img) (width img) reg ->
  rx1 reg < rx2 reg -> ry1 reg < ry2 reg ->
  ultra_fast_blur_region GaussianBlur cv2_resize img reg = Ok img' ->
  exists ksize blurred dsize small patch,
    GaussianBlur (slice2 img (ry1 reg) (ry2 reg) (rx1 reg) (rx2 reg))
      ksize 0 = Ok blurred /\
    cv2_resize blurred dsize INTER_LINEAR = Ok small /\
    cv2_resize small (rx2 reg - rx1 reg, ry2 reg - ry1 reg) INTER_NEAREST
    = Ok patch /\
    assign_slice2 img (ry1 reg) (ry2 reg) (rx1 reg) (rx2 reg) patch
    = Ok img'.
Proof.
  intros Hrect [(Hx1 & Hx12 & Hx2) (Hy1 & Hy12 & Hy2)] Hx Hy.
  unfold ultra_fast_blur_region.
  destruct (Z.gtb_spec (rx2 reg) (rx1 reg)); [|lia].
  destruct (Z.gtb_spec (ry2 reg) (ry1 reg)); [|lia]. cbn [andb].
  assert (Hsh : shape (slice2 img (ry1 reg) (ry2 reg) (rx1 reg) (rx2 reg))
                = (ry2 reg - ry1 reg, rx2 reg - rx1 reg)).
  { apply (slice2_shape img (width img)); try assumption; lia. }
  unfold size3. pose proof Hsh as Hsh'. unfold shape in Hsh'.
  injection Hsh' as Hh Hw. rewrite Hh, Hw.
  destruct (Z.gtb_spec ((ry2 reg - ry1 reg) * (rx2 reg - rx1 reg) * 3) 0);
    [|nia].
  rewrite Hsh.
  destruct (GaussianBlur _ _ 0) as [blurred|e] eqn:Hg; [|discriminate].
  rewrite result_bind_Ok.
  destruct (Z.gtb_spec (Z.max 2 (Z.min ((rx2 reg - rx1 reg) / 12)
                                   ((ry2 reg - ry1 reg) / 12))) 1); [|lia].
  destruct (cv2_resize blurred _ INTER_LINEAR) as [small|e] eqn:Hs;
    [|discriminate].
  rewrite result_bind_Ok.
  destruct (cv2_resize small _ INTER_NEAREST) as [patch|e] eqn:Hp;
    [|discriminate].
  rewrite result_bind_Ok. intros Hassign.
  eexists _, blurred, _, small, patch. repeat split; eassumption.
Qed.

(** The entry that [cache_store] leaves for the identifier: it carries
    the reading of the clock at which it was written, and it is there
    unless the cleaning, one reading later, finds it older than the
    time-to-live. *)
Lemma cache_store_entry (fid : option string) (id : string) (frame : ref)
    (dets : list detection) (s : St) :
  truthy_id fid = Some id ->
  frame_cache (self (cache_store clock fid frame dets s).2) !! id
  = (if expired (clock (S (clock_reads s))) (cache_ttl (self s))
          (CacheEntry frame dets (clock (clock_reads s)))
     then None
     else Some (CacheEntry frame dets (clock (clock_reads s)))).
Proof.
  intros Hid. unfold cache_store. rewrite Hid. simpl.
  destruct (expired _ _ _) eqn:Hexp.
  - apply map_lookup_filter_None_2. right. intros x Hx.
    rewrite lookup_insert_eq in Hx. injection Hx as <-. simpl.
    congruence.
  - apply map_lookup_filter_Some_2; [apply lookup_insert_eq|].
    simpl. exact Hexp.
Qed.

(** The state in which a call that completes stores its result. *)
Lemma blurred_state (frame : ref) (regions : list region) (s : St)
    (img img2 : image) :
  store s !! frame = Some img ->
  progress img regions = (img2, None) ->
  (match regions with
   | [] => mret frame
   | _ :: _ => blur frame regions
   end) s
  = (Ok frame, with_store (<[frame := img2]> (store s)) s).
Proof.
  intros H1 H5. destruct regions as [|r regions].
  - simpl in H5. injection H5 as <-.
    rewrite (insert_id _ _ _ H1). destruct s; reflexivity.
  - rewrite (_apply_ultra_fast_blur_spec GaussianBlur cv2_resize frame
               (r :: regions) _ img) by exact H1.
    rewrite H5. reflexivity.
Qed.

Lemma uncached_completes_entry start frame fid ct fm (s : St)
    img img' rs regions img2 id :
  store s !! frame = Some img ->
  resize_for_inference cv2_resize img (factor s fm) = Ok img' ->
  model (detector_calls s) img' (threshold s ct) (max_detections (self s))
  = Ok rs ->
  _extract_blur_regions rs (shape img) (factor s fm) = Ok regions ->
  progress img regions = (img2, None) ->
  truthy_id fid = Some id ->
  frame_cache (self (handled start frame fid ct fm s).2) !! id
  = (if expired (clock (S (clock_reads s))) (cache_ttl (self s))
          (CacheEntry frame (map detection_of regions)
             (clock (clock_reads s)))
     then None
     else Some (CacheEntry frame (map detection_of regions)
                  (clock (clock_reads s)))).
Proof.
  intros H1 H2 H3 H4 H5 Hid. unfold threshold in H3.
  set (X := with_store (<[frame := img2]> (store (called s))) (called s)).
  assert (HX : (match regions with
                | [] => mret frame
                | _ :: _ => blur frame regions
                end) (called s) = (Ok frame, X)).
  { apply (blurred_state frame regions (called s) img img2);
      [exact H1 | exact H5]. }
  destruct (cache_store_spec clock fid frame (map detection_of regions) X)
    as (s2 & Hc & _ & _ & _).
  destruct (track_performance_spec clock start s2)
    as (s3 & Ht & _ & Hfc3 & _).
  assert (Hrun : handled start frame fid ct fm s
                 = (Ok (frame, map detection_of regions), s3)).
  { rewrite try_except_run. unfold process_uncached.
    rewrite bind_run, (load_run _ _ _ H1). cbv beta iota zeta.
    rewrite bind_run, gets_run. cbv beta iota zeta.
    rewrite bind_run, gets_run. cbv beta iota zeta.
    rewrite bind_run. unfold lift at 1. fold (factor s fm). rewrite H2.
    cbv beta iota zeta.
    rewrite bind_run, gets_run. cbv beta iota zeta.
    rewrite bind_run. unfold call_model at 1. rewrite H3.
    cbv beta iota zeta. fold (called s).
    rewrite bind_run. unfold lift at 1. rewrite H4. cbv beta iota zeta.
    rewrite bind_run, HX. cbv beta iota zeta.
    rewrite bind_run, Hc. cbv beta iota zeta.
    rewrite bind_run, Ht. cbv beta iota zeta.
    reflexivity. }
  rewrite Hrun. cbn [snd]. rewrite Hfc3.
  pose proof (cache_store_entry fid id frame (map detection_of regions) X Hid)
    as He.
  rewrite Hc in He. exact He.
Qed.

(** C10: a call for [id] that is not served from the cache and returns
    at least one detection returns the reference it was given.  The
    buffer behind that reference was written in place, region after
    region, and no other buffer changed; the last write is the blur of
    the last region, and when that region is not empty, every pixel
    inside it now holds the pixel of the patch that [cv2.resize] made,
    at the size of the region, from the Gaussian blur of the region
    (the frame being a rectangular array and [cv2.resize] returning the
    size it is asked for).  The entry that the call wrote into the cache
    for [id], at the clock reading that follows the cache check, holds
    that same reference, not a copy; it is in the cache after the call
    unless the cleaning that follows, one clock reading later, found it
    older than the time-to-live. *)
Theorem blurred_frame_is_shared
    (s s' : St) (frame : ref) (id : string) (ct : option float) (fm : bool)
    (r : ref) (dets : list detection) :
  id <> EmptyString ->
  fresh_entry clock s (Some id) = None ->
  process frame (Some id) ct fm s = (Ok (r, dets), s') ->
  dets <> [] ->
  r = frame /\
  (exists img regions before reg img1 img2,
      store s !! frame = Some img /\
      selects cv2_resize model s img ct fm regions /\
      dets = map detection_of regions /\
      regions = before ++ [reg] /\
      progress img before = (img1, None) /\
      ultra_fast_blur_region GaussianBlur cv2_resize img1 reg = Ok img2 /\
      store s' = <[frame := img2]> (store s) /\
      (returns_dsize cv2_resize -> rectangular img (width img) ->
       rx1 reg < rx2 reg -> ry1 reg < ry2 reg ->
       exists ksize blurred dsize small patch,
         GaussianBlur (slice2 img1 (ry1 reg) (ry2 reg) (rx1 reg) (rx2 reg))
           ksize 0 = Ok blurred /\
         cv2_resize blurred dsize INTER_LINEAR = Ok small /\
         cv2_resize small (rx2 reg - rx1 reg, ry2 reg - ry1 reg)
           INTER_NEAREST = Ok patch /\
         forall row col : nat,
           inside reg row col ->
           at2 img2 row col
           = at2 patch (row - Z.to_nat (ry1 reg))
               (col - Z.to_nat (rx1 reg)))) /\
  frame_cache (self s') !! id
  = (if expired (clock (S (clock_reads (after_lookup s (Some id)))))
          (cache_ttl (self s))
          (CacheEntry frame dets
             (clock (clock_reads (after_lookup s (Some id)))))
     then None
     else Some (CacheEntry frame dets
                  (clock (clock_reads (after_lookup s (Some id)))))).
Proof.
  intros Hid Hmiss Hrun Hdets.
  destruct (process_frame_cases GaussianBlur cv2_resize model clock
              frame (Some id) ct fm s)
    as (r0 & d0 & s0 & Hrun0 & Hcases).
  rewrite Hrun in Hrun0. injection Hrun0 as <- <- <-.
  rewrite Hmiss in Hcases.
  destruct Hcases as (-> & _ & [Hc|[Hc|Hc]]).
  - destruct Hc as (-> & _). congruence.
  - destruct Hc as (? & ? & ? & ? & _ & _ & _ & -> & _). congruence.
  - destruct Hc as (img & regions & img2 & Hl & Hsel & Hp & -> & Hst & _).
    split; [reflexivity|].
    destruct Hsel as (img' & rs & Hres & Hm & Hx).
    destruct (after_lookup_fields s (Some id)) as (Hself & Hstore & Hdc & _).
    split.
    + destruct (exists_last (l := regions)) as (before & reg & ->).
      { intros ->. apply Hdets. reflexivity. }
      destruct (blur_progress_snoc GaussianBlur cv2_resize before reg img
                  img2 Hp) as (img1 & Hp1 & Hreg).
      exists img, (before ++ [reg]), before, reg, img1, img2.
      split; [exact Hl|]. split; [exists img', rs; auto|].
      split; [reflexivity|]. split; [reflexivity|].
      split; [exact Hp1|]. split; [exact Hreg|]. split; [exact Hst|].
      intros Hret Hrect Hx12 Hy12.
      pose proof (extracted_regions_in_frame _ _ _ _ Hx) as Hin.
      rewrite Forall_app in Hin. destruct Hin as [Hbefore Hlast].
      inversion Hlast as [|? ? Hframe _]; subst.
      assert (Hlen : map length img1 = map length img).
      { pose proof (blur_progress_spec GaussianBlur cv2_resize before img)
          as Hspec.
        rewrite Hp1 in Hspec. apply Hspec.
        eapply Forall_impl; [exact Hbefore|].
        intros x [(? & _) (? & _)]. split; assumption. }
      destruct (same_lengths_rectangular img img1 (width img) Hlen Hrect)
        as (Hrect1 & Hh1 & Hw1).
      rewrite <- Hh1, <- Hw1 in Hframe. rewrite <- Hw1 in Hrect1.
      destruct (ultra_fast_blur_region_steps img1 img2 reg Hrect1 Hframe
                  Hx12 Hy12 Hreg)
        as (ksize & blurred & dsize & small & patch & Hg & Hs & Hpatch & Ha).
      exists ksize, blurred, dsize, small, patch.
      split; [exact Hg|]. split; [exact Hs|]. split; [exact Hpatch|].
      intros row col [Hrow Hcol].
      destruct (Hret _ _ _ _ _ Hpatch) as [Hph Hpw].
      destruct Hframe as [(? & ? & ?) (? & ? & ?)].
      apply (assign_slice2_inside img1 patch img2 (width img1)
               (ry1 reg) (ry2 reg) (rx1 reg) (rx2 reg));
        try assumption; lia.
    + rewrite (process_frame_miss GaussianBlur cv2_resize model clock
                 frame (Some id) ct fm s Hmiss) in Hrun.
      assert (Hs' : s' = (handled (clock (clock_reads s)) frame (Some id)
                            ct fm (after_lookup s (Some id))).2)
        by (rewrite Hrun; reflexivity).
      rewrite Hs', <- Hself.
      apply (uncached_completes_entry (clock (clock_reads s)) frame
               (Some id) ct fm (after_lookup s (Some id)) img img' rs
               regions img2 id).
      * rewrite Hstore. exact Hl.
      * unfold factor in *. rewrite Hself. exact Hres.
      * unfold threshold, factor in *. rewrite Hself, Hdc. exact Hm.
      * unfold factor in *. rewrite Hself. exact Hx.
      * exact Hp.
      * apply truthy_id_nonempty. exact Hid.
Qed.

End FlaskAliasing.

Lemma blurred_frame_is_shared_witness :
  (0%nat = 0%nat /\
   (exists img regions before reg img1 img2,
       store Examples.s0 !! 0%nat = Some img /\
       selects Stub.cv2_resize (Stub.model Examples.one_box) Examples.s0 img
         None false regions /\
       Examples.one_detection = map detection_of regions /\
       regions = before ++ [reg] /\
       blur_progress Stub.GaussianBlur Stub.cv2_resize img before
       = (img1, None) /\
       ultra_fast_blur_region Stub.GaussianBlur Stub.cv2_resize img1 reg
       = Ok img2 /\
       store (Examples.first_call Stub.clock).2
       = <[0%nat := img2]> (store Examples.s0) /\
       (returns_dsize Stub.cv2_resize -> rectangular img (width img) ->
        rx1 reg < rx2 reg -> ry1 reg < ry2 reg ->
        exists ksize blurred dsize small patch,
          Stub.GaussianBlur
            (slice2 img1 (ry1 reg) (ry2 reg) (rx1 reg) (rx2 reg)) ksize 0
          = Ok blurred /\
          Stub.cv2_resize blurred dsize INTER_LINEAR = Ok small /\
          Stub.cv2_resize small (rx2 reg - rx1 reg, ry2 reg - ry1 reg)
            INTER_NEAREST = Ok patch /\
          forall row col : nat,
            inside reg row col ->
            at2 img2 row col
            = at2 patch (row - Z.to_nat (ry1 reg))
                (col - Z.to_nat (rx1 reg)))) /\
   frame_cache (self (Examples.first_call Stub.clock).2) !! "f1"%string
   = (if expired
           (Stub.clock
              (S (clock_reads (after_lookup Examples.s0 (Some "f1"%string)))))
           (cache_ttl (self Examples.s0))
           (CacheEntry 0%nat Examples.one_detection
              (Stub.clock
                 (clock_reads
                    (after_lookup Examples.s0 (Some "f1"%string)))))
      then None
      else Some (CacheEntry 0%nat Examples.one_detection
                   (Stub.clock
                      (clock_reads
                         (after_lookup Examples.s0 (Some "f1"%string))))))) /\
  frame_cache (self (Examples.first_call Stub.clock).2) !! "f1"%string
  = Some (CacheEntry 0%nat Examples.one_detection (Stub.clock 1)) /\
  at2 Examples.frame20 5 5 = Some ("005"%byte, "005"%byte, "000"%byte) /\
  (store (Examples.first_call Stub.clock).2 !! 0%nat
     ≫= fun img => at2 img 5 5)
  = Some ("004"%byte, "004"%byte, "000"%byte).
Proof.
  split; [|vm_compute; repeat split].
  apply (blurred_frame_is_shared Stub.GaussianBlur Stub.cv2_resize
           (Stub.model Examples.one_box) Stub.clock
           Examples.s0 (Examples.first_call Stub.clock).2 0%nat "f1"%string
           None false 0%nat Examples.one_detection).
  - discriminate.
  - reflexivity.
  - vm_compute. reflexivity.
  - discriminate.
Defined.
